(** * The entitlement-gated entity cache of [server/]

    A shallow embedding of [server/models.py], [server/auth.py],
    [server/cache.py], [server/tools.py], [server/resources.py] and
    [server/lifespan.py].

    Python state (the module-level [_entitlement_cache], the one-element
    [cache_holder] list, the [CachedData] objects it refers to, the wall
    clock, the log) is threaded explicitly through a state-and-exception
    monad.  [await] points are run to completion: one coroutine at a time. *)

From stdpp Require Import gmap strings list sorting pretty.
From Stdlib Require Import ZArith QArith Ascii String.

Local Open Scope Z_scope.
Local Open Scope string_scope.

(** ** Strings

    A [str] is a [string], one [ascii] per character of a header value
    (Latin-1) and per byte of a source literal. *)

(** Line feed, the [\n] of the source's string literals. *)
Definition nl : string := String "010"%char EmptyString.

(** [str.lower()] on one character.  Header values reach the server decoded
    as Latin-1, where [lower] maps [A-Z] and [U+00C0..U+00DE] (but not the
    multiplication sign [U+00D7]) thirty-two places up and fixes the rest. *)
Definition lower_char (c : ascii) : ascii :=
  let n := N_of_ascii c in
  if ((65 <=? n) && (n <=? 90))%N then ascii_of_N (n + 32)
  else if ((192 <=? n) && (n <=? 222) && negb (n =? 215))%N
       then ascii_of_N (n + 32)
  else c.

Fixpoint lower (s : string) : string :=
  match s with
  | EmptyString => EmptyString
  | String c s' => String (lower_char c) (lower s')
  end.

(** [s.startswith(p)]. *)
Definition startswith (s p : string) : bool := String.prefix p s.

(** The slice [s[n:]]. *)
Fixpoint slice_from (n : nat) (s : string) : string :=
  match n, s with
  | O, _ => s
  | S n', String _ s' => slice_from n' s'
  | S _, EmptyString => EmptyString
  end.

(** [sep.join(parts)]. *)
Definition join (sep : string) (parts : list string) : string :=
  String.concat sep parts.

(** Code-point order on strings, the order [sorted] uses. *)
Definition str_le (a b : string) : Prop := String.leb a b = true.
#[global] Instance str_le_dec : RelDecision str_le :=
  fun a b => decide (String.leb a b = true).

(** ** Insertion-ordered dictionaries

    A Python [dict] keeps its keys in insertion order and [values()]
    iterates in that order, which the text of [list_entities] depends on. *)

Section PyDict.
Context {V : Type}.

Definition pydict := list (string * V).

Fixpoint dict_get (d : pydict) (k : string) : option V :=
  match d with
  | [] => None
  | (k', v) :: d' => if decide (k = k') then Some v else dict_get d' k
  end.

(** [d[k] = v]: overwrite in place when the key is there, append
    otherwise. *)
Fixpoint dict_setitem (d : pydict) (k : string) (v : V) : pydict :=
  match d with
  | [] => [(k, v)]
  | (k', v') :: d' =>
      if decide (k = k') then (k, v) :: d'
      else (k', v') :: dict_setitem d' k v
  end.

Definition dict_values (d : pydict) : list V := d.*2.

Definition dict_len (d : pydict) : nat := List.length d.

(** [{key(x): val(x) for x in items}] with the pair already computed. *)
Definition dict_comprehension (items : list (string * V)) : pydict :=
  fold_left (fun d kv => dict_setitem d kv.1 kv.2) items [].
End PyDict.

Arguments pydict : clear implicits.

(** ** [models.py] *)

Module EntityData.
Record t := mk {
  id : string;
  name : string;
  category : string;
  metadata : pydict string;
}.
End EntityData.

Module UserInfo.
Record t := mk {
  sub : string;
  name : string;
  email : string;
  roles : list string;
  entitlements : gmap string (list string);
}.
End UserInfo.

(** Instants are microseconds since the epoch (UTC), the resolution of
    [datetime]; a [timedelta] is a difference of two instants. *)
Definition datetime := Z.
Definition timedelta := Z.

(** The seconds of a [timedelta] as an exact number. *)
Definition total_seconds (d : timedelta) : Q := d # 1000000.

(** The integer nearest to [n / d], for [0 < d]; of two equally near ones
    the even one. *)
Definition round_half_even (n d : Z) : Z :=
  let q := (n / d)%Z in
  match (2 * (n mod d) ?= d)%Z with
  | Lt => q
  | Gt => (q + 1)%Z
  | Eq => if Z.even q then q else (q + 1)%Z
  end.

(** [n / d] on two positive [int]s: the [float] nearest to the quotient,
    ties to even.  A [float] is a binary64 number, here the rational it
    stands for: [m * 2 ^ e] with a significand [m] of 53 bits.  The
    quotients of this program lie between [10 ** -6] and the seconds of
    the range of [datetime], where binary64 has neither subnormal numbers
    nor overflow, so the exponent is not bounded here. *)
Definition truediv_pos (n d : Z) : Q :=
  let s := (Z.log2 d + 1)%Z in
  let e := (Z.log2 (n * 2 ^ s / d) - s - 52)%Z in
  let m := round_half_even (n * 2 ^ Z.max 0 (- e)) (d * 2 ^ Z.max 0 e) in
  if (0 <=? e)%Z then inject_Z (m * 2 ^ e) else m # Z.to_pos (2 ^ (- e)).

(** [int.__truediv__] for a positive divisor. *)
Definition int_truediv (n d : Z) : Q :=
  match n with
  | Z0 => 0%Q
  | Zpos _ => truediv_pos n d
  | Zneg _ => Qopp (truediv_pos (- n) d)
  end.

(** [timedelta.total_seconds()] as the interpreter evaluates it: the
    microseconds divided by [10 ** 6], a [float]. *)
Definition float_total_seconds (d : timedelta) : Q := int_truediv d 1000000.

Module CachedData.
Record t := mk {
  entities : pydict EntityData.t;
  last_refreshed_at : datetime;
  ttl_seconds : Z;
}.

(** The property [is_stale], with the instant [datetime.now] returns
    passed in.  [total_seconds()] is taken exactly here.  The comparison
    the interpreter makes, on the rounded seconds, is [is_stale_float_at]
    below; the two agree at every instant for each ttl from 0 up to, and
    not including, 2^34 seconds. *)
Definition is_stale_at (now : datetime) (self : t) : bool :=
  let elapsed := total_seconds (now - last_refreshed_at self) in
  negb (Qle_bool elapsed (inject_Z (ttl_seconds self))).

(** [elapsed > self.ttl_seconds] on the [float] that [total_seconds()]
    returns; Python compares a [float] with an [int] by their exact
    values. *)
Definition is_stale_float_at (now : datetime) (self : t) : bool :=
  let elapsed := float_total_seconds (now - last_refreshed_at self) in
  negb (Qle_bool elapsed (inject_Z (ttl_seconds self))).
End CachedData.

Module UserEntitlements.
Record t := mk {
  user_id : string;
  global_roles : gset string;
  permitted_categories : gset string;
}.
End UserEntitlements.

(** ** Exceptions *)

Inductive PyExc :=
| PermissionError (msg : string)
| ValueError
| IndexError
| HTTPStatusError (status : Z)
| TransportError
| ValidationError
| CancelledError
| DanglingReference.

(** Membership in [Exception], what [except Exception] catches:
    [asyncio.CancelledError] derives from [BaseException] only. *)
Definition is_Exception (e : PyExc) : bool :=
  match e with
  | CancelledError => false
  | _ => true
  end.

(** The class of an exception, forgetting its arguments. *)
Inductive ExcClass :=
| cPermissionError | cValueError | cIndexError | cHTTPStatusError
| cTransportError | cValidationError | cCancelledError | cDanglingReference.

Definition class_of (e : PyExc) : ExcClass :=
  match e with
  | PermissionError _ => cPermissionError
  | ValueError => cValueError
  | IndexError => cIndexError
  | HTTPStatusError _ => cHTTPStatusError
  | TransportError => cTransportError
  | ValidationError => cValidationError
  | CancelledError => cCancelledError
  | DanglingReference => cDanglingReference
  end.

(** ** What lies outside the repository *)

(** Values the source formats with [{...}] inside an f-string, other than
    plain [str]s. *)
Inductive PyVal :=
| VTuple (items : list string)
| VSet (items : gset string)
| VDict (items : pydict string).

Inductive NetCall :=
| GetUserinfo (url token : string)
| GetEntities (url : string).

(** The answer to one request: how long it took and what came back.  A
    failure is whatever [httpx], [raise_for_status], [response.json()] or
    [model_validate] raised. *)
Record Reply (A : Type) := mkReply {
  took : timedelta;
  outcome : PyExc + A;
}.
Arguments mkReply {A}.
Arguments took {A}.
Arguments outcome {A}.

(** The Python runtime and the two network services.  Each service answers
    from the history of calls made so far, so its answers may change over
    time.  [entities_endpoint] yields, for a well-formed response, the pairs
    [(entity["id"], EntityData.model_validate(entity))] in response order. *)
Record Externals := {
  sha256_hexdigest : string -> string;
  format_value : PyVal -> string;
  int_of_str : string -> option Z;
  isoformat : datetime -> string;
  userinfo_endpoint : list NetCall -> string -> string -> Reply UserInfo.t;
  entities_endpoint :
    list NetCall -> string -> Reply (list (string * EntityData.t));
}.

(** ** Process state *)

Inductive LogRecord :=
| LogInfo (msg : string) (arg : string)
| LogException (msg : string) (exc : PyExc).

(** A reference to a [CachedData] object: its index in [heap]. *)
Definition ref := nat.

Record World := mkWorld {
  environ : gmap string string;
  clock : datetime;
  _entitlement_cache : gmap string UserEntitlements.t;
  heap : list CachedData.t;
  cache_holder : list ref;
  network : list NetCall;
  log : list LogRecord;
}.

Definition set_clock (t : datetime) (w : World) : World :=
  mkWorld (environ w) t (_entitlement_cache w) (heap w) (cache_holder w)
          (network w) (log w).
Definition set_entitlement_cache (c : gmap string UserEntitlements.t)
    (w : World) : World :=
  mkWorld (environ w) (clock w) c (heap w) (cache_holder w)
          (network w) (log w).
Definition set_heap (h : list CachedData.t) (w : World) : World :=
  mkWorld (environ w) (clock w) (_entitlement_cache w) h (cache_holder w)
          (network w) (log w).
Definition set_cache_holder (l : list ref) (w : World) : World :=
  mkWorld (environ w) (clock w) (_entitlement_cache w) (heap w) l
          (network w) (log w).
Definition set_network (n : list NetCall) (w : World) : World :=
  mkWorld (environ w) (clock w) (_entitlement_cache w) (heap w)
          (cache_holder w) n (log w).
Definition set_log (l : list LogRecord) (w : World) : World :=
  mkWorld (environ w) (clock w) (_entitlement_cache w) (heap w)
          (cache_holder w) (network w) l.

(** ** The monad *)

Inductive Result (A : Type) :=
| Return (a : A)
| Raise (e : PyExc).
Arguments Return {A}.
Arguments Raise {A}.

Definition M (A : Type) : Type := World -> Result A * World.

Definition ret {A} (a : A) : M A := fun w => (Return a, w).
Definition raise {A} (e : PyExc) : M A := fun w => (Raise e, w).
Definition bind {A B} (m : M A) (k : A -> M B) : M B :=
  fun w =>
    match m w with
    | (Return a, w') => k a w'
    | (Raise e, w') => (Raise e, w')
    end.

Declare Scope py_scope.
Delimit Scope py_scope with py.
Notation "x <- m ; k" := (bind m (fun x => k))
  (at level 20, m at level 100, k at level 200, only parsing) : py_scope.
Local Open Scope py_scope.

(** [try: body  except Exception: handler]. *)
Definition try_except {A} (body : M A) (handler : PyExc -> M A) : M A :=
  fun w =>
    match body w with
    | (Raise e, w') =>
        if is_Exception e then handler e w' else (Raise e, w')
    | r => r
    end.

Definition get {A} (f : World -> A) : M A := fun w => (Return (f w), w).
Definition modify (f : World -> World) : M unit := fun w => (Return tt, f w).

(** [os.environ.get(key, default)]. *)
Definition environ_get (key dflt : string) : M string :=
  get (fun w => default dflt (environ w !! key)).

(** [datetime.now(timezone.utc)].  The clock of a world moves where the
    program waits, in [asyncio_sleep] and [http_get]; the time that goes by
    between two other steps is put into a world with [time_passes]. *)
Definition datetime_now : M datetime := get clock.

(** [await asyncio.sleep(delay)]: time passes; a non-positive delay returns
    at once. *)
Definition asyncio_sleep (delay : Z) : M unit :=
  modify (fun w => set_clock (clock w + Z.max 0 delay * 1000000) w).

Definition logger_info (msg arg : string) : M unit :=
  modify (fun w => set_log (log w ++ [LogInfo msg arg]) w).
Definition logger_exception (msg : string) (e : PyExc) : M unit :=
  modify (fun w => set_log (log w ++ [LogException msg e]) w).

(** Constructing a [CachedData] object yields a reference to a new cell. *)
Definition new_CachedData (c : CachedData.t) : M ref :=
  fun w => (Return (List.length (heap w)), set_heap (heap w ++ [c]) w).

Definition deref (r : ref) : M CachedData.t :=
  fun w =>
    match heap w !! r with
    | Some c => (Return c, w)
    | None => (Raise DanglingReference, w)
    end.

(** [cache_holder[0]]. *)
Definition cache_holder_getitem0 : M ref :=
  fun w =>
    match cache_holder w with
    | r :: _ => (Return r, w)
    | [] => (Raise IndexError, w)
    end.

(** [cache_holder[0] = r]. *)
Definition cache_holder_setitem0 (r : ref) : M unit :=
  fun w =>
    match cache_holder w with
    | _ :: _ => (Return tt, set_cache_holder (<[0%nat := r]> (cache_holder w)) w)
    | [] => (Raise IndexError, w)
    end.

(** The property [CachedData.is_stale] read through a reference. *)
Definition is_stale (r : ref) : M bool :=
  self <- deref r;
  now <- datetime_now;
  ret (CachedData.is_stale_at now self).

(** One HTTP GET: the call is recorded, time passes, and the service's
    answer is returned or raised. *)
Definition http_get {A} (call : NetCall) (service : list NetCall -> Reply A)
    : M A :=
  fun w =>
    let reply := service (network w) in
    let w' := set_clock (clock w + took reply)
                (set_network (network w ++ [call]) w) in
    match outcome reply with
    | inl e => (Raise e, w')
    | inr a => (Return a, w')
    end.

(** ** The request context handed in by the protocol layer *)

Inductive AsyncClient := HttpxAsyncClient.

(** The headers of the Starlette request, under their lower-cased names;
    [headers.get(name, default)] takes the first entry of that name. *)
Record Request := { headers : pydict string }.

(** [ctx.lifespan_context]: the ["cache_holder"] entry is the one holder
    list of the process, [cache_holder] of [World]. *)
Record LifespanContext := { http_client : option AsyncClient }.

(** [get_http_request] is what [ctx.get_http_request()] does: raise, return
    [None], or return the request. *)
Record Context := {
  get_http_request : Result (option Request);
  lifespan_context : LifespanContext;
}.

Section Server.
Variable rt : Externals.

(** ** [auth.py] *)

Definition verify_token_and_resolve_entitlements (token : string)
    : M UserEntitlements.t :=
  userinfo_url <- environ_get "OAUTH_GENERIC_USER_INFO_URL"
                              "https://oauth.com/userinfo";
  user_info <- http_get (GetUserinfo userinfo_url token)
                 (fun history =>
                    userinfo_endpoint rt history userinfo_url token);
  ret (UserEntitlements.mk
         (UserInfo.sub user_info)
         (list_to_set (UserInfo.roles user_info))
         (list_to_set
            (default [] (UserInfo.entitlements user_info !! "categories")))).

Definition get_entitlements (token : string) : M UserEntitlements.t :=
  let token_hash := sha256_hexdigest rt token in
  cache <- get _entitlement_cache;
  match cache !! token_hash with
  | Some cached => ret cached
  | None =>
      entitlements <- verify_token_and_resolve_entitlements token;
      _ <- modify (fun w =>
             set_entitlement_cache
               (<[token_hash := entitlements]> (_entitlement_cache w)) w);
      ret entitlements
  end.

(** The [try] block either returns the token ([Some]) or falls through
    to the [raise] after it ([None]); [except Exception: pass] falls
    through as well. *)
Definition extract_bearer_token (ctx : Context) : M string :=
  found <- try_except
    (request <- (fun w => (get_http_request ctx, w));
     match request with
     | Some request =>
         let auth_header :=
           default EmptyString (dict_get (headers request) "authorization") in
         if startswith (lower auth_header) "bearer "
         then ret (Some (slice_from 7 auth_header))
         else ret None
     | None => ret None
     end)
    (fun _ => ret None);
  match found with
  | Some token => ret token
  | None => raise (PermissionError "No bearer token found in request")
  end.

Definition insufficient_permissions (roles : list string)
    (global_roles : gset string) : string :=
  "Insufficient permissions. Required one of: "
  ++ format_value rt (VTuple roles)
  ++ ", user has: " ++ format_value rt (VSet global_roles).

(** The decorator.  The two loops over [args] and [kwargs.values()] pick
    the first [Context] instance among the call's arguments: [ctx] is
    what they find, [a] the remaining arguments of the call. *)
Definition requires_role {A T} (roles : list string)
    (func : A -> Context -> M T) (a : A) (ctx : option Context) : M T :=
  match ctx with
  | None =>
      raise (PermissionError "No context available for authorization check")
  | Some ctx =>
      token <- extract_bearer_token ctx;
      entitlements <- get_entitlements token;
      if decide (UserEntitlements.global_roles entitlements
                   ∩ list_to_set roles = ∅)
      then raise (PermissionError
                    (insufficient_permissions roles
                       (UserEntitlements.global_roles entitlements)))
      else func a ctx
  end.

(** ** [cache.py] *)

Definition fetch_all_entities (client : AsyncClient) (base_url : string)
    : M (pydict EntityData.t) :=
  let url := base_url ++ "/entities" in
  raw_entities <- http_get (GetEntities url)
                    (fun history => entities_endpoint rt history url);
  ret (dict_comprehension raw_entities).

Definition build_cache (client : AsyncClient) (base_url : string) (ttl : Z)
    : M ref :=
  entities <- fetch_all_entities client base_url;
  now <- datetime_now;
  new_CachedData (CachedData.mk entities now ttl).

(** The body of [while True]. *)
Definition refresh_loop_iteration (client : AsyncClient)
    (base_url : string) (ttl : Z) : M unit :=
  _ <- asyncio_sleep ttl;
  try_except
    (new_cache <- build_cache client base_url ttl;
     _ <- cache_holder_setitem0 new_cache;
     c <- deref new_cache;
     logger_info "Cache refreshed at %s"
                 (isoformat rt (CachedData.last_refreshed_at c)))
    (fun e => logger_exception "Cache refresh failed; serving stale data" e).

(** The first [ticks] turns of the loop.  The loop has no exit: [Return]
    says that all of them ran and the task is about to sleep again,
    [Raise] that an exception left the task. *)
Fixpoint refresh_loop (ticks : nat) (client : AsyncClient)
    (base_url : string) (ttl : Z) : M unit :=
  match ticks with
  | O => ret tt
  | S ticks' =>
      _ <- refresh_loop_iteration client base_url ttl;
      refresh_loop ticks' client base_url ttl
  end.

(** [int(os.environ.get("CACHE_TTL_SECONDS", "300"))]. *)
Definition environ_ttl : M Z :=
  s <- environ_get "CACHE_TTL_SECONDS" "300";
  match int_of_str rt s with
  | Some n => ret n
  | None => raise ValueError
  end.

(** ** [tools.py] *)

Definition entity_line (e : EntityData.t) : string :=
  "- " ++ EntityData.name e ++ " (id=" ++ EntityData.id e
  ++ ", category=" ++ EntityData.category e ++ ")".

(** The list comprehension of [list_entities]. *)
Definition visible_entities (cache : CachedData.t)
    (entitlements : UserEntitlements.t) (category : option string)
    : list EntityData.t :=
  filter (fun e =>
            EntityData.category e
              ∈ UserEntitlements.permitted_categories entitlements
            ∧ (category = None ∨ Some (EntityData.category e) = category))
         (dict_values (CachedData.entities cache)).

Definition list_entities_func (category : option string) (ctx : Context)
    : M string :=
  cache_ref <- cache_holder_getitem0;
  cache <- deref cache_ref;
  token <- extract_bearer_token ctx;
  entitlements <- get_entitlements token;
  let entities := visible_entities cache entitlements category in
  match entities with
  | [] => ret "No entities found matching your entitlements and filter."
  | _ =>
      let lines := entity_line <$> entities in
      let result := join nl lines in
      stale <- is_stale cache_ref;
      if stale
      then ret (result ++ nl ++ nl ++ "[Warning: cached data may be stale]")
      else ret result
  end.

Definition list_entities :=
  requires_role ["reader"; "admin"] list_entities_func.

Definition entity_not_found (entity_id : string) : string :=
  "Entity '" ++ entity_id ++ "' not found.".

Definition access_denied (e : EntityData.t) : string :=
  "Access denied: you do not have entitlements for category '"
  ++ EntityData.category e ++ "'.".

Definition entity_body (e : EntityData.t) : string :=
  "Name: " ++ EntityData.name e ++ nl
  ++ "ID: " ++ EntityData.id e ++ nl
  ++ "Category: " ++ EntityData.category e ++ nl
  ++ "Metadata: " ++ format_value rt (VDict (EntityData.metadata e)).

Definition get_entity_func (entity_id : string) (ctx : Context)
    : M string :=
  cache_ref <- cache_holder_getitem0;
  cache <- deref cache_ref;
  match dict_get (CachedData.entities cache) entity_id with
  | None => ret (entity_not_found entity_id)
  | Some entity =>
      token <- extract_bearer_token ctx;
      entitlements <- get_entitlements token;
      if decide (EntityData.category entity
                   ∉ UserEntitlements.permitted_categories entitlements)
      then ret (access_denied entity)
      else ret (entity_body entity)
  end.

Definition get_entity := requires_role ["reader"; "admin"] get_entity_func.

Definition cache_refreshed (count : nat) : string :=
  "Cache refreshed. " ++ pretty count ++ " entities loaded.".

Definition refresh_cache_func (_ : unit) (ctx : Context) : M string :=
  match http_client (lifespan_context ctx) with
  | None =>
      ret "No downstream API configured â€” cache refresh unavailable."
  | Some http_client =>
      base_url <- environ_get "DOWNSTREAM_API_URL" EmptyString;
      ttl <- environ_ttl;
      new_cache <- build_cache http_client base_url ttl;
      _ <- cache_holder_setitem0 new_cache;
      c <- deref new_cache;
      ret (cache_refreshed (dict_len (CachedData.entities c)))
  end.

Definition refresh_cache := requires_role ["admin"] refresh_cache_func.
(** ** [resources.py] *)

(** [sorted({...})]: the distinct strings in code-point order. *)
Definition sorted_set (l : list string) : list string :=
  merge_sort str_le (remove_dups l).

Definition str_of_bool (b : bool) : string :=
  if b then "True" else "False".

Definition cache_summary (ctx : Context) : M string :=
  cache_ref <- cache_holder_getitem0;
  cache <- deref cache_ref;
  let categories :=
    sorted_set (EntityData.category
                  <$> dict_values (CachedData.entities cache)) in
  stale <- is_stale cache_ref;
  ret ("Total entities: "
       ++ pretty (dict_len (CachedData.entities cache)) ++ nl
       ++ "Categories: "
       ++ match categories with
          | [] => "(none)"
          | _ => join ", " categories
          end ++ nl
       ++ "Last refreshed: "
       ++ isoformat rt (CachedData.last_refreshed_at cache) ++ nl
       ++ "TTL: " ++ pretty (CachedData.ttl_seconds cache) ++ "s" ++ nl
       ++ "Stale: " ++ str_of_bool stale).

Definition cache_health (ctx : Context) : M string :=
  cache_ref <- cache_holder_getitem0;
  cache <- deref cache_ref;
  stale <- is_stale cache_ref;
  let status := if negb stale then "healthy" else "stale" in
  ret ("status: " ++ status ++ nl
       ++ "last_refresh: "
       ++ isoformat rt (CachedData.last_refreshed_at cache)).

(** ** [lifespan.py] *)

(** [app_lifespan] up to its [yield]: the holder list is created around
    the initial snapshot.  Spawning the refresh task is left to
    [refresh_loop]. *)
Definition app_lifespan (client : AsyncClient) : M LifespanContext :=
  base_url <- environ_get "DOWNSTREAM_API_URL" EmptyString;
  ttl <- environ_ttl;
  if decide (base_url = EmptyString)
  then
    now <- datetime_now;
    initial_cache <- new_CachedData (CachedData.mk [] now ttl);
    _ <- modify (set_cache_holder [initial_cache]);
    ret {| http_client := None |}
  else
    initial_cache <- build_cache client base_url ttl;
    _ <- modify (set_cache_holder [initial_cache]);
    ret {| http_client := Some client |}.

(** ** The operations of the running server *)

Inductive Operation :=
| CallListEntities (category : option string) (ctx : option Context)
| CallGetEntity (entity_id : string) (ctx : option Context)
| CallRefreshCache (ctx : option Context)
| ReadCacheSummary (ctx : Context)
| ReadCacheHealth (ctx : Context)
| ScheduledCycle (client : AsyncClient) (base_url : string) (ttl : Z).

(** The world an operation leaves behind, whether it returned or
    raised. *)
Definition after (op : Operation) (w : World) : World :=
  match op with
  | CallListEntities category ctx => (list_entities category ctx w).2
  | CallGetEntity entity_id ctx => (get_entity entity_id ctx w).2
  | CallRefreshCache ctx => (refresh_cache tt ctx w).2
  | ReadCacheSummary ctx => (cache_summary ctx w).2
  | ReadCacheHealth ctx => (cache_health ctx w).2
  | ScheduledCycle client base_url ttl =>
      (refresh_loop_iteration client base_url ttl w).2
  end.

Definition after_all (ops : list Operation) (w : World) : World :=
  fold_left (fun w op => after op w) ops w.
End Server.

(** ** A concrete deployment

    Two entities downstream, three known credentials, and a second base URL
    at which the downstream is unreachable. *)

Module Demo.
Definition e1 : EntityData.t := EntityData.mk "e1" "Pump" "ops" [].
Definition e2 : EntityData.t :=
  EntityData.mk "e2" "Ledger" "finance" [("owner", "cfo")].

Fixpoint digits (acc : Z) (s : string) : option Z :=
  match s with
  | EmptyString => Some acc
  | String c s' =>
      let n := Z.of_N (N_of_ascii c) in
      if ((48 <=? n) && (n <=? 57))%Z then digits (10 * acc + (n - 48)) s'
      else None
  end.

Definition userinfo (token : string) : PyExc + UserInfo.t :=
  if decide (token = "reader-token")
  then inr (UserInfo.mk "u1" "Rae" "rae@example.org" ["reader"]
              {["categories" := ["ops"]]})
  else if decide (token = "admin-token")
  then inr (UserInfo.mk "u2" "Ada" "ada@example.org" ["admin"]
              {["categories" := ["ops"; "finance"]]})
  else if decide (token = "guest-token")
  then inr (UserInfo.mk "u3" "Guy" "guy@example.org" [] ∅)
  else inl (HTTPStatusError 401).

Definition rt : Externals := {|
  sha256_hexdigest := fun token => "sha256:" ++ token;
  format_value := fun v =>
    match v with
    | VTuple items => "(" ++ join ", " items ++ ")"
    | VSet items => "{" ++ join ", " (elements items) ++ "}"
    | VDict items =>
        "{" ++ join ", " ((fun kv => kv.1 ++ ": " ++ kv.2) <$> items) ++ "}"
    end;
  int_of_str := fun s =>
    match s with
    | EmptyString => None
    | _ => digits 0 s
    end;
  isoformat := fun t => pretty t;
  userinfo_endpoint := fun _ _ token => mkReply 20000 (userinfo token);
  entities_endpoint := fun _ url =>
    if decide (url = "http://api/entities")
    then mkReply 50000 (inr [("e1", e1); ("e2", e2)])
    else mkReply 10000000 (inl TransportError);
|}.

Definition snapshot0 : CachedData.t :=
  CachedData.mk [("e1", e1); ("e2", e2)] 0 300.

(** A running server whose downstream is reachable. *)
Definition w0 : World := {|
  environ := {["DOWNSTREAM_API_URL" := "http://api"]};
  clock := 1000000;
  _entitlement_cache := ∅;
  heap := [snapshot0];
  cache_holder := [0%nat];
  network := [];
  log := [];
|}.

(** The same server with the downstream out of reach. *)
Definition w_down : World := {|
  environ := {["DOWNSTREAM_API_URL" := "http://down"]};
  clock := 1000000;
  _entitlement_cache := ∅;
  heap := [snapshot0];
  cache_holder := [0%nat];
  network := [];
  log := [];
|}.

Definition bearer (token : string) : Context := {|
  get_http_request :=
    Return (Some {| headers := [("authorization", "Bearer " ++ token)] |});
  lifespan_context := {| http_client := Some HttpxAsyncClient |};
|}.

(** The profiles the three credentials resolve to. *)
Definition reader : UserEntitlements.t :=
  UserEntitlements.mk "u1" {["reader"]} {["ops"]}.
Definition admin : UserEntitlements.t :=
  UserEntitlements.mk "u2" {["admin"]} {["ops"; "finance"]}.
Definition guest : UserEntitlements.t := UserEntitlements.mk "u3" ∅ ∅.

(** The worlds in which those profiles have just been resolved. *)
Definition w_reader : World := (get_entitlements rt "reader-token" w0).2.
Definition w_guest : World := (get_entitlements rt "guest-token" w0).2.
Definition w_down_admin : World :=
  (get_entitlements rt "admin-token" w_down).2.

(** A request with no [Authorization] header. *)
Definition anonymous : Context := {|
  get_http_request := Return (Some {| headers := [] |});
  lifespan_context := {| http_client := Some HttpxAsyncClient |};
|}.
End Demo.

(** ** Vocabulary of the properties *)

(** How many times the identity provider has been called. *)
Definition is_verifier_call (c : NetCall) : bool :=
  match c with
  | GetUserinfo _ _ => true
  | GetEntities _ => false
  end.

Definition verifier_invocations (w : World) : nat :=
  List.length (List.filter is_verifier_call (network w)).

(** The snapshot a request reads: what [cache_holder[0]] refers to. *)
Definition current (w : World) : option CachedData.t :=
  r ← head (cache_holder w); heap w !! r.

(** The credential a request carries, if it carries one. *)
Definition credential (ctx : Context) : option string :=
  match get_http_request ctx with
  | Return (Some request) =>
      let auth_header :=
        default EmptyString (dict_get (headers request) "authorization") in
      if startswith (lower auth_header) "bearer "
      then Some (slice_from 7 auth_header)
      else None
  | _ => None
  end.

(** The text [list_entities] builds from the entities it selected. *)
Definition listing (entities : list EntityData.t) (stale : bool) : string :=
  match entities with
  | [] => "No entities found matching your entitlements and filter."
  | _ =>
      let result := join nl (entity_line <$> entities) in
      if stale
      then result ++ nl ++ nl ++ "[Warning: cached data may be stale]"
      else result
  end.

(** Every object of [w] is still there in [w'], field for field; objects
    may have been added. *)
Definition objects_kept (w w' : World) : Prop := heap w `prefix_of` heap w'.

(** Neither the objects nor the holder changed. *)
Definition snapshot_untouched (w w' : World) : Prop :=
  heap w' = heap w ∧ cache_holder w' = cache_holder w.

(** Slot 0 of the holder now refers to an object that did not exist in
    [w]. *)
Definition swapped_to_new (w w' : World) : Prop :=
  ∃ c, heap w' = (heap w ++ [c])%list
       ∧ cache_holder w' = <[0%nat := List.length (heap w)]> (cache_holder w).

(** The objects of [w] are kept, and the holder is as it was or has been
    swapped to a new object. *)
Definition refreshed_or_kept (w w' : World) : Prop :=
  objects_kept w w'
  ∧ (cache_holder w' = cache_holder w ∨ swapped_to_new w w').

(** ** The identity provider as seen from a world *)

Definition userinfo_url (w : World) : string :=
  default "https://oauth.com/userinfo"
          (environ w !! "OAUTH_GENERIC_USER_INFO_URL").

(** What the identity provider would answer to [token] now. *)
Definition verifier_reply (rt : Externals) (w : World) (token : string)
    : Reply UserInfo.t :=
  userinfo_endpoint rt (network w) (userinfo_url w) token.

Definition profile_of (user_info : UserInfo.t) : UserEntitlements.t :=
  UserEntitlements.mk
    (UserInfo.sub user_info)
    (list_to_set (UserInfo.roles user_info))
    (list_to_set
       (default [] (UserInfo.entitlements user_info !! "categories"))).

(** The world once the identity provider has been asked about [token]. *)
Definition asked_verifier (rt : Externals) (w : World) (token : string)
    : World :=
  set_clock (clock w + took (verifier_reply rt w token))
    (set_network (network w ++ [GetUserinfo (userinfo_url w) token]) w).

(** What the downstream would answer to a fetch from [base_url] now. *)
Definition downstream_reply (rt : Externals) (w : World) (base_url : string)
    : Reply (list (string * EntityData.t)) :=
  entities_endpoint rt (network w) (base_url ++ "/entities").

(** The world once the downstream has been asked. *)
Definition asked_downstream (rt : Externals) (w : World) (base_url : string)
    : World :=
  set_clock (clock w + took (downstream_reply rt w base_url))
    (set_network (network w ++ [GetEntities (base_url ++ "/entities")]) w).

(** The world after [asyncio.sleep(ttl)]. *)
Definition slept (ttl : Z) (w : World) : World :=
  set_clock (clock w + Z.max 0 ttl * 1000000) w.

(** The world [dt] microseconds later, nothing else having happened. *)
Definition time_passes (dt : Z) (w : World) : World :=
  set_clock (clock w + dt) w.

(** [m] only moves the world along [R], whether it returns or raises. *)
Definition preserves {A} (R : relation World) (m : M A) : Prop :=
  ∀ w, R w (m w).2.

(** ** More vocabulary *)

Definition is_fetch_call (c : NetCall) : bool :=
  match c with
  | GetEntities _ => true
  | GetUserinfo _ _ => false
  end.

(** How many times the downstream has been asked for the entities. *)
Definition downstream_fetches (w : World) : nat :=
  List.length (List.filter is_fetch_call (network w)).

(** No entry of the entitlement cache was changed or removed. *)
Definition entitlements_kept (w w' : World) : Prop :=
  _entitlement_cache w ⊆ _entitlement_cache w'.

(** The slice [s[:n]]. *)
Definition slice_to (n : nat) (s : string) : string := String.substring 0 n s.

(** The keys of a [dict] are pairwise different. *)
Definition unique_keys {V} (d : pydict V) : Prop := NoDup d.*1.

(** Every snapshot object has pairwise different keys. *)
Definition snapshots_well_keyed (w : World) : Prop :=
  Forall (fun c => unique_keys (CachedData.entities c)) (heap w).

(** ** [mcp_patterns/observability/config.py]

    The process environment is a map from names to values.  The words the
    source compares a lower-cased value with are ASCII, so the byte-wise
    [lower] decides each comparison as [str.lower] does. *)

(** [os.getenv(key)]. *)
Definition getenv (env : gmap string string) (key : string) : option string :=
  env !! key.

(** [x or y] on two [str | None]: [x] when it is a non-empty string. *)
Definition str_or (x y : option string) : option string :=
  match x with
  | Some s => if decide (s = EmptyString) then y else Some s
  | None => y
  end.

Definition _env_bool (env : gmap string string) (key : string) (dflt : bool)
    : bool :=
  match getenv env key with
  | None => dflt
  | Some val => bool_decide (lower val ∈ ["true"; "1"; "yes"])
  end.

Module TelemetryConfig.
Record t := mk {
  service_name : string;
  enabled : bool;
  phoenix_endpoint : option string;
  phoenix_project_name : string;
  phoenix_api_key : option string;
  otlp_endpoint : option string;
  otlp_protocol : string;
  otlp_headers : pydict string;
  capture_tool_io : bool;
  log_level : string;
  batch : bool;
  instrument_httpx : bool;
  instrument_mcp_context : bool;
  use_phoenix_register : bool;
}.

(** [TelemetryConfig()]: every field at its default. *)
Definition defaults : t :=
  mk "mcp-server" true None "default" None None "grpc" [] false "INFO"
     true true true true.

(** [self.resolve()]: the copy with the nine updated fields. *)
Definition resolve (env : gmap string string) (self : t) : t :=
  mk (default (service_name self) (getenv env "MCP_OTEL_SERVICE_NAME"))
     (_env_bool env "MCP_OTEL_ENABLED" (enabled self))
     (str_or (phoenix_endpoint self) (getenv env "PHOENIX_COLLECTOR_ENDPOINT"))
     (default (phoenix_project_name self) (getenv env "PHOENIX_PROJECT_NAME"))
     (str_or (phoenix_api_key self) (getenv env "PHOENIX_API_KEY"))
     (str_or (otlp_endpoint self) (getenv env "OTEL_EXPORTER_OTLP_ENDPOINT"))
     (default (otlp_protocol self) (getenv env "OTEL_EXPORTER_OTLP_PROTOCOL"))
     (otlp_headers self)
     (_env_bool env "MCP_OTEL_CAPTURE_IO" (capture_tool_io self))
     (default (log_level self) (getenv env "MCP_LOG_LEVEL"))
     (batch self)
     (instrument_httpx self)
     (instrument_mcp_context self)
     (use_phoenix_register self).
End TelemetryConfig.

(** ** [mcp_patterns/observability/tracing.py] *)

Definition _should_capture_io (env : gmap string string)
    (explicit : option bool) : bool :=
  match explicit with
  | Some explicit => explicit
  | None =>
      bool_decide
        (lower (default "false" (getenv env "MCP_OTEL_CAPTURE_IO"))
           ∈ ["true"; "1"; "yes"])
  end.

(** ** [client/]: the chat front end *)

(** One entry of the configuration of [MultiServerMCPClient]. *)
Record Connection := {
  transport : string;
  url : string;
  connection_headers : pydict string;
}.

(** What [agent.ainvoke] does with the user's text, followed by
    [response["messages"]]: raise, or yield the contents of the messages
    of the response, in order. *)
Record Agent := { ainvoke : string -> PyExc + list string }.

Record User := {
  identifier : string;
  metadata : gmap string string;
}.

(** Outside the repository: [client.get_tools()], [ChatOpenAI] and
    [create_react_agent], which together make the agent or raise; and
    [str(exc)]. *)
Record ClientExternals := {
  build_agent : Connection -> string -> PyExc + Agent;
  str_of_exception : PyExc -> string;
}.

(** The state of one chat: [os.environ], the four keys of
    [cl.user_session] the source uses, the messages shown, and the
    connections attempted. *)
Record ClientWorld := mkClientWorld {
  client_environ : gmap string string;
  session_user : option User;
  session_oauth_token : option string;
  session_agent : option Agent;
  session_mcp_client : option Connection;
  chat : list string;
  connections : list Connection;
}.

Definition CM (A : Type) : Type := ClientWorld -> Result A * ClientWorld.

Definition cret {A} (a : A) : CM A := fun w => (Return a, w).
Definition cbind {A B} (m : CM A) (k : A -> CM B) : CM B :=
  fun w =>
    match m w with
    | (Return a, w') => k a w'
    | (Raise e, w') => (Raise e, w')
    end.

Declare Scope client_scope.
Delimit Scope client_scope with client.
Notation "x <- m ; k" := (cbind m (fun x => k))
  (at level 20, m at level 100, k at level 200, only parsing) : client_scope.

(** [try: body  except Exception as exc: handler]. *)
Definition ctry_except {A} (body : CM A) (handler : PyExc -> CM A) : CM A :=
  fun w =>
    match body w with
    | (Raise e, w') =>
        if is_Exception e then handler e w' else (Raise e, w')
    | r => r
    end.

(** [await cl.Message(content=content).send()], yielding the place of the
    message in the chat. *)
Definition send_message (content : string) : CM nat :=
  fun w =>
    (Return (List.length (chat w)),
     mkClientWorld (client_environ w) (session_user w) (session_oauth_token w)
       (session_agent w) (session_mcp_client w) (chat w ++ [content])
       (connections w)).

(** [msg.content = content; await msg.update()]. *)
Definition update_message (msg : nat) (content : string) : CM unit :=
  fun w =>
    (Return tt,
     mkClientWorld (client_environ w) (session_user w) (session_oauth_token w)
       (session_agent w) (session_mcp_client w) (<[msg := content]> (chat w))
       (connections w)).

(** [cl.user_session.set("agent", agent)] and
    [cl.user_session.set("mcp_client", mcp_client)]. *)
Definition session_set_agent (agent : Agent) (mcp_client : Connection)
    : CM unit :=
  fun w =>
    (Return tt,
     mkClientWorld (client_environ w) (session_user w) (session_oauth_token w)
       (Some agent) (Some mcp_client) (chat w) (connections w)).

(** Truth of a [str | None]: a non-empty string. *)
Definition truthy (o : option string) : bool :=
  match o with
  | Some s => negb (bool_decide (s = EmptyString))
  | None => false
  end.

Local Open Scope client_scope.

(** [client/app.py]: [oauth_callback] stores the token on the user it
    returns. *)
Definition oauth_callback (provider_id token : string)
    (raw_user_data : gmap string string) (default_user : User)
    : option User :=
  Some {| identifier := identifier default_user;
          metadata := <["oauth_token" := token]> (metadata default_user) |}.

Section Client.
Variable ext : ClientExternals.

(** [client/agent.py]. *)
Definition create_mcp_agent (access_token server_url : string)
    (model_name : string) : CM (Agent * Connection) :=
  let client :=
    {| transport := "streamable_http";
       url := server_url;
       connection_headers := [("Authorization", "Bearer " ++ access_token)] |}
  in
  fun w =>
    let w' :=
      mkClientWorld (client_environ w) (session_user w)
        (session_oauth_token w) (session_agent w) (session_mcp_client w)
        (chat w) (connections w ++ [client]) in
    match build_agent ext client model_name with
    | inl e => (Raise e, w')
    | inr agent => (Return (agent, client), w')
    end.

Definition welcome (name : string) : string :=
  "Connected to MCP server. Welcome, " ++ name ++ "!" ++ nl ++ nl
  ++ "I have access to the following tools:" ++ nl
  ++ "- **list_entities** — List cached entities (filtered by your entitlements)"
  ++ nl
  ++ "- **get_entity** — Retrieve a specific entity by ID" ++ nl
  ++ "- **refresh_cache** — Force a cache refresh (admin only)" ++ nl ++ nl
  ++ "How can I help?".

(** The [try] block either binds the agent and its client ([Some]) or, in
    its [except] branch, has answered and returned ([None]). *)
Definition on_chat_start : CM unit :=
  fun w =>
    let user := session_user w in
    let oauth_token :=
      match user with
      | Some user => metadata user !! "oauth_token"
      | None => None
      end in
    let oauth_token :=
      if truthy oauth_token then oauth_token else session_oauth_token w in
    if negb (truthy oauth_token)
    then
      (_ <- send_message
              "Authentication required. Please log in via the OAuth provider.";
       cret tt) w
    else
      let server_url :=
        default "http://localhost:8001/mcp"
                (client_environ w !! "MCP_SERVER_URL") in
      (connected <- ctry_except
         (made <- create_mcp_agent (default EmptyString oauth_token)
                    server_url "gpt-4o";
          cret (Some made))
         (fun exc =>
            _ <- send_message ("Failed to connect to MCP server: "
                               ++ str_of_exception ext exc);
            cret None);
       match connected with
       | None => cret tt
       | Some (agent, mcp_client) =>
           _ <- session_set_agent agent mcp_client;
           let name :=
             match user with
             | Some user => identifier user
             | None => "user"
             end in
           _ <- send_message (welcome name);
           cret tt
       end) w.

(** [response["messages"][-1].content]. *)
Definition last_content (messages : list string) : Result string :=
  match last messages with
  | Some content => Return content
  | None => Raise IndexError
  end.

Definition on_message (content : string) : CM unit :=
  fun w =>
    match session_agent w with
    | None =>
        (_ <- send_message
                "Session not initialized. Please refresh the page and log in.";
         cret tt) w
    | Some agent =>
        (msg <- send_message EmptyString;
         ctry_except
           (messages <- (fun w =>
                           match ainvoke agent content with
                           | inl e => (Raise e, w)
                           | inr messages => (Return messages, w)
                           end);
            final_content <- (fun w => (last_content messages, w));
            update_message msg final_content)
           (fun exc =>
              update_message msg ("Error: " ++ str_of_exception ext exc))) w
    end.
End Client.

Local Close Scope client_scope.

(** The request as the server's framework hands it over: the header names
    of the connection, lower-cased. *)
Definition request_of (c : Connection) : Request :=
  {| headers := (fun kv => (lower kv.1, kv.2)) <$> connection_headers c |}.

(** ** A second deployment

    The downstream repeats an id and answers one URL by cancelling; one
    more credential carries a role but no category; the server may run
    without a downstream client. *)

Module Demo2.
Definition e1_revised : EntityData.t :=
  EntityData.mk "e1" "Pump (rev. 2)" "ops" [].

Definition userinfo (token : string) : PyExc + UserInfo.t :=
  if decide (token = "intern-token")
  then inr (UserInfo.mk "u4" "Ian" "ian@example.org" ["reader"] ∅)
  else Demo.userinfo token.

Definition rt : Externals := {|
  sha256_hexdigest := sha256_hexdigest Demo.rt;
  format_value := format_value Demo.rt;
  int_of_str := int_of_str Demo.rt;
  isoformat := isoformat Demo.rt;
  userinfo_endpoint := fun _ _ token => mkReply 20000 (userinfo token);
  entities_endpoint := fun _ url =>
    if decide (url = "http://api/entities")
    then mkReply 50000
           (inr [("e1", Demo.e1); ("e2", Demo.e2); ("e1", e1_revised)])
    else if decide (url = "http://cancelled/entities")
    then mkReply 1000 (inl CancelledError)
    else mkReply 10000000 (inl TransportError);
|}.

Definition intern : UserEntitlements.t :=
  UserEntitlements.mk "u4" {["reader"]} ∅.

(** A request with a credential on a server that has no downstream
    client. *)
Definition bearer_without_client (token : string) : Context := {|
  get_http_request :=
    Return (Some {| headers := [("authorization", "Bearer " ++ token)] |});
  lifespan_context := {| http_client := None |};
|}.

(** A request whose framework call fails. *)
Definition broken_request : Context := {|
  get_http_request := Raise ValueError;
  lifespan_context := {| http_client := None |};
|}.

(** A process that has not started yet and has no downstream
    configured. *)
Definition w_unstarted : World := {|
  environ := ∅;
  clock := 5;
  _entitlement_cache := ∅;
  heap := [];
  cache_holder := [];
  network := [];
  log := [];
|}.

(** The same with a downstream configured, reachable or not. *)
Definition w_unstarted_at (base_url : string) : World := {|
  environ := {["DOWNSTREAM_API_URL" := base_url]};
  clock := 5;
  _entitlement_cache := ∅;
  heap := [];
  cache_holder := [];
  network := [];
  log := [];
|}.

(** A running server whose ttl setting is not a number. *)
Definition w_bad_ttl : World := {|
  environ := {["CACHE_TTL_SECONDS" := "five minutes"]};
  clock := 1000000;
  _entitlement_cache := ∅;
  heap := [Demo.snapshot0];
  cache_holder := [0%nat];
  network := [];
  log := [];
|}.
End Demo2.

(** ** A chat session *)

Module DemoChat.
Definition agent : Agent := {|
  ainvoke := fun content =>
    if decide (content = "crash") then inl TransportError
    else if decide (content = "silence") then inr []
    else inr [content; "You said: " ++ content];
|}.

Definition ext : ClientExternals := {|
  build_agent := fun connection model_name =>
    if decide (url connection = "http://localhost:8001/mcp")
    then inr agent
    else inl TransportError;
  str_of_exception := fun e =>
    match e with
    | PermissionError msg => msg
    | IndexError => "list index out of range"
    | TransportError => "All connection attempts failed"
    | _ => "error"
    end;
|}.

Definition rae : User := {| identifier := "rae"; metadata := ∅ |}.

(** A session right after the OAuth callback stored a token. *)
Definition w_logged_in : ClientWorld :=
  mkClientWorld ∅ (oauth_callback "generic" "reader-token" ∅ rae)
    None None None [] [].

(** A session nobody logged in to. *)
Definition w_anonymous : ClientWorld :=
  mkClientWorld ∅ None None None None [] [].

(** A development session with a token of its own and a server that is
    not there. *)
Definition w_dev : ClientWorld :=
  mkClientWorld {["MCP_SERVER_URL" := "http://nowhere/mcp"]} None
    (Some "dev-token") None None [] [].

(** A session with an agent. *)
Definition w_chatting : ClientWorld :=
  mkClientWorld ∅ (Some rae) None (Some agent) None ["Welcome"] [].
End DemoChat.

(** ** Frame rules of the monad *)

Section Frame.
Context (R : relation World) `{!Reflexive R, !Transitive R}.

Lemma preserves_ret {A} (a : A) : preserves R (ret a).
Proof. intros w. simpl. reflexivity. Qed.

Lemma preserves_raise {A} (e : PyExc) : preserves R (raise (A := A) e).
Proof. intros w. simpl. reflexivity. Qed.

Lemma preserves_get {A} (f : World -> A) : preserves R (get f).
Proof. intros w. simpl. reflexivity. Qed.

Lemma preserves_pure {A} (r : Result A) : preserves R (fun w => (r, w)).
Proof. intros w. simpl. reflexivity. Qed.

Lemma preserves_bind {A B} (m : M A) (k : A -> M B) :
  preserves R m → (∀ a, preserves R (k a)) → preserves R (bind m k).
Proof.
  intros Hm Hk w. unfold bind. specialize (Hm w).
  destruct (m w) as [[a|e] w1]; simpl in *; [|done].
  etrans; [exact Hm | apply Hk].
Qed.

Lemma preserves_try_except {A} (body : M A) (handler : PyExc -> M A) :
  preserves R body → (∀ e, preserves R (handler e)) →
  preserves R (try_except body handler).
Proof.
  intros Hb Hh w. unfold try_except. specialize (Hb w).
  destruct (body w) as [[a|e] w1]; simpl in *; [done|].
  destruct (is_Exception e); simpl; [|done].
  etrans; [exact Hb | apply Hh].
Qed.

Lemma preserves_modify (f : World -> World) :
  (∀ w, R w (f w)) → preserves R (modify f).
Proof. intros Hf w. apply Hf. Qed.
End Frame.

#[global] Instance objects_kept_refl : Reflexive objects_kept.
Proof. intros w. unfold objects_kept. done. Qed.
#[global] Instance objects_kept_trans : Transitive objects_kept.
Proof. intros w1 w2 w3. unfold objects_kept. apply transitivity. Qed.
#[global] Instance snapshot_untouched_refl : Reflexive snapshot_untouched.
Proof. by intros w. Qed.
#[global] Instance snapshot_untouched_trans : Transitive snapshot_untouched.
Proof. intros w1 w2 w3 [? ?] [? ?]. split; congruence. Qed.

Lemma snapshot_untouched_kept w w' :
  snapshot_untouched w w' → objects_kept w w'.
Proof. intros [H _]. unfold objects_kept. by rewrite H. Qed.

(** ** Seconds as a [float]

    Rounding the age to a [float] does not change the comparison with a
    ttl below 2^34 seconds: up to there the floats lie less than two
    microseconds apart. *)

Section Binary64.
Local Open Scope Z_scope.

Lemma round_half_even_spec n d :
  0 < d →
  2 * n - d ≤ 2 * round_half_even n d * d ≤ 2 * n + d.
Proof.
  intros Hd. unfold round_half_even.
  pose proof (Z.div_mod n d ltac:(lia)) as Hn.
  pose proof (Z.mod_pos_bound n d Hd) as Hr.
  destruct (Z.compare_spec (2 * (n mod d)) d) as [H|H|H];
    [destruct (Z.even (n / d))|..]; nia.
Qed.

Lemma round_half_even_lower n d k :
  0 < d → d * k ≤ n → k ≤ round_half_even n d.
Proof.
  intros Hd Hk.
  pose proof (round_half_even_spec n d Hd). nia.
Qed.

Lemma truediv_pos_nonneg n d :
  0 < n → 0 < d → (0 <= truediv_pos n d)%Q.
Proof.
  intros Hn Hd. unfold truediv_pos.
  set (e := Z.log2 _ - _ - 52).
  assert (Hp : ∀ k, 0 < 2 ^ Z.max 0 k) by (intros k; apply Z.pow_pos_nonneg; lia).
  pose proof (Hp e). pose proof (Hp (- e)).
  assert (Hm : 0 ≤ round_half_even (n * 2 ^ Z.max 0 (- e)) (d * 2 ^ Z.max 0 e))
    by (apply round_half_even_lower; nia).
  destruct (0 <=? e) eqn:He.
  - apply Z.leb_le in He.
    change 0%Q with (inject_Z 0). rewrite <- Zle_Qle.
    apply Z.mul_nonneg_nonneg; [lia|].
    apply Z.pow_nonneg. lia.
  - unfold Qle. cbn [Qnum Qden]. lia.
Qed.

Lemma truediv_pos_exact a t :
  0 < a → 0 ≤ t < 2 ^ 34 →
  (inject_Z t < truediv_pos a 1000000)%Q ↔ t * 1000000 < a.
Proof.
  intros Ha Ht. unfold truediv_pos.
  change (Z.log2 1000000 + 1) with 20.
  set (y := a * 2 ^ 20 / 1000000).
  assert (Hy : 1000000 * y ≤ a * 2 ^ 20 < 1000000 * (y + 1)).
  { subst y. split.
    - apply Z.mul_div_le. lia.
    - rewrite Z.mul_add_distr_l, Z.mul_1_r.
      pose proof (Z.div_mod (a * 2 ^ 20) 1000000 ltac:(lia)).
      pose proof (Z.mod_pos_bound (a * 2 ^ 20) 1000000 ltac:(lia)). lia. }
  assert (Hy1 : 0 < y) by (change (2 ^ 20) with 1048576 in Hy; lia).
  destruct (Z.log2_spec y Hy1) as [HL1 HL2].
  pose proof (Z.log2_nonneg y) as HL0.
  set (L := Z.log2 y) in *.
  destruct (Z_le_gt_dec L 53) as [HB|HA].
  - (* the quotient is below 2^34: the significand counts units of at
       most 2^-19 seconds *)
    replace (0 <=? L - 20 - 52) with false by (symmetry; apply Z.leb_gt; lia).
    replace (Z.max 0 (L - 20 - 52)) with 0 by lia.
    replace (Z.max 0 (- (L - 20 - 52))) with (72 - L) by lia.
    replace (- (L - 20 - 52)) with (72 - L) by lia.
    assert (HP : 2 ^ 19 ≤ 2 ^ (72 - L)) by (apply Z.pow_le_mono_r; lia).
    set (P := 2 ^ (72 - L)) in *.
    change (2 ^ 0) with 1. rewrite Z.mul_1_r.
    pose proof (round_half_even_spec (a * P) 1000000 ltac:(lia)) as Hm.
    set (m := round_half_even (a * P) 1000000) in *.
    unfold Qlt. cbn [Qnum Qden inject_Z].
    rewrite Z2Pos.id by (change (2 ^ 19) with 524288 in HP; lia).
    change (2 ^ 19) with 524288 in HP.
    split; intros H; nia.
  - (* the quotient is 2^34 or more, and so is its float *)
    assert (H54 : 2 ^ 54 ≤ 2 ^ L) by (apply Z.pow_le_mono_r; lia).
    assert (Hbig : t * 1000000 < a).
    { change (2 ^ 20) with 1048576 in Hy.
      change (2 ^ 54) with 18014398509481984 in H54.
      change (2 ^ 34) with 17179869184 in Ht. lia. }
    split; [intros _; exact Hbig | intros _].
    destruct (Z_le_gt_dec 72 L) as [H72|H72].
    + replace (0 <=? L - 20 - 52) with true by (symmetry; apply Z.leb_le; lia).
      replace (Z.max 0 (L - 20 - 52)) with (L - 72) by lia.
      replace (Z.max 0 (- (L - 20 - 52))) with 0 by lia.
      replace (L - 20 - 52) with (L - 72) by lia.
      change (2 ^ 0) with 1. rewrite Z.mul_1_r.
      rewrite <- Zlt_Qlt.
      assert (HE : 2 ^ L = 2 ^ (L - 72) * 2 ^ 72).
      { rewrite <- Z.pow_add_r by lia. f_equal. lia. }
      assert (HE1 : 1 ≤ 2 ^ (L - 72)) by (apply (Z.pow_le_mono_r 2 0); lia).
      set (E := 2 ^ (L - 72)) in *.
      assert (Hm : 2 ^ 52 ≤ round_half_even a (1000000 * E)).
      { apply round_half_even_lower; [lia|].
        change (2 ^ 20) with 1048576 in Hy.
        change (2 ^ 72) with (4503599627370496 * 1048576) in HE.
        change (2 ^ 52) with 4503599627370496. nia. }
      change (2 ^ 52) with 4503599627370496 in Hm.
      change (2 ^ 34) with 17179869184 in Ht. nia.
    + replace (0 <=? L - 20 - 52) with false by (symmetry; apply Z.leb_gt; lia).
      replace (Z.max 0 (L - 20 - 52)) with 0 by lia.
      replace (Z.max 0 (- (L - 20 - 52))) with (72 - L) by lia.
      replace (- (L - 20 - 52)) with (72 - L) by lia.
      change (2 ^ 0) with 1. rewrite Z.mul_1_r.
      assert (HE : 2 ^ L * 2 ^ (72 - L) = 2 ^ 72).
      { rewrite <- Z.pow_add_r by lia. f_equal. lia. }
      assert (HP1 : 1 ≤ 2 ^ (72 - L)) by (apply (Z.pow_le_mono_r 2 0); lia).
      assert (HP2 : 2 ^ (72 - L) ≤ 2 ^ 18) by (apply Z.pow_le_mono_r; lia).
      set (P := 2 ^ (72 - L)) in *.
      assert (Hm : 2 ^ 52 ≤ round_half_even (a * P) 1000000).
      { apply round_half_even_lower; [lia|].
        change (2 ^ 20) with 1048576 in Hy.
        change (2 ^ 72) with (4503599627370496 * 1048576) in HE.
        change (2 ^ 52) with 4503599627370496. nia. }
      unfold Qlt. cbn [Qnum Qden inject_Z].
      rewrite Z2Pos.id by lia.
      change (2 ^ 52) with 4503599627370496 in Hm.
      change (2 ^ 18) with 262144 in HP2.
      change (2 ^ 34) with 17179869184 in Ht. nia.
Qed.

Lemma float_total_seconds_exact a t :
  0 ≤ t < 2 ^ 34 →
  (inject_Z t < float_total_seconds a)%Q ↔ t * 1000000 < a.
Proof.
  intros Ht. unfold float_total_seconds, int_truediv.
  destruct a as [|a|a].
  - unfold Qlt. cbn [Qnum Qden inject_Z]. lia.
  - apply truediv_pos_exact; lia.
  - pose proof (truediv_pos_nonneg (- Z.neg a) 1000000 ltac:(lia) ltac:(lia))
      as Hpos.
    split; [|lia]. intros Hlt. exfalso.
    apply (Qlt_not_le _ _ Hlt).
    apply Qle_trans with 0%Q.
    + apply (Qopp_le_compat 0). exact Hpos.
    + change 0%Q with (inject_Z 0). rewrite <- Zle_Qle. lia.
Qed.

Lemma is_stale_at_exact now c :
  CachedData.is_stale_at now c
  = bool_decide (CachedData.ttl_seconds c * 1000000
                 < now - CachedData.last_refreshed_at c).
Proof.
  unfold CachedData.is_stale_at.
  destruct (Qle_bool _ _) eqn:Hle; symmetry; cbn [negb].
  - apply bool_decide_eq_false. apply Qle_bool_iff in Hle.
    unfold total_seconds, Qle in Hle. cbn [Qnum Qden inject_Z] in Hle. lia.
  - apply bool_decide_eq_true.
    assert (Hnle : ¬ Qle_bool
                     (total_seconds (now - CachedData.last_refreshed_at c))
                     (inject_Z (CachedData.ttl_seconds c)) = true)
      by (rewrite Hle; discriminate).
    rewrite Qle_bool_iff in Hnle.
    unfold total_seconds, Qle in Hnle. cbn [Qnum Qden inject_Z] in Hnle. lia.
Qed.

Lemma is_stale_float_at_exact now c :
  0 ≤ CachedData.ttl_seconds c < 2 ^ 34 →
  CachedData.is_stale_float_at now c
  = bool_decide (CachedData.ttl_seconds c * 1000000
                 < now - CachedData.last_refreshed_at c).
Proof.
  intros Ht. unfold CachedData.is_stale_float_at.
  pose proof (float_total_seconds_exact
                (now - CachedData.last_refreshed_at c) _ Ht) as Hex.
  destruct (Qle_bool _ _) eqn:Hle; symmetry; cbn [negb].
  - apply bool_decide_eq_false. apply Qle_bool_iff in Hle.
    intros Hlt. apply Hex in Hlt. exact (Qlt_not_le _ _ Hlt Hle).
  - apply bool_decide_eq_true. apply Hex. apply Qnot_le_lt.
    rewrite <- Qle_bool_iff, Hle. discriminate.
Qed.
End Binary64.

(** ** Properties *)

Section Properties.
Variable rt : Externals.

(** *** Credentials and entitlements *)

Lemma extract_bearer_token_pure ctx w w0 :
  extract_bearer_token ctx w = ((extract_bearer_token ctx w0).1, w).
Proof.
  unfold extract_bearer_token, bind, try_except.
  destruct (get_http_request ctx) as [[request|]|e]; simpl.
  - destruct (startswith _ _); reflexivity.
  - reflexivity.
  - destruct (is_Exception e); reflexivity.
Qed.

Lemma extract_bearer_token_Return ctx w token :
  (extract_bearer_token ctx w).1 = Return token →
  ∀ w', extract_bearer_token ctx w' = (Return token, w').
Proof.
  intros H w'. rewrite (extract_bearer_token_pure ctx w' w). by rewrite H.
Qed.

Lemma extract_bearer_token_credential ctx w :
  (∀ e, get_http_request ctx = Raise e → is_Exception e = true) →
  extract_bearer_token ctx w =
    (match credential ctx with
     | Some token => Return token
     | None => Raise (PermissionError "No bearer token found in request")
     end, w).
Proof.
  intros Hexc. unfold extract_bearer_token, credential, bind, try_except.
  destruct (get_http_request ctx) as [[request|]|e]; simpl.
  - destruct (startswith _ _); reflexivity.
  - reflexivity.
  - rewrite (Hexc e eq_refl). reflexivity.
Qed.

Lemma get_entitlements_hit token w p :
  _entitlement_cache w !! sha256_hexdigest rt token = Some p →
  get_entitlements rt token w = (Return p, w).
Proof.
  intros H. unfold get_entitlements, bind, get. simpl. by rewrite H.
Qed.

Lemma get_entitlements_miss token w :
  _entitlement_cache w !! sha256_hexdigest rt token = None →
  get_entitlements rt token w =
    let w1 := asked_verifier rt w token in
    match outcome (verifier_reply rt w token) with
    | inl e => (Raise e, w1)
    | inr user_info =>
        (Return (profile_of user_info),
         set_entitlement_cache
           (<[sha256_hexdigest rt token := profile_of user_info]>
              (_entitlement_cache w)) w1)
    end.
Proof.
  intros H. unfold get_entitlements, bind, get. simpl. rewrite H.
  unfold verify_token_and_resolve_entitlements, bind, environ_get, get,
    http_get, verifier_reply, asked_verifier, userinfo_url. simpl.
  destruct (outcome _); reflexivity.
Qed.

(** A profile that [get_entitlements] returned is in the cache
    afterwards, under the hash of its token. *)
Lemma get_entitlements_cached token w p w1 :
  get_entitlements rt token w = (Return p, w1) →
  _entitlement_cache w1 !! sha256_hexdigest rt token = Some p.
Proof.
  destruct (_entitlement_cache w !! sha256_hexdigest rt token) as [q|] eqn:E.
  - rewrite (get_entitlements_hit _ _ _ E). by intros [= <- <-].
  - rewrite (get_entitlements_miss _ _ E). simpl.
    destruct (outcome _); intros [= <- <-]. simpl.
    apply lookup_insert_eq.
Qed.

Lemma get_entitlements_again token w p w1 :
  get_entitlements rt token w = (Return p, w1) →
  get_entitlements rt token w1 = (Return p, w1).
Proof.
  intros H. apply get_entitlements_hit. by eapply get_entitlements_cached.
Qed.

Lemma get_entitlements_untouched token :
  preserves snapshot_untouched (get_entitlements rt token).
Proof.
  intros w.
  destruct (_entitlement_cache w !! sha256_hexdigest rt token) as [q|] eqn:E.
  - by rewrite (get_entitlements_hit _ _ _ E).
  - rewrite (get_entitlements_miss _ _ E). simpl.
    by destruct (outcome _).
Qed.

Lemma extract_bearer_token_untouched ctx :
  preserves snapshot_untouched (extract_bearer_token ctx).
Proof. intros w. by rewrite (extract_bearer_token_pure ctx w w). Qed.
Lemma requires_role_resolved {A T} (roles : list string)
    (func : A -> Context -> M T) a ctx w token p w1 :
  (extract_bearer_token ctx w).1 = Return token →
  get_entitlements rt token w = (Return p, w1) →
  requires_role rt roles func a (Some ctx) w =
    if decide (UserEntitlements.global_roles p ∩ list_to_set roles = ∅)
    then (Raise (PermissionError
                   (insufficient_permissions rt roles
                      (UserEntitlements.global_roles p))), w1)
    else func a ctx w1.
Proof.
  intros Htok Hent. unfold requires_role, bind.
  rewrite (extract_bearer_token_Return _ _ _ Htok w), Hent.
  by destruct (decide _).
Qed.

Lemma verifier_invocations_asked w token :
  verifier_invocations (asked_verifier rt w token)
  = S (verifier_invocations w).
Proof.
  unfold verifier_invocations, asked_verifier. simpl.
  rewrite List.filter_app, length_app. simpl. lia.
Qed.

(** *** The claims about the entitlement resolver and the role gate *)

(** C2. Layer 3: once the caller's credential has resolved to a profile
    with roles [S], a tool wrapped by [requires_role R] runs its handler
    if [S] and [R] share a role, and the result is then the handler's; if
    they share none the call raises, whatever the handler is, a
    [PermissionError] whose message names [R] and [S]. *)
Theorem layer3_call_authorization {A T} (roles : list string)
    (func : A -> Context -> M T) a ctx w token p w1 :
  (extract_bearer_token ctx w).1 = Return token →
  get_entitlements rt token w = (Return p, w1) →
  (UserEntitlements.global_roles p ∩ list_to_set roles ≠ ∅ →
     requires_role rt roles func a (Some ctx) w = func a ctx w1)
  ∧ (UserEntitlements.global_roles p ∩ list_to_set roles = ∅ →
     requires_role rt roles func a (Some ctx) w =
       (Raise (PermissionError
                 ("Insufficient permissions. Required one of: "
                  ++ format_value rt (VTuple roles) ++ ", user has: "
                  ++ format_value rt
                       (VSet (UserEntitlements.global_roles p)))), w1)).
Proof.
  intros Htok Hent.
  rewrite (requires_role_resolved roles func a ctx w token p w1 Htok Hent).
  split; intros H; destruct (decide _); done.
Qed.

(** C3. Resolver idempotence: when [get_entitlements] has returned a
    profile for a token, a second call with the same token returns the
    same profile and leaves the world as it was (no request is sent), and
    the two calls together have asked the identity provider at most
    once. *)
Theorem resolve_twice_verifies_once token w p w1 :
  get_entitlements rt token w = (Return p, w1) →
  get_entitlements rt token w1 = (Return p, w1)
  ∧ (verifier_invocations (get_entitlements rt token w1).2
     ≤ verifier_invocations w + 1)%nat.
Proof.
  intros H. pose proof (get_entitlements_again _ _ _ _ H) as H2.
  split; [exact H2|]. rewrite H2. simpl.
  destruct (_entitlement_cache w !! sha256_hexdigest rt token) as [q|] eqn:E.
  - rewrite (get_entitlements_hit _ _ _ E) in H.
    injection H as _ <-. lia.
  - rewrite (get_entitlements_miss _ _ E) in H. simpl in H.
    destruct (outcome _); [done|]. injection H as _ <-.
    change (verifier_invocations (asked_verifier rt w token)
            ≤ verifier_invocations w + 1)%nat.
    rewrite verifier_invocations_asked. lia.
Qed.

(** C4. No negative caching: when the token is not cached and the
    identity provider fails with [e], [get_entitlements] raises that very
    [e] and the entitlement cache is what it was; in particular it has no
    entry under the token's hash. *)
Theorem failed_verification_not_cached token w e :
  _entitlement_cache w !! sha256_hexdigest rt token = None →
  outcome (verifier_reply rt w token) = inl e →
  (get_entitlements rt token w).1 = Raise e
  ∧ _entitlement_cache (get_entitlements rt token w).2
    = _entitlement_cache w
  ∧ _entitlement_cache (get_entitlements rt token w).2
      !! sha256_hexdigest rt token = None.
Proof.
  intros Hmiss Hfail. rewrite (get_entitlements_miss _ _ Hmiss). simpl.
  rewrite Hfail. simpl. done.
Qed.

(** *** Building and swapping snapshots *)

Lemma build_cache_spec client base_url ttl w :
  build_cache rt client base_url ttl w =
    let w1 := asked_downstream rt w base_url in
    match outcome (downstream_reply rt w base_url) with
    | inl e => (Raise e, w1)
    | inr raw =>
        (Return (List.length (heap w)),
         set_heap
           (heap w ++ [CachedData.mk (dict_comprehension raw) (clock w1) ttl])
           w1)
    end.
Proof.
  unfold build_cache, fetch_all_entities, bind, http_get, downstream_reply,
    asked_downstream. simpl.
  destruct (outcome _); reflexivity.
Qed.


Lemma is_stale_read r w c :
  heap w !! r = Some c →
  is_stale r w = (Return (CachedData.is_stale_at (clock w) c), w).
Proof.
  intros Hr. unfold is_stale, bind, deref, datetime_now, get, ret.
  by rewrite Hr.
Qed.

Lemma is_stale_later r w c dt :
  heap w !! r = Some c →
  is_stale r (time_passes dt w)
  = (Return (bool_decide (CachedData.ttl_seconds c * 1000000
                          < clock w + dt - CachedData.last_refreshed_at c)%Z),
     time_passes dt w).
Proof.
  intros Hr.
  rewrite (is_stale_read r (time_passes dt w) c Hr).
  by rewrite is_stale_at_exact.
Qed.

Lemma build_cache_stamp client base_url ttl w r w' :
  build_cache rt client base_url ttl w = (Return r, w') →
  ∃ entities, heap w' !! r = Some (CachedData.mk entities (clock w') ttl).
Proof.
  rewrite build_cache_spec. cbv zeta.
  destruct (outcome _) as [e|raw]; [done|].
  intros [= <- <-]. exists (dict_comprehension raw). simpl.
  by rewrite lookup_app_r, Nat.sub_diag.
Qed.

(** C7, as the code has it.  Staleness, for a ttl from 0 up to 2^34
    seconds.  What [is_stale] returns for a snapshot is what the
    interpreter's comparison of the [float] age with the ttl gives, and
    that is true exactly when the time from the stamp to the read is
    strictly greater than the ttl.  [build_cache] stamps the snapshot it
    builds with the current time; read any time [dt] after that,
    [is_stale] is false as long as [dt] is at most the ttl and true from
    then on. *)
Theorem staleness_semantics :
  (∀ r c w,
     heap w !! r = Some c →
     (0 ≤ CachedData.ttl_seconds c < 2 ^ 34)%Z →
     is_stale r w = (Return (CachedData.is_stale_float_at (clock w) c), w)
     ∧ (CachedData.is_stale_float_at (clock w) c = true
        ↔ (CachedData.ttl_seconds c * 1000000
           < clock w - CachedData.last_refreshed_at c)%Z))
  ∧ (∀ client base_url ttl w r w',
       (0 ≤ ttl < 2 ^ 34)%Z →
       build_cache rt client base_url ttl w = (Return r, w') →
       (∃ c, heap w' !! r = Some c
             ∧ CachedData.last_refreshed_at c = clock w'
             ∧ CachedData.ttl_seconds c = ttl)
       ∧ (∀ dt, (0 ≤ dt)%Z →
            is_stale r (time_passes dt w')
            = (Return (bool_decide (ttl * 1000000 < dt)%Z),
               time_passes dt w'))).
Proof.
  split.
  { intros r c w Hr Hc.
    rewrite (is_stale_read r w c Hr).
    rewrite (is_stale_float_at_exact (clock w) c Hc), is_stale_at_exact.
    split; [done|]. apply bool_decide_eq_true. }
  intros client base_url ttl w r w' Httl Hbuild.
  destruct (build_cache_stamp _ _ _ _ _ _ Hbuild) as [entities Hr].
  split; [by eexists|].
  intros dt Hdt. rewrite (is_stale_later r w' _ dt Hr). simpl.
  do 2 f_equal. apply bool_decide_ext. lia.
Qed.

Lemma refresh_cache_func_spec ctx client w :
  http_client (lifespan_context ctx) = Some client →
  refresh_cache_func rt tt ctx w =
    match int_of_str rt (default "300" (environ w !! "CACHE_TTL_SECONDS")) with
    | None => (Raise ValueError, w)
    | Some ttl =>
        let base_url :=
          default EmptyString (environ w !! "DOWNSTREAM_API_URL") in
        let w1 := asked_downstream rt w base_url in
        match outcome (downstream_reply rt w base_url) with
        | inl e => (Raise e, w1)
        | inr raw =>
            let c := CachedData.mk (dict_comprehension raw) (clock w1) ttl in
            let w2 := set_heap (heap w ++ [c]) w1 in
            match cache_holder w with
            | [] => (Raise IndexError, w2)
            | _ :: _ =>
                (Return (cache_refreshed (dict_len (dict_comprehension raw))),
                 set_cache_holder
                   (<[0%nat := List.length (heap w)]> (cache_holder w)) w2)
            end
        end
    end.
Proof.
  intros Hclient. unfold refresh_cache_func. rewrite Hclient.
  unfold bind at 1. unfold environ_get at 1, get at 1.
  unfold bind at 1, environ_ttl, bind at 1, environ_get at 1, get at 1.
  destruct (int_of_str rt _) as [ttl|]; [|reflexivity].
  cbn [ret]. unfold bind at 1. rewrite build_cache_spec. cbn zeta.
  destruct (outcome _) as [e|raw]; [reflexivity|].
  unfold bind, cache_holder_setitem0, deref. simpl.
  destruct (cache_holder w) as [|r0 rest]; [reflexivity|]. simpl.
  rewrite lookup_app_r, Nat.sub_diag by done. reflexivity.
Qed.

Lemma get_entitlements_environ token w :
  environ (get_entitlements rt token w).2 = environ w.
Proof.
  destruct (_entitlement_cache w !! sha256_hexdigest rt token) as [q|] eqn:E.
  - by rewrite (get_entitlements_hit _ _ _ E).
  - rewrite (get_entitlements_miss _ _ E). simpl.
    by destruct (outcome _).
Qed.

Lemma current_untouched w w' :
  snapshot_untouched w w' → current w' = current w.
Proof. intros [Hh Hc]. unfold current. by rewrite Hh, Hc. Qed.

Lemma current_swapped w w' c :
  cache_holder w ≠ [] →
  heap w' = (heap w ++ [c])%list →
  cache_holder w' = <[0%nat := List.length (heap w)]> (cache_holder w) →
  current w' = Some c.
Proof.
  intros Hne Hh Hc. unfold current. rewrite Hc, Hh.
  destruct (cache_holder w) as [|r0 rest]; [done|]. simpl.
  by rewrite lookup_app_r, Nat.sub_diag.
Qed.

(** C5. Manual refresh: for a caller holding the role [admin], with a
    downstream configured, [refresh_cache] raises the downstream's own
    error when the fetch fails, leaving holder and snapshot objects as
    they were; when the fetch succeeds it makes the holder refer to a new
    snapshot, built from the response and stamped with the current time,
    and reports the number of entities of that snapshot. *)
Theorem manual_refresh_atomic ctx client w token p w1 ttl :
  http_client (lifespan_context ctx) = Some client →
  (extract_bearer_token ctx w).1 = Return token →
  get_entitlements rt token w = (Return p, w1) →
  "admin" ∈ UserEntitlements.global_roles p →
  int_of_str rt (default "300" (environ w !! "CACHE_TTL_SECONDS"))
    = Some ttl →
  cache_holder w ≠ [] →
  let base_url := default EmptyString (environ w !! "DOWNSTREAM_API_URL") in
  let result := refresh_cache rt tt (Some ctx) w in
  (∀ e, outcome (downstream_reply rt w1 base_url) = inl e →
     result.1 = Raise e
     ∧ snapshot_untouched w result.2
     ∧ current result.2 = current w)
  ∧ (∀ raw, outcome (downstream_reply rt w1 base_url) = inr raw →
     ∃ c, swapped_to_new w result.2
          ∧ current result.2 = Some c
          ∧ c = CachedData.mk (dict_comprehension raw) (clock result.2) ttl
          ∧ result.1
            = Return ("Cache refreshed. "
                      ++ pretty (dict_len (CachedData.entities c))
                      ++ " entities loaded.")).
Proof.
  intros Hclient Htok Hent Hadmin Httl Hholder base_url result.
  pose proof (get_entitlements_untouched token w) as [Hh Hc].
  pose proof (get_entitlements_environ token w) as Henv.
  rewrite Hent in Hh, Hc, Henv. simpl in Hh, Hc, Henv.
  subst result.
  unfold refresh_cache.
  rewrite (requires_role_resolved _ _ _ _ _ _ _ _ Htok Hent).
  destruct (decide _) as [Hempty|_]; [set_solver|].
  rewrite (refresh_cache_func_spec _ _ _ Hclient).
  rewrite Henv, Httl. fold base_url. cbv zeta.
  split.
  - intros e He. rewrite He. simpl. repeat split; try done.
    apply current_untouched. by split.
  - intros raw Hraw. rewrite Hraw, Hc, Hh.
    destruct (cache_holder w) as [|r0 rest] eqn:Hcw; [done|].
    eexists. cbn [fst snd]. split; [|split; [|split]].
    + eexists. split; simpl; [reflexivity | by rewrite Hcw].
    + unfold current. simpl. by rewrite lookup_app_r, Nat.sub_diag.
    + reflexivity.
    + reflexivity.
Qed.

Lemma refresh_loop_iteration_failure client base_url ttl w e :
  outcome (downstream_reply rt (slept ttl w) base_url) = inl e →
  is_Exception e = true →
  refresh_loop_iteration rt client base_url ttl w =
    (Return tt,
     set_log (log w ++ [LogException
                          "Cache refresh failed; serving stale data" e])
             (asked_downstream rt (slept ttl w) base_url)).
Proof.
  intros Hfail Hexc. unfold refresh_loop_iteration.
  unfold bind at 1, asyncio_sleep, modify. fold (slept ttl w).
  unfold try_except. unfold bind at 1. rewrite build_cache_spec.
  cbn zeta. rewrite Hfail, Hexc. reflexivity.
Qed.

(** C6. Serve stale on error: in a scheduled cycle whose fetch fails
    with an exception [e] (a member of [Exception]), the turn of the loop
    completes without raising, the failure is logged, holder and snapshot
    objects are as before, the downstream was asked exactly once, and the
    loop goes on with its next turn, which starts by sleeping. *)
Theorem scheduled_failure_serves_stale client base_url ttl w e ticks :
  outcome (downstream_reply rt (slept ttl w) base_url) = inl e →
  is_Exception e = true →
  let turn := refresh_loop_iteration rt client base_url ttl w in
  turn.1 = Return tt
  ∧ snapshot_untouched w turn.2
  ∧ current turn.2 = current w
  ∧ log turn.2
    = (log w ++ [LogException "Cache refresh failed; serving stale data" e])%list
  ∧ network turn.2
    = (network w ++ [GetEntities (base_url ++ "/entities")])%list
  ∧ refresh_loop rt (S ticks) client base_url ttl w
    = refresh_loop rt ticks client base_url ttl turn.2.
Proof.
  intros Hfail Hexc turn. subst turn.
  simpl refresh_loop. unfold bind at 1.
  rewrite (refresh_loop_iteration_failure _ _ _ _ _ Hfail Hexc).
  cbn [fst snd]. repeat split.
Qed.

(** *** Readers leave holder and snapshots alone *)

Lemma preserves_match_option {A B} (R : relation World) (o : option A)
    (some : A -> M B) (none : M B) :
  (∀ a, preserves R (some a)) → preserves R none →
  preserves R (match o with Some a => some a | None => none end).
Proof. intros Hs Hn. by destruct o. Qed.

Lemma preserves_if {B} (R : relation World) (b : bool) (m1 m2 : M B) :
  preserves R m1 → preserves R m2 → preserves R (if b then m1 else m2).
Proof. by destruct b. Qed.

Lemma preserves_if_decide {B} (R : relation World) (P : Prop)
    `{!Decision P} (m1 m2 : M B) :
  preserves R m1 → preserves R m2 →
  preserves R (if decide P then m1 else m2).
Proof. by destruct (decide P). Qed.

Lemma cache_holder_getitem0_untouched :
  preserves snapshot_untouched cache_holder_getitem0.
Proof. intros w. unfold cache_holder_getitem0. by destruct (cache_holder w). Qed.

Lemma deref_untouched r : preserves snapshot_untouched (deref r).
Proof. intros w. unfold deref. by destruct (heap w !! r). Qed.

Ltac untouched :=
  repeat first
    [ apply (preserves_ret snapshot_untouched)
    | apply (preserves_raise snapshot_untouched)
    | apply (preserves_get snapshot_untouched)
    | apply cache_holder_getitem0_untouched
    | apply deref_untouched
    | apply extract_bearer_token_untouched
    | apply get_entitlements_untouched
    | apply (preserves_bind snapshot_untouched); [|intros]
    | apply preserves_match_option; [intros|]
    | apply preserves_if_decide
    | apply preserves_if ].

Lemma is_stale_untouched r : preserves snapshot_untouched (is_stale r).
Proof. unfold is_stale, datetime_now. untouched. Qed.

Lemma list_entities_func_untouched category ctx :
  preserves snapshot_untouched (list_entities_func rt category ctx).
Proof.
  unfold list_entities_func. untouched.
  destruct (visible_entities _ _ _); untouched.
Qed.

Lemma get_entity_func_untouched entity_id ctx :
  preserves snapshot_untouched (get_entity_func rt entity_id ctx).
Proof. unfold get_entity_func. untouched. Qed.

Lemma cache_summary_untouched ctx :
  preserves snapshot_untouched (cache_summary rt ctx).
Proof. unfold cache_summary. untouched. Qed.

Lemma cache_health_untouched ctx :
  preserves snapshot_untouched (cache_health rt ctx).
Proof. unfold cache_health. untouched. Qed.

Lemma requires_role_untouched {A T} roles (func : A -> Context -> M T)
    a ctx :
  (∀ c, preserves snapshot_untouched (func a c)) →
  preserves snapshot_untouched (requires_role rt roles func a ctx).
Proof. intros Hf. unfold requires_role. untouched. apply Hf. Qed.

(** *** Refreshers only add objects and swap the reference *)

Lemma requires_role_after {A T} roles (func : A -> Context -> M T)
    a ctx w :
  ∃ w1, snapshot_untouched w w1
        ∧ ((∃ e, requires_role rt roles func a ctx w = (Raise e, w1))
           ∨ (∃ c, ctx = Some c
                   ∧ requires_role rt roles func a ctx w = func a c w1)).
Proof.
  destruct ctx as [c|]; [|exists w; split; [done|left; by eexists]].
  unfold requires_role, bind.
  rewrite (extract_bearer_token_pure c w w).
  destruct (extract_bearer_token c w).1 as [token|e];
    [|exists w; split; [done|left; by eexists]].
  pose proof (get_entitlements_untouched token w) as Hu.
  destruct (get_entitlements rt token w) as [[p|e] w1]; simpl in Hu;
    [|exists w1; split; [done|left; by eexists]].
  exists w1. split; [done|].
  destruct (decide _); [left; by eexists | right; by eexists].
Qed.

Lemma untouched_refreshed_or_kept w w' :
  snapshot_untouched w w' → refreshed_or_kept w w'.
Proof.
  intros Hu. split; [by apply snapshot_untouched_kept | left; apply Hu].
Qed.

Lemma refreshed_or_kept_after_untouched w w1 w2 :
  snapshot_untouched w w1 → refreshed_or_kept w1 w2 →
  refreshed_or_kept w w2.
Proof.
  intros [Hh Hc]. unfold refreshed_or_kept, objects_kept, swapped_to_new.
  by rewrite Hh, Hc.
Qed.

Lemma refresh_cache_func_step ctx w :
  refreshed_or_kept w (refresh_cache_func rt tt ctx w).2.
Proof.
  destruct (http_client (lifespan_context ctx)) as [client|] eqn:Hclient.
  - rewrite (refresh_cache_func_spec _ _ _ Hclient). cbv zeta.
    destruct (int_of_str rt _) as [ttl|];
      [|by apply untouched_refreshed_or_kept].
    destruct (outcome _) as [e|raw];
      [by apply untouched_refreshed_or_kept|].
    destruct (cache_holder w) as [|r0 rest] eqn:Hcw; simpl.
    + split; [by eexists | by left].
    + split; [by eexists|]. right. eexists. simpl. by rewrite Hcw.
  - unfold refresh_cache_func. rewrite Hclient.
    by apply untouched_refreshed_or_kept.
Qed.

Lemma refresh_loop_iteration_spec client base_url ttl w :
  refresh_loop_iteration rt client base_url ttl w =
    let w1 := asked_downstream rt (slept ttl w) base_url in
    match outcome (downstream_reply rt (slept ttl w) base_url) with
    | inl e =>
        if is_Exception e
        then (Return tt,
              set_log (log w ++ [LogException
                        "Cache refresh failed; serving stale data" e]) w1)
        else (Raise e, w1)
    | inr raw =>
        let c := CachedData.mk (dict_comprehension raw) (clock w1) ttl in
        let w2 := set_heap (heap w ++ [c]) w1 in
        match cache_holder w with
        | [] =>
            (Return tt,
             set_log (log w ++ [LogException
                       "Cache refresh failed; serving stale data"
                       IndexError]) w2)
        | _ :: _ =>
            (Return tt,
             set_log (log w ++ [LogInfo "Cache refreshed at %s"
                                  (isoformat rt (clock w1))])
               (set_cache_holder
                  (<[0%nat := List.length (heap w)]> (cache_holder w)) w2))
        end
    end.
Proof.
  unfold refresh_loop_iteration.
  unfold bind at 1, asyncio_sleep, modify. fold (slept ttl w).
  unfold try_except. unfold bind at 1. rewrite build_cache_spec.
  cbv zeta. destruct (outcome _) as [e|raw].
  - by destruct (is_Exception e).
  - unfold bind, cache_holder_setitem0, deref, logger_info, modify. simpl.
    destruct (cache_holder w) as [|r0 rest]; [reflexivity|]. simpl.
    rewrite lookup_app_r, Nat.sub_diag by done. reflexivity.
Qed.

Lemma refresh_loop_iteration_step client base_url ttl w :
  refreshed_or_kept w (refresh_loop_iteration rt client base_url ttl w).2.
Proof.
  rewrite refresh_loop_iteration_spec. cbv zeta.
  destruct (outcome _) as [e|raw].
  - destruct (is_Exception e); by apply untouched_refreshed_or_kept.
  - destruct (cache_holder w) as [|r0 rest] eqn:Hcw; simpl.
    + split; [by eexists | by left].
    + split; [by eexists|]. right. eexists. simpl. by rewrite Hcw.
Qed.

Lemma after_step op w : refreshed_or_kept w (after rt op w).
Proof.
  destruct op; simpl.
  - apply untouched_refreshed_or_kept, requires_role_untouched.
    intros c. apply list_entities_func_untouched.
  - apply untouched_refreshed_or_kept, requires_role_untouched.
    intros c. apply get_entity_func_untouched.
  - unfold refresh_cache.
    destruct (requires_role_after ["admin"] (refresh_cache_func rt) tt ctx w)
      as (w1 & Hu & [[e ->] | (c & _ & ->)]).
    + by apply untouched_refreshed_or_kept.
    + eapply refreshed_or_kept_after_untouched; [exact Hu|].
      apply refresh_cache_func_step.
  - apply untouched_refreshed_or_kept, cache_summary_untouched.
  - apply untouched_refreshed_or_kept, cache_health_untouched.
  - apply refresh_loop_iteration_step.
Qed.

Lemma after_all_kept ops w : objects_kept w (after_all rt ops w).
Proof.
  revert w. induction ops as [|op ops IH]; intros w; simpl.
  - reflexivity.
  - etrans; [apply (after_step op w) | apply IH].
Qed.

(** C9. Immutability and wholesale replacement: whatever operations the
    server runs, every snapshot object that existed keeps all its fields;
    an operation leaves the holder as it was or makes slot 0 refer to an
    object that did not exist before; and a scheduled cycle or a manual
    refresh that succeeds does the latter, with a snapshot built at that
    moment. *)
Theorem snapshots_replaced_never_patched :
  (∀ ops w r c,
     heap w !! r = Some c → heap (after_all rt ops w) !! r = Some c)
  ∧ (∀ op w,
       cache_holder (after rt op w) = cache_holder w
       ∨ swapped_to_new w (after rt op w))
  ∧ (∀ client base_url ttl w raw,
       outcome (downstream_reply rt (slept ttl w) base_url) = inr raw →
       cache_holder w ≠ [] →
       let w' := after rt (ScheduledCycle client base_url ttl) w in
       swapped_to_new w w'
       ∧ current w'
         = Some (CachedData.mk (dict_comprehension raw) (clock w') ttl))
  ∧ (∀ ctx client w msg,
       http_client (lifespan_context ctx) = Some client →
       (refresh_cache rt tt (Some ctx) w).1 = Return msg →
       let w' := after rt (CallRefreshCache (Some ctx)) w in
       swapped_to_new w w'
       ∧ ∃ c, current w' = Some c
              ∧ CachedData.last_refreshed_at c = clock w').
Proof.
  split; [|split; [|split]].
  - intros ops w r c Hr.
    eapply prefix_lookup_Some; [exact Hr | apply after_all_kept].
  - intros op w. apply after_step.
  - intros client base_url ttl w raw Hraw Hne w'. subst w'. simpl.
    rewrite refresh_loop_iteration_spec. cbv zeta. rewrite Hraw.
    destruct (cache_holder w) as [|r0 rest] eqn:Hcw; [done|]. simpl.
    split.
    + eexists. simpl. by rewrite Hcw.
    + unfold current. simpl. by rewrite lookup_app_r, Nat.sub_diag.
  - intros ctx client w msg Hclient Hret w'. subst w'.
    change (after rt (CallRefreshCache (Some ctx)) w)
      with (refresh_cache rt tt (Some ctx) w).2.
    unfold refresh_cache in *.
    destruct (requires_role_after ["admin"] (refresh_cache_func rt) tt
                (Some ctx) w)
      as (w1 & [Hh Hc] & [[e He] | (c & [= <-] & Hrun)]).
    { rewrite He in Hret. done. }
    rewrite Hrun in *.
    rewrite (refresh_cache_func_spec _ _ _ Hclient) in *. cbv zeta in *.
    destruct (int_of_str rt _) as [ttl|]; [|done].
    destruct (outcome _) as [e|raw]; [done|].
    rewrite Hc, Hh in *.
    destruct (cache_holder w) as [|r0 rest] eqn:Hcw; [done|]. simpl.
    split.
    + eexists. simpl. by rewrite Hcw.
    + eexists. split.
      * unfold current. simpl. by rewrite lookup_app_r, Nat.sub_diag.
      * reflexivity.
Qed.

(** *** The tools, once the caller is resolved *)

Lemma current_Some w cache :
  current w = Some cache →
  ∃ r rest, cache_holder w = r :: rest ∧ heap w !! r = Some cache.
Proof.
  unfold current. destruct (cache_holder w) as [|r rest]; [done|].
  simpl. intros H. by exists r, rest.
Qed.

Lemma list_entities_func_resolved category ctx w token p cache :
  (extract_bearer_token ctx w).1 = Return token →
  get_entitlements rt token w = (Return p, w) →
  current w = Some cache →
  list_entities_func rt category ctx w =
    (Return (listing (visible_entities cache p category)
               (CachedData.is_stale_at (clock w) cache)), w).
Proof.
  intros Htok Hent (r & rest & Hc & Hr)%current_Some.
  unfold list_entities_func, bind, cache_holder_getitem0, deref.
  rewrite Hc, Hr, (extract_bearer_token_Return _ _ _ Htok w), Hent.
  unfold listing.
  destruct (visible_entities cache p category) as [|e l]; [reflexivity|].
  unfold is_stale, bind, deref, datetime_now, get. rewrite Hr.
  by destruct (CachedData.is_stale_at _ _).
Qed.

Lemma get_entity_func_resolved entity_id ctx w token p cache :
  (extract_bearer_token ctx w).1 = Return token →
  get_entitlements rt token w = (Return p, w) →
  current w = Some cache →
  get_entity_func rt entity_id ctx w =
    (Return
       match dict_get (CachedData.entities cache) entity_id with
       | None => entity_not_found entity_id
       | Some entity =>
           if decide (EntityData.category entity
                        ∉ UserEntitlements.permitted_categories p)
           then access_denied entity
           else entity_body rt entity
       end, w).
Proof.
  intros Htok Hent (r & rest & Hc & Hr)%current_Some.
  unfold get_entity_func, bind, cache_holder_getitem0, deref.
  rewrite Hc, Hr.
  destruct (dict_get _ _) as [entity|]; [|reflexivity].
  rewrite (extract_bearer_token_Return _ _ _ Htok w), Hent.
  by destruct (decide _).
Qed.

(** What a resolved caller who passes the role gate gets from a tool:
    the handler's answer in the world where the profile is cached. *)
Lemma requires_role_passed {A T} roles (func : A -> Context -> M T)
    a ctx w token p w1 :
  (extract_bearer_token ctx w).1 = Return token →
  get_entitlements rt token w = (Return p, w1) →
  UserEntitlements.global_roles p ∩ list_to_set roles ≠ ∅ →
  requires_role rt roles func a (Some ctx) w = func a ctx w1
  ∧ (extract_bearer_token ctx w1).1 = Return token
  ∧ get_entitlements rt token w1 = (Return p, w1)
  ∧ current w1 = current w.
Proof.
  intros Htok Hent Hroles.
  rewrite (requires_role_resolved _ _ _ _ _ _ _ _ Htok Hent).
  destruct (decide _); [done|]. repeat split.
  - by rewrite (extract_bearer_token_Return _ _ _ Htok w1).
  - by eapply get_entitlements_again.
  - apply current_untouched.
    pose proof (get_entitlements_untouched token w) as Hu.
    by rewrite Hent in Hu.
Qed.

Lemma access_denied_not_body e : access_denied e ≠ entity_body rt e.
Proof. unfold access_denied, entity_body. simpl. discriminate. Qed.

Lemma not_found_not_denied entity_id e :
  entity_not_found entity_id ≠ access_denied e.
Proof. unfold access_denied, entity_not_found. simpl. discriminate. Qed.

(** *** The claims about the tools *)

Lemma requires_role_Return {A T} roles (func : A -> Context -> M T)
    a ctx w x w' :
  requires_role rt roles func a ctx w = (Return x, w') →
  ∃ c token p w1,
    ctx = Some c
    ∧ (extract_bearer_token c w).1 = Return token
    ∧ get_entitlements rt token w = (Return p, w1)
    ∧ UserEntitlements.global_roles p ∩ list_to_set roles ≠ ∅
    ∧ func a c w1 = (Return x, w').
Proof.
  destruct ctx as [c|]; [|done].
  unfold requires_role, bind.
  rewrite (extract_bearer_token_pure c w w).
  destruct (extract_bearer_token c w).1 as [token|e] eqn:Htok; [|done].
  destruct (get_entitlements rt token w) as [[p|e] w1] eqn:Hent; [|done].
  destruct (decide _) as [|Hroles]; [done|].
  intros Hrun. by exists c, token, p, w1.
Qed.

Lemma list_entities_func_Return category ctx w out w' :
  list_entities_func rt category ctx w = (Return out, w') →
  ∃ cache, current w = Some cache.
Proof.
  unfold list_entities_func, bind, cache_holder_getitem0, deref, current.
  destruct (cache_holder w) as [|r rest]; [done|]. simpl.
  destruct (heap w !! r) as [cache|]; [|done]. by exists cache.
Qed.

Lemma get_entity_func_Return entity_id ctx w out w' :
  get_entity_func rt entity_id ctx w = (Return out, w') →
  ∃ cache, current w = Some cache.
Proof.
  unfold get_entity_func, bind, cache_holder_getitem0, deref, current.
  destruct (cache_holder w) as [|r rest]; [done|]. simpl.
  destruct (heap w !! r) as [cache|]; [|done]. by exists cache.
Qed.

(** A tool behind [requires_role] that returned did so for a caller whose
    credential resolved, who passed the gate, and who read a snapshot. *)
Lemma tool_Return {A} roles (func : A -> Context -> M string) a ctx w
    out w' :
  (∀ c w1 out w', func a c w1 = (Return out, w') →
                  ∃ cache, current w1 = Some cache) →
  requires_role rt roles func a ctx w = (Return out, w') →
  ∃ c token p w1 cache,
    ctx = Some c
    ∧ (extract_bearer_token c w).1 = Return token
    ∧ get_entitlements rt token w = (Return p, w1)
    ∧ UserEntitlements.global_roles p ∩ list_to_set roles ≠ ∅
    ∧ current w = Some cache.
Proof.
  intros Hfunc (c & token & p & w1 & -> & Htok & Hent & Hroles & Hrun)
    %requires_role_Return.
  destruct (Hfunc _ _ _ _ Hrun) as [cache Hcur].
  exists c, token, p, w1, cache. repeat split; try done.
  rewrite <- Hcur. symmetry. apply current_untouched.
  pose proof (get_entitlements_untouched token w) as Hu.
  by rewrite Hent in Hu.
Qed.

(** C1. Layer 4.  For a resolved caller who passes the role gate,
    [list_entities] answers with the listing of exactly the entities of the
    current snapshot that it selected; each selected entity is in the
    snapshot and has a permitted category, so an entity whose category is
    not permitted is never selected; and [get_entity] on such an entity
    answers with the access-denied text, which is not the entity body.
    For every caller: whenever one of the two tools returns a text at all,
    the caller is such a caller. *)
Theorem layer4_data_filtering category entity_id w :
  (∀ ctx token p w1 cache,
     (extract_bearer_token ctx w).1 = Return token →
     get_entitlements rt token w = (Return p, w1) →
     UserEntitlements.global_roles p ∩ list_to_set ["reader"; "admin"] ≠ ∅ →
     current w = Some cache →
     let permitted := UserEntitlements.permitted_categories p in
     let snapshot := dict_values (CachedData.entities cache) in
     let shown := visible_entities cache p category in
     list_entities rt category (Some ctx) w
       = (Return (listing shown (CachedData.is_stale_at (clock w1) cache)), w1)
     ∧ (∀ e, e ∈ shown → e ∈ snapshot ∧ EntityData.category e ∈ permitted)
     ∧ (∀ e, e ∈ snapshot → EntityData.category e ∉ permitted → e ∉ shown)
     ∧ (∀ e, dict_get (CachedData.entities cache) entity_id = Some e →
             EntityData.category e ∉ permitted →
             get_entity rt entity_id (Some ctx) w
               = (Return (access_denied e), w1)
             ∧ access_denied e ≠ entity_body rt e))
  ∧ (∀ opt_ctx out w',
       list_entities rt category opt_ctx w = (Return out, w')
       ∨ get_entity rt entity_id opt_ctx w = (Return out, w') →
       ∃ ctx token p w1 cache,
         opt_ctx = Some ctx
         ∧ (extract_bearer_token ctx w).1 = Return token
         ∧ get_entitlements rt token w = (Return p, w1)
         ∧ UserEntitlements.global_roles p
             ∩ list_to_set ["reader"; "admin"] ≠ ∅
         ∧ current w = Some cache).
Proof.
  split.
  - intros ctx token p w1 cache Htok Hent Hroles Hcur permitted snapshot shown.
    assert (Hshown : ∀ e, e ∈ shown →
                          e ∈ snapshot ∧ EntityData.category e ∈ permitted).
    { intros e [[Hperm _] Hin]%list_elem_of_filter. done. }
    split; [|split; [exact Hshown|split]].
    + unfold list_entities.
      destruct (requires_role_passed ["reader"; "admin"]
                  (list_entities_func rt) category ctx w token p w1
                  Htok Hent Hroles) as (-> & Htok1 & Hent1 & Hcur1).
      rewrite Hcur in Hcur1.
      apply (list_entities_func_resolved _ _ _ _ _ _ Htok1 Hent1 Hcur1).
    + intros e _ Hnot Hin. by destruct (Hshown e Hin).
    + intros e He Hnot. split; [|apply access_denied_not_body].
      unfold get_entity.
      destruct (requires_role_passed ["reader"; "admin"]
                  (get_entity_func rt) entity_id ctx w token p w1
                  Htok Hent Hroles) as (-> & Htok1 & Hent1 & Hcur1).
      rewrite Hcur in Hcur1.
      rewrite (get_entity_func_resolved _ _ _ _ _ _ Htok1 Hent1 Hcur1), He.
      by destruct (decide _).
  - intros opt_ctx out w' [Hret | Hret].
    + eapply tool_Return; [|exact Hret].
      intros c w1 out1 w1'. apply list_entities_func_Return.
    + eapply tool_Return; [|exact Hret].
      intros c w1 out1 w1'. apply get_entity_func_Return.
Qed.

(** C10. Existence leak in [get_entity]: to a resolved caller who passes
    the role gate and has no entitlement for the category of the entity
    stored under [present], the tool answers not-found for an id that is
    absent from the snapshot and access-denied, naming the category, for
    [present]; the two answers differ.  The not-found answer is given
    before any credential is looked at. *)
Theorem get_entity_existence_leak absent present ctx w token p w1 cache e :
  (extract_bearer_token ctx w).1 = Return token →
  get_entitlements rt token w = (Return p, w1) →
  UserEntitlements.global_roles p ∩ list_to_set ["reader"; "admin"] ≠ ∅ →
  current w = Some cache →
  dict_get (CachedData.entities cache) absent = None →
  dict_get (CachedData.entities cache) present = Some e →
  EntityData.category e ∉ UserEntitlements.permitted_categories p →
  get_entity rt absent (Some ctx) w
    = (Return ("Entity '" ++ absent ++ "' not found."), w1)
  ∧ get_entity rt present (Some ctx) w
    = (Return ("Access denied: you do not have entitlements for category '"
               ++ EntityData.category e ++ "'."), w1)
  ∧ (get_entity rt absent (Some ctx) w).1
    ≠ (get_entity rt present (Some ctx) w).1
  ∧ (∀ any_ctx w', current w' = Some cache →
       get_entity_func rt absent any_ctx w'
         = (Return ("Entity '" ++ absent ++ "' not found."), w')).
Proof.
  intros Htok Hent Hroles Hcur Habsent Hpresent Hnot.
  assert (Ha : get_entity rt absent (Some ctx) w
               = (Return (entity_not_found absent), w1)).
  { unfold get_entity.
    destruct (requires_role_passed ["reader"; "admin"]
                (get_entity_func rt) absent ctx w token p w1
                Htok Hent Hroles) as (-> & Htok1 & Hent1 & Hcur1).
    rewrite Hcur in Hcur1.
    by rewrite (get_entity_func_resolved _ _ _ _ _ _ Htok1 Hent1 Hcur1),
      Habsent. }
  assert (Hp : get_entity rt present (Some ctx) w
               = (Return (access_denied e), w1)).
  { unfold get_entity.
    destruct (requires_role_passed ["reader"; "admin"]
                (get_entity_func rt) present ctx w token p w1
                Htok Hent Hroles) as (-> & Htok1 & Hent1 & Hcur1).
    rewrite Hcur in Hcur1.
    rewrite (get_entity_func_resolved _ _ _ _ _ _ Htok1 Hent1 Hcur1),
      Hpresent.
    by destruct (decide _). }
  split; [exact Ha|]. split; [exact Hp|]. split.
  - rewrite Ha, Hp. cbn [fst]. intros H.
    apply (not_found_not_denied absent e). congruence.
  - intros any_ctx w' (r & rest & Hc & Hr)%current_Some.
    unfold get_entity_func, bind, cache_holder_getitem0, deref.
    by rewrite Hc, Hr, Habsent.
Qed.

Lemma no_bearer_not_insufficient roles (has : gset string) :
  "No bearer token found in request"
  ≠ insufficient_permissions rt roles has.
Proof. unfold insufficient_permissions. simpl. discriminate. Qed.

(** C8, as the code has it.  A call through [requires_role] whose
    request carries no usable credential raises [PermissionError] with
    the text "No bearer token found in request"; a call whose credential
    the identity provider refuses raises whatever the provider's client
    raised, unchanged; a call whose credential resolves to roles that
    miss the required ones raises [PermissionError] with the
    insufficient-permissions text.  The two [PermissionError]s are of one
    class and differ in their text. *)
Theorem denials_differ_by_message {A T} (roles : list string)
    (func : A -> Context -> M T) a ctx w :
  (credential ctx = None →
   (∀ e, get_http_request ctx = Raise e → is_Exception e = true) →
   requires_role rt roles func a (Some ctx) w
     = (Raise (PermissionError "No bearer token found in request"), w))
  ∧ (∀ token e,
       (extract_bearer_token ctx w).1 = Return token →
       _entitlement_cache w !! sha256_hexdigest rt token = None →
       outcome (verifier_reply rt w token) = inl e →
       (requires_role rt roles func a (Some ctx) w).1 = Raise e)
  ∧ (∀ token p w1,
       (extract_bearer_token ctx w).1 = Return token →
       get_entitlements rt token w = (Return p, w1) →
       UserEntitlements.global_roles p ∩ list_to_set roles = ∅ →
       requires_role rt roles func a (Some ctx) w
         = (Raise (PermissionError
                     (insufficient_permissions rt roles
                        (UserEntitlements.global_roles p))), w1)
       ∧ class_of (PermissionError
                     (insufficient_permissions rt roles
                        (UserEntitlements.global_roles p)))
         = class_of (PermissionError "No bearer token found in request")
       ∧ insufficient_permissions rt roles
           (UserEntitlements.global_roles p)
         ≠ "No bearer token found in request").
Proof.
  split; [|split].
  - intros Hnone Hexc. unfold requires_role, bind.
    rewrite (extract_bearer_token_credential _ _ Hexc), Hnone. reflexivity.
  - intros token e Htok Hmiss Hfail. unfold requires_role, bind.
    rewrite (extract_bearer_token_Return _ _ _ Htok w).
    rewrite (get_entitlements_miss _ _ Hmiss). simpl. by rewrite Hfail.
  - intros token p w1 Htok Hent Hempty.
    rewrite (requires_role_resolved _ _ _ _ _ _ _ _ Htok Hent).
    destruct (decide _); [|done]. repeat split.
    intros H. by apply (no_bearer_not_insufficient roles
                          (UserEntitlements.global_roles p)).
Qed.
End Properties.

(** ** The claims on the concrete deployment *)

Lemma layer3_call_authorization_witness :
  (extract_bearer_token (Demo.bearer "reader-token") Demo.w0).1
    = Return "reader-token"
  ∧ get_entitlements Demo.rt "reader-token" Demo.w0
    = (Return Demo.reader, Demo.w_reader)
  ∧ UserEntitlements.global_roles Demo.reader
      ∩ list_to_set ["reader"; "admin"] ≠ ∅
  ∧ requires_role Demo.rt ["reader"; "admin"] (get_entity_func Demo.rt) "e1"
      (Some (Demo.bearer "reader-token")) Demo.w0
    = get_entity_func Demo.rt "e1" (Demo.bearer "reader-token") Demo.w_reader.
Proof.
  assert (H1 : (extract_bearer_token (Demo.bearer "reader-token") Demo.w0).1
               = Return "reader-token") by (vm_compute; reflexivity).
  assert (H2 : get_entitlements Demo.rt "reader-token" Demo.w0
               = (Return Demo.reader, Demo.w_reader))
    by (vm_compute; reflexivity).
  assert (H3 : UserEntitlements.global_roles Demo.reader
                 ∩ list_to_set ["reader"; "admin"] ≠ ∅) by (by vm_compute).
  split; [exact H1|]. split; [exact H2|]. split; [exact H3|].
  exact (proj1 (layer3_call_authorization Demo.rt ["reader"; "admin"]
                  (get_entity_func Demo.rt) "e1" (Demo.bearer "reader-token")
                  Demo.w0 "reader-token" Demo.reader Demo.w_reader H1 H2) H3).
Defined.

Lemma resolve_twice_verifies_once_witness :
  get_entitlements Demo.rt "reader-token" Demo.w0
    = (Return Demo.reader, Demo.w_reader)
  ∧ get_entitlements Demo.rt "reader-token" Demo.w_reader
    = (Return Demo.reader, Demo.w_reader)
  ∧ (verifier_invocations
       (get_entitlements Demo.rt "reader-token" Demo.w_reader).2
     ≤ verifier_invocations Demo.w0 + 1)%nat.
Proof.
  assert (H : get_entitlements Demo.rt "reader-token" Demo.w0
              = (Return Demo.reader, Demo.w_reader))
    by (vm_compute; reflexivity).
  split; [exact H|].
  exact (resolve_twice_verifies_once Demo.rt "reader-token" Demo.w0
           Demo.reader Demo.w_reader H).
Defined.

Lemma failed_verification_not_cached_witness :
  _entitlement_cache Demo.w0 !! sha256_hexdigest Demo.rt "forged-token" = None
  ∧ outcome (verifier_reply Demo.rt Demo.w0 "forged-token")
    = inl (HTTPStatusError 401)
  ∧ (get_entitlements Demo.rt "forged-token" Demo.w0).1
    = Raise (HTTPStatusError 401)
  ∧ _entitlement_cache (get_entitlements Demo.rt "forged-token" Demo.w0).2
    = _entitlement_cache Demo.w0
  ∧ _entitlement_cache (get_entitlements Demo.rt "forged-token" Demo.w0).2
      !! sha256_hexdigest Demo.rt "forged-token" = None.
Proof.
  assert (H1 : _entitlement_cache Demo.w0
                 !! sha256_hexdigest Demo.rt "forged-token" = None)
    by (vm_compute; reflexivity).
  assert (H2 : outcome (verifier_reply Demo.rt Demo.w0 "forged-token")
               = inl (HTTPStatusError 401)) by (vm_compute; reflexivity).
  split; [exact H1|]. split; [exact H2|].
  exact (failed_verification_not_cached Demo.rt "forged-token" Demo.w0
           (HTTPStatusError 401) H1 H2).
Defined.

Lemma staleness_semantics_witness :
  let w' := (build_cache Demo.rt HttpxAsyncClient "http://api" 300 Demo.w0).2 in
  (heap Demo.w_down !! 0%nat = Some Demo.snapshot0
   ∧ (0 ≤ CachedData.ttl_seconds Demo.snapshot0 < 2 ^ 34)%Z
   ∧ is_stale 0%nat Demo.w_down = (Return false, Demo.w_down))
  ∧ ((0 ≤ 300 < 2 ^ 34)%Z
     ∧ build_cache Demo.rt HttpxAsyncClient "http://api" 300 Demo.w0
       = (Return 1%nat, w')
     ∧ is_stale 1%nat (time_passes 300000000 w')
       = (Return false, time_passes 300000000 w')
     ∧ is_stale 1%nat (time_passes 300000001 w')
       = (Return true, time_passes 300000001 w')).
Proof.
  intros w'.
  assert (H0 : heap Demo.w_down !! 0%nat = Some Demo.snapshot0)
    by reflexivity.
  assert (H1 : (0 ≤ 300 < 2 ^ 34)%Z) by lia.
  assert (H2 : build_cache Demo.rt HttpxAsyncClient "http://api" 300 Demo.w0
               = (Return 1%nat, w')) by (vm_compute; reflexivity).
  split.
  - split; [exact H0|]. split; [exact H1|].
    exact (proj1 (proj1 (staleness_semantics Demo.rt) 0%nat Demo.snapshot0
                    Demo.w_down H0 H1)).
  - split; [exact H1|]. split; [exact H2|].
    pose proof (proj2 (proj2 (staleness_semantics Demo.rt) HttpxAsyncClient
                         "http://api" 300 Demo.w0 1%nat w' H1 H2))
      as Hlater.
    split.
    + exact (Hlater 300000000%Z ltac:(lia)).
    + exact (Hlater 300000001%Z ltac:(lia)).
Defined.

Lemma manual_refresh_atomic_witness :
  http_client (lifespan_context (Demo.bearer "admin-token"))
    = Some HttpxAsyncClient
  ∧ (extract_bearer_token (Demo.bearer "admin-token") Demo.w_down).1
    = Return "admin-token"
  ∧ get_entitlements Demo.rt "admin-token" Demo.w_down
    = (Return Demo.admin, Demo.w_down_admin)
  ∧ "admin" ∈ UserEntitlements.global_roles Demo.admin
  ∧ int_of_str Demo.rt
      (default "300" (environ Demo.w_down !! "CACHE_TTL_SECONDS")) = Some 300
  ∧ cache_holder Demo.w_down ≠ []
  ∧ outcome (downstream_reply Demo.rt Demo.w_down_admin "http://down")
    = inl TransportError
  ∧ (refresh_cache Demo.rt tt (Some (Demo.bearer "admin-token")) Demo.w_down).1
    = Raise TransportError
  ∧ current
      (refresh_cache Demo.rt tt (Some (Demo.bearer "admin-token"))
         Demo.w_down).2
    = current Demo.w_down.
Proof.
  assert (H1 : http_client (lifespan_context (Demo.bearer "admin-token"))
               = Some HttpxAsyncClient) by reflexivity.
  assert (H2 : (extract_bearer_token (Demo.bearer "admin-token")
                  Demo.w_down).1 = Return "admin-token")
    by (vm_compute; reflexivity).
  assert (H3 : get_entitlements Demo.rt "admin-token" Demo.w_down
               = (Return Demo.admin, Demo.w_down_admin))
    by (vm_compute; reflexivity).
  assert (H4 : "admin" ∈ UserEntitlements.global_roles Demo.admin)
    by (vm_compute; reflexivity).
  assert (H5 : int_of_str Demo.rt
                 (default "300" (environ Demo.w_down !! "CACHE_TTL_SECONDS"))
               = Some 300) by (vm_compute; reflexivity).
  assert (H6 : cache_holder Demo.w_down ≠ []) by (by vm_compute).
  assert (H7 : outcome (downstream_reply Demo.rt Demo.w_down_admin
                          "http://down") = inl TransportError)
    by (vm_compute; reflexivity).
  repeat (split; [assumption|]).
  destruct (proj1 (manual_refresh_atomic Demo.rt (Demo.bearer "admin-token")
                     HttpxAsyncClient Demo.w_down "admin-token" Demo.admin
                     Demo.w_down_admin 300 H1 H2 H3 H4 H5 H6)
              TransportError H7) as (Hraise & _ & Hcurrent).
  split; [exact Hraise | exact Hcurrent].
Defined.

Lemma scheduled_failure_serves_stale_witness :
  outcome (downstream_reply Demo.rt (slept 300 Demo.w_down) "http://down")
    = inl TransportError
  ∧ is_Exception TransportError = true
  ∧ (refresh_loop_iteration Demo.rt HttpxAsyncClient "http://down" 300
       Demo.w_down).1 = Return tt
  ∧ current
      (refresh_loop_iteration Demo.rt HttpxAsyncClient "http://down" 300
         Demo.w_down).2
    = current Demo.w_down.
Proof.
  assert (H1 : outcome (downstream_reply Demo.rt (slept 300 Demo.w_down)
                          "http://down") = inl TransportError)
    by (vm_compute; reflexivity).
  assert (H2 : is_Exception TransportError = true) by reflexivity.
  split; [exact H1|]. split; [exact H2|].
  destruct (scheduled_failure_serves_stale Demo.rt HttpxAsyncClient
              "http://down" 300 Demo.w_down TransportError 1 H1 H2)
    as (Hret & _ & Hcurrent & _).
  split; [exact Hret | exact Hcurrent].
Defined.

Lemma snapshots_replaced_never_patched_witness :
  heap Demo.w0 !! 0%nat = Some Demo.snapshot0
  ∧ heap (after_all Demo.rt
            [CallRefreshCache (Some (Demo.bearer "admin-token"));
             ScheduledCycle HttpxAsyncClient "http://api" 300;
             CallListEntities None (Some (Demo.bearer "reader-token"))]
            Demo.w0) !! 0%nat
    = Some Demo.snapshot0.
Proof.
  assert (H : heap Demo.w0 !! 0%nat = Some Demo.snapshot0) by reflexivity.
  split; [exact H|].
  exact (proj1 (snapshots_replaced_never_patched Demo.rt) _ Demo.w0 0%nat
           Demo.snapshot0 H).
Defined.

Lemma layer4_data_filtering_witness :
  (extract_bearer_token (Demo.bearer "reader-token") Demo.w0).1
    = Return "reader-token"
  ∧ get_entitlements Demo.rt "reader-token" Demo.w0
    = (Return Demo.reader, Demo.w_reader)
  ∧ UserEntitlements.global_roles Demo.reader
      ∩ list_to_set ["reader"; "admin"] ≠ ∅
  ∧ current Demo.w0 = Some Demo.snapshot0
  ∧ dict_get (CachedData.entities Demo.snapshot0) "e2" = Some Demo.e2
  ∧ (EntityData.category Demo.e2
       ∉ UserEntitlements.permitted_categories Demo.reader)
  ∧ list_entities Demo.rt None (Some (Demo.bearer "reader-token")) Demo.w0
    = (Return (listing (visible_entities Demo.snapshot0 Demo.reader None)
                 (CachedData.is_stale_at (clock Demo.w_reader) Demo.snapshot0)),
       Demo.w_reader)
  ∧ get_entity Demo.rt "e2" (Some (Demo.bearer "reader-token")) Demo.w0
    = (Return (access_denied Demo.e2), Demo.w_reader).
Proof.
  assert (H1 : (extract_bearer_token (Demo.bearer "reader-token") Demo.w0).1
               = Return "reader-token") by (vm_compute; reflexivity).
  assert (H2 : get_entitlements Demo.rt "reader-token" Demo.w0
               = (Return Demo.reader, Demo.w_reader))
    by (vm_compute; reflexivity).
  assert (H3 : UserEntitlements.global_roles Demo.reader
                 ∩ list_to_set ["reader"; "admin"] ≠ ∅) by (by vm_compute).
  assert (H4 : current Demo.w0 = Some Demo.snapshot0) by reflexivity.
  assert (H5 : dict_get (CachedData.entities Demo.snapshot0) "e2"
               = Some Demo.e2) by (vm_compute; reflexivity).
  assert (H6 : EntityData.category Demo.e2
                 ∉ UserEntitlements.permitted_categories Demo.reader)
    by (by vm_compute).
  repeat (split; [assumption|]).
  destruct (proj1 (layer4_data_filtering Demo.rt None "e2" Demo.w0)
              (Demo.bearer "reader-token") "reader-token" Demo.reader
              Demo.w_reader Demo.snapshot0 H1 H2 H3 H4)
    as (Hlist & _ & _ & Hget).
  split; [exact Hlist | exact (proj1 (Hget Demo.e2 H5 H6))].
Defined.

Lemma get_entity_existence_leak_witness :
  (extract_bearer_token (Demo.bearer "reader-token") Demo.w0).1
    = Return "reader-token"
  ∧ get_entitlements Demo.rt "reader-token" Demo.w0
    = (Return Demo.reader, Demo.w_reader)
  ∧ UserEntitlements.global_roles Demo.reader
      ∩ list_to_set ["reader"; "admin"] ≠ ∅
  ∧ current Demo.w0 = Some Demo.snapshot0
  ∧ dict_get (CachedData.entities Demo.snapshot0) "e9" = None
  ∧ dict_get (CachedData.entities Demo.snapshot0) "e2" = Some Demo.e2
  ∧ (EntityData.category Demo.e2
       ∉ UserEntitlements.permitted_categories Demo.reader)
  ∧ (get_entity Demo.rt "e9" (Some (Demo.bearer "reader-token")) Demo.w0).1
    ≠ (get_entity Demo.rt "e2" (Some (Demo.bearer "reader-token")) Demo.w0).1.
Proof.
  assert (H1 : (extract_bearer_token (Demo.bearer "reader-token") Demo.w0).1
               = Return "reader-token") by (vm_compute; reflexivity).
  assert (H2 : get_entitlements Demo.rt "reader-token" Demo.w0
               = (Return Demo.reader, Demo.w_reader))
    by (vm_compute; reflexivity).
  assert (H3 : UserEntitlements.global_roles Demo.reader
                 ∩ list_to_set ["reader"; "admin"] ≠ ∅) by (by vm_compute).
  assert (H4 : current Demo.w0 = Some Demo.snapshot0) by reflexivity.
  assert (H5 : dict_get (CachedData.entities Demo.snapshot0) "e9" = None)
    by (vm_compute; reflexivity).
  assert (H6 : dict_get (CachedData.entities Demo.snapshot0) "e2"
               = Some Demo.e2) by (vm_compute; reflexivity).
  assert (H7 : EntityData.category Demo.e2
                 ∉ UserEntitlements.permitted_categories Demo.reader)
    by (by vm_compute).
  repeat (split; [assumption|]).
  exact (proj1 (proj2 (proj2
           (get_entity_existence_leak Demo.rt "e9" "e2"
              (Demo.bearer "reader-token") Demo.w0 "reader-token" Demo.reader
              Demo.w_reader Demo.snapshot0 Demo.e2 H1 H2 H3 H4 H5 H6 H7)))).
Defined.

Lemma denials_differ_by_message_witness :
  credential Demo.anonymous = None
  ∧ (∀ e, get_http_request Demo.anonymous = Raise e → is_Exception e = true)
  ∧ requires_role Demo.rt ["reader"; "admin"] (get_entity_func Demo.rt) "e1"
      (Some Demo.anonymous) Demo.w0
    = (Raise (PermissionError "No bearer token found in request"), Demo.w0).
Proof.
  assert (H1 : credential Demo.anonymous = None) by reflexivity.
  assert (H2 : ∀ e, get_http_request Demo.anonymous = Raise e →
                    is_Exception e = true) by (intros e; discriminate).
  split; [exact H1|]. split; [exact H2|].
  exact (proj1 (denials_differ_by_message Demo.rt ["reader"; "admin"]
                  (get_entity_func Demo.rt) "e1" Demo.anonymous Demo.w0)
           H1 H2).
Defined.

(** The claim C8 read on the code: the request without a credential and
    the request whose credential carries no role are refused with
    exceptions of one and the same class, and the request whose credential
    the identity provider refuses is refused with an exception of another
    class than the request without a credential. *)
Lemma denial_kinds_not_as_claimed :
  ∃ missing no_role refused,
    (list_entities Demo.rt None (Some Demo.anonymous) Demo.w0).1
      = Raise missing
    ∧ (list_entities Demo.rt None (Some (Demo.bearer "guest-token"))
         Demo.w0).1 = Raise no_role
    ∧ (list_entities Demo.rt None (Some (Demo.bearer "forged-token"))
         Demo.w0).1 = Raise refused
    ∧ class_of missing = class_of no_role
    ∧ class_of refused ≠ class_of missing.
Proof.
  exists (PermissionError "No bearer token found in request"),
    (PermissionError
       "Insufficient permissions. Required one of: (reader, admin), user has: {}"),
    (HTTPStatusError 401).
  repeat split; try (vm_compute; reflexivity).
  vm_compute. discriminate.
Qed.

(** The claim C7 read on the code.  At a ttl of 2^34 seconds, a snapshot
    whose age exceeds the ttl by one microsecond is not stale: the [float]
    age is the ttl itself.  And at a ttl of 0, a snapshot that [build_cache]
    has just stamped is stale one microsecond later. *)
Lemma staleness_not_as_claimed :
  let c := CachedData.mk [] 0 (2 ^ 34) in
  let now := (2 ^ 34 * 1000000 + 1)%Z in
  let w' := (build_cache Demo.rt HttpxAsyncClient "http://api" 0 Demo.w0).2 in
  ((0 ≤ CachedData.ttl_seconds c)%Z
   ∧ (CachedData.ttl_seconds c * 1000000
      < now - CachedData.last_refreshed_at c)%Z
   ∧ CachedData.is_stale_float_at now c = false)
  ∧ (build_cache Demo.rt HttpxAsyncClient "http://api" 0 Demo.w0
     = (Return 1%nat, w')
     ∧ is_stale 1%nat (time_passes 1 w') = (Return true, time_passes 1 w')).
Proof.
  repeat split; try (vm_compute; reflexivity); vm_compute; discriminate.
Qed.

(** ** The scenarios of the specification, evaluated *)

Example scenario_list_entities :
  (list_entities Demo.rt None (Some (Demo.bearer "reader-token")) Demo.w0).1
  = Return "- Pump (id=e1, category=ops)".
Proof. vm_compute. reflexivity. Qed.

Example scenario_get_entity_e2 :
  (get_entity Demo.rt "e2" (Some (Demo.bearer "reader-token")) Demo.w0).1
  = Return "Access denied: you do not have entitlements for category 'finance'.".
Proof. vm_compute. reflexivity. Qed.

Example scenario_empty_roles_denied :
  get_entitlements Demo.rt "guest-token" Demo.w0
  = (Return Demo.guest, Demo.w_guest)
  ∧ list_entities Demo.rt None (Some (Demo.bearer "guest-token")) Demo.w0
    = (Raise (PermissionError
                (insufficient_permissions Demo.rt ["reader"; "admin"] ∅)),
       Demo.w_guest).
Proof. split; vm_compute; reflexivity. Qed.

Example scenario_reader_cannot_refresh :
  (refresh_cache Demo.rt tt (Some (Demo.bearer "reader-token")) Demo.w0).1
  = Raise (PermissionError
             (insufficient_permissions Demo.rt ["admin"] {["reader"]})).
Proof. vm_compute. reflexivity. Qed.

Example scenario_force_refresh :
  (refresh_cache Demo.rt tt (Some (Demo.bearer "admin-token")) Demo.w0).1
  = Return "Cache refreshed. 2 entities loaded."
  ∧ cache_holder
      (refresh_cache Demo.rt tt (Some (Demo.bearer "admin-token")) Demo.w0).2
    = [1%nat].
Proof. split; vm_compute; reflexivity. Qed.

Example scenario_two_failed_cycles :
  (refresh_loop Demo.rt 2 HttpxAsyncClient "http://down" 300 Demo.w_down).1
  = Return tt
  ∧ current
      (refresh_loop Demo.rt 2 HttpxAsyncClient "http://down" 300 Demo.w_down).2
    = Some Demo.snapshot0.
Proof. split; vm_compute; reflexivity. Qed.

Example scenario_startup_without_downstream :
  let w := mkWorld ∅ 5 ∅ [] [] [] [] in
  (app_lifespan Demo.rt HttpxAsyncClient w).1 = Return {| http_client := None |}
  ∧ current (app_lifespan Demo.rt HttpxAsyncClient w).2
    = Some (CachedData.mk [] 5 300).
Proof. split; vm_compute; reflexivity. Qed.

(** * Further properties of the server *)

(** ** Dictionaries *)

Section PyDictFacts.
Context {V : Type}.
Implicit Types (d : pydict V) (k : string) (v : V).

Lemma dict_get_setitem_eq d k v : dict_get (dict_setitem d k v) k = Some v.
Proof.
  induction d as [|[k' v'] d IH]; cbn [dict_setitem dict_get].
  - by case_decide.
  - destruct (decide (k = k')) as [->|Hne]; cbn [dict_get].
    + by case_decide.
    + by case_decide.
Qed.

Lemma dict_get_setitem_ne d k k' v :
  k ≠ k' → dict_get (dict_setitem d k v) k' = dict_get d k'.
Proof.
  intros Hne. induction d as [|[k0 v0] d IH]; cbn [dict_setitem dict_get].
  - case_decide; [congruence | done].
  - destruct (decide (k = k0)) as [->|Hk]; cbn [dict_get].
    + repeat case_decide; congruence.
    + by rewrite IH.
Qed.

Lemma dict_setitem_keys d k v :
  (dict_setitem d k v).*1
  = if decide (k ∈ d.*1) then d.*1 else (d.*1 ++ [k])%list.
Proof.
  induction d as [|[k' v'] d IH]; cbn [dict_setitem].
  - case_decide; [set_solver | done].
  - destruct (decide (k = k')) as [->|Hne].
    + rewrite !fmap_cons. cbn [fst].
      destruct (decide (k' ∈ k' :: d.*1)); [done | set_solver].
    + rewrite !fmap_cons, IH. cbn [fst]. clear IH.
      destruct (decide (k ∈ d.*1)) as [Hin|Hnin],
        (decide (k ∈ k' :: d.*1)) as [Hin'|Hnin']; try done.
      * destruct Hnin'. by apply list_elem_of_further.
      * apply elem_of_cons in Hin' as [?|?]; done.
Qed.

Lemma dict_setitem_unique d k v :
  unique_keys d → unique_keys (dict_setitem d k v).
Proof.
  unfold unique_keys. intros Hd. rewrite dict_setitem_keys.
  destruct (decide (k ∈ d.*1)); [done|].
  apply NoDup_app. split; [done|]. split.
  - intros x Hx [->|[]%elem_of_nil]%elem_of_cons. done.
  - apply NoDup_singleton.
Qed.

Lemma dict_comprehension_snoc (items : list (string * V)) k v :
  dict_comprehension (items ++ [(k, v)])
  = dict_setitem (dict_comprehension items) k v.
Proof. unfold dict_comprehension. by rewrite fold_left_app. Qed.

Lemma dict_comprehension_unique (items : list (string * V)) :
  unique_keys (dict_comprehension items).
Proof.
  induction items as [|[k v] items IH] using rev_ind.
  - apply NoDup_nil_2.
  - rewrite dict_comprehension_snoc. by apply dict_setitem_unique.
Qed.

Lemma dict_comprehension_get (items : list (string * V)) k :
  dict_get (dict_comprehension items) k = dict_get (reverse items) k.
Proof.
  induction items as [|[k' v'] items IH] using rev_ind; [done|].
  rewrite dict_comprehension_snoc, reverse_snoc. cbn [dict_get].
  destruct (decide (k = k')) as [->|Hne].
  - apply dict_get_setitem_eq.
  - rewrite dict_get_setitem_ne by congruence. apply IH.
Qed.

Lemma dict_comprehension_keys (items : list (string * V)) k :
  k ∈ (dict_comprehension items).*1 ↔ k ∈ items.*1.
Proof.
  induction items as [|[k' v'] items IH] using rev_ind; [done|].
  rewrite dict_comprehension_snoc, dict_setitem_keys, fmap_app. simpl.
  destruct (decide (k' ∈ (dict_comprehension items).*1)) as [Hin|Hnin].
  - rewrite elem_of_app, list_elem_of_singleton, IH.
    split; [tauto|]. intros [?| ->]; [done|]. by apply IH.
  - by rewrite !elem_of_app, IH.
Qed.

Lemma dict_comprehension_len (items : list (string * V)) :
  dict_len (dict_comprehension items) = List.length (remove_dups items.*1).
Proof.
  unfold dict_len. rewrite <- (length_fmap fst).
  apply Permutation_length, NoDup_Permutation.
  - apply dict_comprehension_unique.
  - apply NoDup_remove_dups.
  - intros k. rewrite elem_of_remove_dups. apply dict_comprehension_keys.
Qed.

Lemma dict_get_values d k v : dict_get d k = Some v → v ∈ dict_values d.
Proof.
  unfold dict_values.
  induction d as [|[k' v'] d IH]; cbn [dict_get fmap list_fmap snd]; [done|].
  destruct (decide (k = k')).
  - intros [= ->]. apply list_elem_of_here.
  - intros H. apply list_elem_of_further. by apply IH.
Qed.

Lemma dict_values_get d v :
  unique_keys d → v ∈ dict_values d → ∃ k, dict_get d k = Some v.
Proof.
  unfold unique_keys, dict_values.
  induction d as [|[k' v'] d IH]; cbn [dict_get fmap list_fmap fst snd].
  - by intros _ ?%elem_of_nil.
  - intros [Hk Hd]%NoDup_cons [->|Hin]%elem_of_cons.
    + exists k'. by case_decide.
    + destruct (IH Hd Hin) as [k Hget]. exists k.
      case_decide as Heq; [|done]. subst k. destruct Hk.
      clear -Hget.
      induction d as [|[k0 v0] d IH];
        cbn [dict_get fmap list_fmap fst] in *; [done|].
      destruct (decide (k' = k0)) as [->|]; [apply list_elem_of_here|].
      apply list_elem_of_further. by apply IH.
Qed.
End PyDictFacts.

(** ** Strings *)

Lemma lower_length s : String.length (lower s) = String.length s.
Proof. induction s as [|c s IH]; simpl; [done | by rewrite IH]. Qed.

Lemma lower_slice_to n s : slice_to n (lower s) = lower (slice_to n s).
Proof.
  unfold slice_to. revert s.
  induction n as [|n IH]; intros [|c s]; simpl; try done. by rewrite IH.
Qed.

Lemma append_String c s t : String c s ++ t = String c (s ++ t).
Proof. reflexivity. Qed.

Lemma slice_to_from n s : slice_to n s ++ slice_from n s = s.
Proof.
  unfold slice_to. revert s.
  induction n as [|n IH]; intros [|c s]; simpl; try done.
  by rewrite append_String, IH.
Qed.

Lemma slice_to_app s t : slice_to (String.length s) (s ++ t) = s.
Proof.
  unfold slice_to. induction s as [|c s IH].
  - by destruct t.
  - rewrite append_String. simpl. by rewrite IH.
Qed.

Lemma slice_from_app s t : slice_from (String.length s) (s ++ t) = t.
Proof.
  induction s as [|c s IH]; [done|]. by rewrite append_String.
Qed.

Lemma startswith_lower_bearer h :
  startswith (lower h) "bearer " = true ↔ lower (slice_to 7 h) = "bearer ".
Proof.
  unfold startswith. rewrite prefix_correct.
  change (String.length "bearer ") with 7%nat.
  fold (slice_to 7 (lower h)). by rewrite lower_slice_to.
Qed.

(** ** [auth.py]: which requests carry a token *)

Section Credentials.
Variable rt : Externals.

Lemma extract_bearer_token_cases ctx w :
  (extract_bearer_token ctx w).1 =
    match get_http_request ctx with
    | Return (Some request) =>
        let h :=
          default EmptyString (dict_get (headers request) "authorization") in
        if startswith (lower h) "bearer "
        then Return (slice_from 7 h)
        else Raise (PermissionError "No bearer token found in request")
    | Return None => Raise (PermissionError "No bearer token found in request")
    | Raise e =>
        if is_Exception e
        then Raise (PermissionError "No bearer token found in request")
        else Raise e
    end.
Proof.
  unfold extract_bearer_token, bind, try_except.
  destruct (get_http_request ctx) as [[request|]|e]; cbn zeta.
  - by destruct (startswith _ _).
  - reflexivity.
  - by destruct (is_Exception e).
Qed.

(** X1. [extract_bearer_token] returns a token exactly for a request whose
    [authorization] header is the word "bearer" in any letter case, one
    space, and then the token; the token is what follows, unchanged (it may
    be empty, and is neither trimmed nor lower-cased). *)
Theorem bearer_token_accepted ctx w token :
  (extract_bearer_token ctx w).1 = Return token
  ↔ ∃ request scheme,
      get_http_request ctx = Return (Some request)
      ∧ default EmptyString (dict_get (headers request) "authorization")
        = scheme ++ token
      ∧ lower scheme = "bearer ".
Proof.
  rewrite extract_bearer_token_cases.
  destruct (get_http_request ctx) as [[request|]|e]; cbn zeta.
  - set (h := default EmptyString (dict_get (headers request) "authorization")).
    destruct (startswith (lower h) "bearer ") eqn:Hs.
    + apply startswith_lower_bearer in Hs. split.
      * intros [= <-]. exists request, (slice_to 7 h).
        by rewrite slice_to_from.
      * intros (? & scheme & [= <-] & Hh & Hscheme). fold h in Hh.
        assert (String.length scheme = 7%nat) as Hlen.
        { by rewrite <- lower_length, Hscheme. }
        by rewrite Hh, <- Hlen, slice_from_app.
    + split; [done|].
      intros (? & scheme & [= <-] & Hh & Hscheme). fold h in Hh.
      assert (String.length scheme = 7%nat) as Hlen.
      { by rewrite <- lower_length, Hscheme. }
      assert (startswith (lower h) "bearer " = true); [|congruence].
      apply startswith_lower_bearer.
      by rewrite Hh, <- Hlen, slice_to_app.
  - split; [done | by intros (? & ? & ? & _)].
  - destruct (is_Exception e);
      (split; [done | by intros (? & ? & ? & _)]).
Qed.

(** X2. When [extract_bearer_token] raises, the world is as it was and the
    exception is the [PermissionError] "No bearer token found in request",
    also when [get_http_request] itself raised an [Exception], which is
    swallowed; the one other case is an exception of [get_http_request]
    that is no [Exception], which passes through. *)
Theorem bearer_token_refused ctx w e :
  (extract_bearer_token ctx w).1 = Raise e →
  (extract_bearer_token ctx w).2 = w
  ∧ (e = PermissionError "No bearer token found in request"
     ∨ (get_http_request ctx = Raise e ∧ is_Exception e = false)).
Proof.
  intros H. split; [by rewrite (extract_bearer_token_pure ctx w w)|].
  revert H. rewrite extract_bearer_token_cases.
  destruct (get_http_request ctx) as [[request|]|e']; cbn zeta.
  - destruct (startswith _ _); [done|]. intros [= <-]. by left.
  - intros [= <-]. by left.
  - destruct (is_Exception e') eqn:He; intros [= <-]; [by left | by right].
Qed.
End Credentials.

(** ** [cache.py]: what a fetch puts into a snapshot *)

Section Fetching.
Variable rt : Externals.

Lemma dict_get_app_skip {V} (l l' : pydict V) k :
  k ∉ l.*1 → dict_get (l ++ l')%list k = dict_get l' k.
Proof.
  induction l as [|[k0 v0] l IH]; [done|].
  rewrite fmap_cons. cbn [fst]. intros Hk.
  rewrite <- app_comm_cons. cbn [dict_get].
  destruct (decide (k = k0)) as [->|Hne].
  - destruct Hk. apply list_elem_of_here.
  - apply IH. intros Hin. apply Hk. by apply list_elem_of_further.
Qed.

(** X3. A successful [fetch_all_entities] returns a dictionary with one
    entry per distinct id of the response: an id that occurs several times
    keeps the entity of its last occurrence, an id that does not occur has
    no entry, and the number of entries is the number of distinct ids, at
    most the length of the response. *)
Theorem fetch_all_entities_last_wins client base_url w raw :
  outcome (downstream_reply rt w base_url) = inr raw →
  ∃ d,
    fetch_all_entities rt client base_url w
      = (Return d, asked_downstream rt w base_url)
    ∧ unique_keys d
    ∧ (∀ before k v after,
         raw = (before ++ (k, v) :: after)%list → k ∉ after.*1 →
         dict_get d k = Some v)
    ∧ (∀ k, k ∉ raw.*1 → dict_get d k = None)
    ∧ dict_len d = List.length (remove_dups raw.*1)
    ∧ (dict_len d ≤ List.length raw)%nat.
Proof.
  intros Hraw. exists (dict_comprehension raw).
  split; [|split; [|split; [|split; [|split]]]].
  - unfold fetch_all_entities, bind, http_get.
    fold (downstream_reply rt w base_url). rewrite Hraw. reflexivity.
  - apply dict_comprehension_unique.
  - intros before k v after -> Hk.
    rewrite dict_comprehension_get, reverse_app, reverse_cons, <- app_assoc.
    rewrite dict_get_app_skip.
    + cbn [app dict_get]. by rewrite decide_True.
    + by rewrite fmap_reverse, elem_of_reverse.
  - intros k Hk.
    destruct (dict_get (dict_comprehension raw) k) as [v|] eqn:Hget; [|done].
    destruct Hk. apply dict_comprehension_keys.
    clear -Hget. revert Hget. generalize (dict_comprehension raw).
    intros d. induction d as [|[k0 v0] d IH]; cbn [dict_get]; [done|].
    rewrite fmap_cons. cbn [fst].
    destruct (decide (k = k0)) as [->|Hne]; [intros _; apply list_elem_of_here|].
    intros H. apply list_elem_of_further. by apply IH.
  - apply dict_comprehension_len.
  - rewrite dict_comprehension_len, <- (length_fmap fst raw).
    apply submseteq_length, NoDup_submseteq; [apply NoDup_remove_dups|].
    intros k. by rewrite elem_of_remove_dups.
Qed.
End Fetching.

(** ** [tools.py]: the two read tools together *)

Section ReadTools.
Variable rt : Externals.

Lemma list_entities_resolved category ctx w token p w1 cache :
  (extract_bearer_token ctx w).1 = Return token →
  get_entitlements rt token w = (Return p, w1) →
  UserEntitlements.global_roles p ∩ list_to_set ["reader"; "admin"] ≠ ∅ →
  current w = Some cache →
  list_entities rt category (Some ctx) w
  = (Return (listing (visible_entities cache p category)
               (CachedData.is_stale_at (clock w1) cache)), w1).
Proof.
  intros Htok Hent Hroles Hcur. unfold list_entities.
  destruct (requires_role_passed rt ["reader"; "admin"]
              (list_entities_func rt) category ctx w token p w1
              Htok Hent Hroles) as (-> & Htok1 & Hent1 & Hcur1).
  rewrite Hcur in Hcur1.
  apply (list_entities_func_resolved rt _ _ _ _ _ _ Htok1 Hent1 Hcur1).
Qed.

Lemma get_entity_resolved entity_id ctx w token p w1 cache :
  (extract_bearer_token ctx w).1 = Return token →
  get_entitlements rt token w = (Return p, w1) →
  UserEntitlements.global_roles p ∩ list_to_set ["reader"; "admin"] ≠ ∅ →
  current w = Some cache →
  get_entity rt entity_id (Some ctx) w
  = (Return
       match dict_get (CachedData.entities cache) entity_id with
       | None => entity_not_found entity_id
       | Some entity =>
           if decide (EntityData.category entity
                        ∉ UserEntitlements.permitted_categories p)
           then access_denied entity
           else entity_body rt entity
       end, w1).
Proof.
  intros Htok Hent Hroles Hcur. unfold get_entity.
  destruct (requires_role_passed rt ["reader"; "admin"]
              (get_entity_func rt) entity_id ctx w token p w1
              Htok Hent Hroles) as (-> & Htok1 & Hent1 & Hcur1).
  rewrite Hcur in Hcur1.
  apply (get_entity_func_resolved rt _ _ _ _ _ _ Htok1 Hent1 Hcur1).
Qed.

(** X4. The two read tools agree.  For a resolved caller who passes the
    role gate, on a snapshot with pairwise different keys: every entity
    that [list_entities] selects, under any filter, is stored under some id
    for which [get_entity] returns that entity's body; and every entity
    whose body [get_entity] returns is selected by the unfiltered
    [list_entities] and by the one filtered on its own category. *)
Theorem listed_entities_are_fetchable ctx w token p w1 cache :
  (extract_bearer_token ctx w).1 = Return token →
  get_entitlements rt token w = (Return p, w1) →
  UserEntitlements.global_roles p ∩ list_to_set ["reader"; "admin"] ≠ ∅ →
  current w = Some cache →
  unique_keys (CachedData.entities cache) →
  (∀ category e,
     e ∈ visible_entities cache p category →
     ∃ entity_id,
       dict_get (CachedData.entities cache) entity_id = Some e
       ∧ get_entity rt entity_id (Some ctx) w
         = (Return (entity_body rt e), w1))
  ∧ (∀ entity_id e,
       dict_get (CachedData.entities cache) entity_id = Some e →
       EntityData.category e ∈ UserEntitlements.permitted_categories p →
       get_entity rt entity_id (Some ctx) w = (Return (entity_body rt e), w1)
       ∧ e ∈ visible_entities cache p None
       ∧ e ∈ visible_entities cache p (Some (EntityData.category e))).
Proof.
  intros Htok Hent Hroles Hcur Hkeys.
  assert (Hbody : ∀ entity_id e,
            dict_get (CachedData.entities cache) entity_id = Some e →
            EntityData.category e ∈ UserEntitlements.permitted_categories p →
            get_entity rt entity_id (Some ctx) w
            = (Return (entity_body rt e), w1)).
  { intros entity_id e He Hperm.
    rewrite (get_entity_resolved _ _ _ _ _ _ _ Htok Hent Hroles Hcur), He.
    by destruct (decide _). }
  split.
  - intros category e [[Hperm _] Hin]%list_elem_of_filter.
    destruct (dict_values_get _ _ Hkeys Hin) as [entity_id He].
    exists entity_id. split; [done|]. by apply Hbody.
  - intros entity_id e He Hperm. split; [by apply Hbody|].
    pose proof (dict_get_values _ _ _ He) as Hin.
    split; apply list_elem_of_filter; (split; [|done]); split; auto.
Qed.

(** X5. [list_entities] filtered on a category gives the same answer, that
    nothing was found, when the category is not permitted to the caller as
    when the snapshot has no entity of that category: unlike [get_entity],
    it does not tell the two apart. *)
Theorem filter_on_hidden_category ctx w token p w1 cache c :
  (extract_bearer_token ctx w).1 = Return token →
  get_entitlements rt token w = (Return p, w1) →
  UserEntitlements.global_roles p ∩ list_to_set ["reader"; "admin"] ≠ ∅ →
  current w = Some cache →
  c ∉ UserEntitlements.permitted_categories p
  ∨ (∀ e, e ∈ dict_values (CachedData.entities cache) →
          EntityData.category e ≠ c) →
  list_entities rt (Some c) (Some ctx) w
  = (Return "No entities found matching your entitlements and filter.", w1).
Proof.
  intros Htok Hent Hroles Hcur Hc.
  rewrite (list_entities_resolved _ _ _ _ _ _ _ Htok Hent Hroles Hcur).
  assert (visible_entities cache p (Some c) = []) as ->; [|done].
  apply elem_of_nil_inv. intros e [[Hperm Hcat] Hin]%list_elem_of_filter.
  destruct Hcat as [?|[= Hcat]]; [done|]. subst c.
  destruct Hc as [Hc|Hc]; [done | by apply (Hc e Hin)].
Qed.

(** X6. Default deny.  A credential the identity provider accepts with a
    role that passes the gate but without a ["categories"] entitlement
    resolves to no permitted category: [list_entities] finds nothing under
    every filter, and [get_entity] denies every entity of the snapshot. *)
Theorem missing_categories_deny_all ctx w token user_info cache :
  (extract_bearer_token ctx w).1 = Return token →
  _entitlement_cache w !! sha256_hexdigest rt token = None →
  outcome (verifier_reply rt w token) = inr user_info →
  UserInfo.entitlements user_info !! "categories" = None →
  list_to_set (UserInfo.roles user_info)
    ∩ list_to_set ["reader"; "admin"] ≠ (∅ : gset string) →
  current w = Some cache →
  let w1 := (get_entitlements rt token w).2 in
  (∀ category,
     list_entities rt category (Some ctx) w
     = (Return "No entities found matching your entitlements and filter.", w1))
  ∧ (∀ entity_id e,
       dict_get (CachedData.entities cache) entity_id = Some e →
       get_entity rt entity_id (Some ctx) w = (Return (access_denied e), w1)).
Proof.
  intros Htok Hmiss Hreply Hnone Hroles Hcur w1.
  assert (Hent : get_entitlements rt token w = (Return (profile_of user_info), w1)).
  { subst w1. rewrite (get_entitlements_miss rt _ _ Hmiss). cbn zeta.
    by rewrite Hreply. }
  assert (Hperm : UserEntitlements.permitted_categories (profile_of user_info)
                  = ∅).
  { unfold profile_of. simpl. by rewrite Hnone. }
  split.
  - intros category.
    rewrite (list_entities_resolved _ _ _ _ _ _ _ Htok Hent Hroles Hcur).
    assert (visible_entities cache (profile_of user_info) category = [])
      as ->; [|done].
    apply elem_of_nil_inv.
    intros e [[Hin _] _]%list_elem_of_filter.
    rewrite Hperm in Hin. by apply not_elem_of_empty in Hin.
  - intros entity_id e He.
    rewrite (get_entity_resolved _ _ _ _ _ _ _ Htok Hent Hroles Hcur), He.
    destruct (decide _) as [|Hin]; [done|]. destruct Hin.
    rewrite Hperm. apply not_elem_of_empty.
Qed.
End ReadTools.

(** ** [auth.py]: the entitlement cache only grows *)

#[global] Instance entitlements_kept_refl : Reflexive entitlements_kept.
Proof. intros w. unfold entitlements_kept. done. Qed.
#[global] Instance entitlements_kept_trans : Transitive entitlements_kept.
Proof. intros w1 w2 w3. unfold entitlements_kept. apply transitivity. Qed.

Section EntitlementCache.
Variable rt : Externals.

Lemma get_entitlements_kept token :
  preserves entitlements_kept (get_entitlements rt token).
Proof.
  intros w. unfold entitlements_kept.
  destruct (_entitlement_cache w !! sha256_hexdigest rt token) as [q|] eqn:E.
  - by rewrite (get_entitlements_hit rt _ _ _ E).
  - rewrite (get_entitlements_miss rt _ _ E). cbn zeta.
    destruct (outcome _); simpl; [reflexivity|]. by apply insert_subseteq.
Qed.

Lemma extract_bearer_token_kept ctx :
  preserves entitlements_kept (extract_bearer_token ctx).
Proof. intros w. by rewrite (extract_bearer_token_pure ctx w w). Qed.

Lemma cache_holder_getitem0_kept :
  preserves entitlements_kept cache_holder_getitem0.
Proof.
  intros w. unfold cache_holder_getitem0. by destruct (cache_holder w).
Qed.

Lemma cache_holder_setitem0_kept r :
  preserves entitlements_kept (cache_holder_setitem0 r).
Proof.
  intros w. unfold cache_holder_setitem0, entitlements_kept.
  destruct (cache_holder w); simpl; reflexivity.
Qed.

Lemma deref_kept r : preserves entitlements_kept (deref r).
Proof. intros w. unfold deref. by destruct (heap w !! r). Qed.

Lemma http_get_kept {A} call (service : list NetCall -> Reply A) :
  preserves entitlements_kept (http_get call service).
Proof.
  intros w. unfold http_get, entitlements_kept.
  destruct (outcome _); simpl; reflexivity.
Qed.

Lemma new_CachedData_kept c : preserves entitlements_kept (new_CachedData c).
Proof. intros w. unfold entitlements_kept. simpl. reflexivity. Qed.

Lemma modify_kept (f : World -> World) :
  (∀ w, _entitlement_cache (f w) = _entitlement_cache w) →
  preserves entitlements_kept (modify f).
Proof. intros Hf w. unfold entitlements_kept. simpl. by rewrite Hf. Qed.

Ltac kept :=
  repeat first
    [ apply (preserves_ret entitlements_kept)
    | apply (preserves_raise entitlements_kept)
    | apply (preserves_get entitlements_kept)
    | apply cache_holder_getitem0_kept
    | apply cache_holder_setitem0_kept
    | apply deref_kept
    | apply http_get_kept
    | apply new_CachedData_kept
    | apply extract_bearer_token_kept
    | apply get_entitlements_kept
    | apply modify_kept; [by intros ?]
    | apply (preserves_bind entitlements_kept); [|intros]
    | apply (preserves_try_except entitlements_kept); [|intros]
    | apply preserves_match_option; [intros|]
    | apply preserves_if_decide
    | apply preserves_if ].

Lemma requires_role_kept {A T} roles (func : A -> Context -> M T) a ctx :
  (∀ c, preserves entitlements_kept (func a c)) →
  preserves entitlements_kept (requires_role rt roles func a ctx).
Proof. intros Hf. unfold requires_role. kept. apply Hf. Qed.

Lemma is_stale_kept r : preserves entitlements_kept (is_stale r).
Proof. unfold is_stale, datetime_now. kept. Qed.

Lemma build_cache_kept client base_url ttl :
  preserves entitlements_kept (build_cache rt client base_url ttl).
Proof. unfold build_cache, fetch_all_entities, datetime_now. kept. Qed.

Lemma after_kept op w : entitlements_kept w (after rt op w).
Proof.
  destruct op; simpl.
  - apply requires_role_kept. intros c. unfold list_entities_func. kept.
    destruct (visible_entities _ _ _); kept.
  - apply requires_role_kept. intros c. unfold get_entity_func. kept.
  - apply requires_role_kept. intros c.
    unfold refresh_cache_func, environ_get, environ_ttl, environ_get. kept.
  - revert w. change (preserves entitlements_kept (cache_summary rt ctx)).
    unfold cache_summary. kept.
  - revert w. change (preserves entitlements_kept (cache_health rt ctx)).
    unfold cache_health. kept.
  - revert w.
    change (preserves entitlements_kept
              (refresh_loop_iteration rt client base_url ttl)).
    unfold refresh_loop_iteration, asyncio_sleep, logger_info,
      logger_exception. kept.
Qed.

Lemma after_all_entitlements_kept ops w :
  entitlements_kept w (after_all rt ops w).
Proof.
  revert w. induction ops as [|op ops IH]; intros w; simpl.
  - reflexivity.
  - etrans; [apply (after_kept op w) | apply IH].
Qed.

(** X7. Entitlements are frozen at first contact.  Once a token has
    resolved to a profile, no sequence of tool calls, resource reads and
    refresh cycles changes or removes that cache entry: afterwards
    [get_entitlements] still returns the same profile for the token,
    without asking the identity provider and without changing the world,
    whatever the provider would answer by then. *)
Theorem entitlements_never_refreshed token w p w1 ops :
  get_entitlements rt token w = (Return p, w1) →
  let w2 := after_all rt ops w1 in
  _entitlement_cache w1 ⊆ _entitlement_cache w2
  ∧ get_entitlements rt token w2 = (Return p, w2).
Proof.
  intros Hent w2.
  pose proof (after_all_entitlements_kept ops w1) as Hkept.
  split; [exact Hkept|].
  apply get_entitlements_hit.
  eapply lookup_weaken; [|exact Hkept].
  by eapply get_entitlements_cached.
Qed.
End EntitlementCache.

(** ** Which requests an operation sends *)

Section Requests.
Variable rt : Externals.

Lemma get_entitlements_network token w :
  network (get_entitlements rt token w).2 = network w
  ∨ network (get_entitlements rt token w).2
    = (network w ++ [GetUserinfo (userinfo_url w) token])%list.
Proof.
  destruct (_entitlement_cache w !! sha256_hexdigest rt token) as [q|] eqn:E.
  - left. by rewrite (get_entitlements_hit rt _ _ _ E).
  - right. rewrite (get_entitlements_miss rt _ _ E). cbn zeta.
    by destruct (outcome _).
Qed.

Lemma list_entities_func_world category c w token p :
  (extract_bearer_token c w).1 = Return token →
  get_entitlements rt token w = (Return p, w) →
  (list_entities_func rt category c w).2 = w.
Proof.
  intros Htok Hent.
  unfold list_entities_func, bind, cache_holder_getitem0, deref.
  destruct (cache_holder w) as [|r rest]; [done|].
  destruct (heap w !! r) as [cache|] eqn:Hr; [|done].
  rewrite (extract_bearer_token_Return _ _ _ Htok w), Hent.
  destruct (visible_entities cache p category); [done|].
  unfold is_stale, bind, deref, datetime_now, get. rewrite Hr.
  by destruct (CachedData.is_stale_at _ _).
Qed.

Lemma get_entity_func_world entity_id c w token p :
  (extract_bearer_token c w).1 = Return token →
  get_entitlements rt token w = (Return p, w) →
  (get_entity_func rt entity_id c w).2 = w.
Proof.
  intros Htok Hent.
  unfold get_entity_func, bind, cache_holder_getitem0, deref.
  destruct (cache_holder w) as [|r rest]; [done|].
  destruct (heap w !! r) as [cache|] eqn:Hr; [|done].
  destruct (dict_get _ _); [|done].
  rewrite (extract_bearer_token_Return _ _ _ Htok w), Hent.
  by destruct (decide _).
Qed.

Lemma cache_summary_world ctx w : (cache_summary rt ctx w).2 = w.
Proof.
  unfold cache_summary, bind, cache_holder_getitem0, deref, is_stale, bind,
    deref, datetime_now, get.
  destruct (cache_holder w) as [|r rest]; [done|].
  destruct (heap w !! r) as [cache|] eqn:Hr; [|done]. by rewrite Hr.
Qed.

Lemma cache_health_world ctx w : (cache_health rt ctx w).2 = w.
Proof.
  unfold cache_health, bind, cache_holder_getitem0, deref, is_stale, bind,
    deref, datetime_now, get.
  destruct (cache_holder w) as [|r rest]; [done|].
  destruct (heap w !! r) as [cache|] eqn:Hr; [|done]. by rewrite Hr.
Qed.

(** Where a call through the decorator leaves the world: untouched, in the
    world after resolving the credential, or where the handler, started in
    that world by a caller who passed the gate, leaves it. *)
Lemma requires_role_split {A T} roles (func : A -> Context -> M T) a ctx w :
  (requires_role rt roles func a ctx w).2 = w
  ∨ ∃ c token,
      ctx = Some c
      ∧ (extract_bearer_token c w).1 = Return token
      ∧ ((requires_role rt roles func a ctx w).2
           = (get_entitlements rt token w).2
         ∨ ∃ p w1,
             get_entitlements rt token w = (Return p, w1)
             ∧ UserEntitlements.global_roles p ∩ list_to_set roles ≠ ∅
             ∧ requires_role rt roles func a ctx w = func a c w1).
Proof.
  destruct ctx as [c|]; [|by left].
  unfold requires_role, bind.
  rewrite (extract_bearer_token_pure c w w).
  destruct (extract_bearer_token c w).1 as [token|e] eqn:Htok; [|by left].
  right. exists c, token. split; [done|]. split; [done|].
  destruct (get_entitlements rt token w) as [[p|e] w1] eqn:Hent;
    [|by left].
  destruct (decide _) as [|Hroles]; [by left|].
  right. by exists p, w1.
Qed.

Lemma reader_tool_network {A} roles (func : A -> Context -> M string)
    a ctx w :
  (∀ c w1 token p,
     (extract_bearer_token c w1).1 = Return token →
     get_entitlements rt token w1 = (Return p, w1) →
     (func a c w1).2 = w1) →
  network (requires_role rt roles func a ctx w).2 = network w
  ∨ ∃ url token,
      network (requires_role rt roles func a ctx w).2
      = (network w ++ [GetUserinfo url token])%list.
Proof.
  intros Hfunc.
  destruct (requires_role_split roles func a ctx w)
    as [-> | (c & token & -> & Htok & [-> | (p & w1 & Hent & _ & ->)])];
    [by left| |].
  - destruct (get_entitlements_network token w) as [->| ->];
      [by left | right; by eexists _, _].
  - rewrite (Hfunc c w1 token p).
    + pose proof (get_entitlements_network token w) as Hn.
      rewrite Hent in Hn. cbn [snd] in Hn. destruct Hn as [->| ->];
        [by left | right; by eexists _, _].
    + by rewrite (extract_bearer_token_Return _ _ _ Htok w1).
    + by eapply get_entitlements_again.
Qed.

Lemma refresh_cache_func_network ctx w :
  network (refresh_cache_func rt tt ctx w).2 = network w
  ∨ (∃ client url,
       http_client (lifespan_context ctx) = Some client
       ∧ network (refresh_cache_func rt tt ctx w).2
         = (network w ++ [GetEntities url])%list).
Proof.
  destruct (http_client (lifespan_context ctx)) as [client|] eqn:Hclient.
  - rewrite (refresh_cache_func_spec rt _ _ _ Hclient). cbv zeta.
    destruct (int_of_str rt _) as [ttl|]; [|by left].
    right. exists client. eexists. split; [done|].
    destruct (outcome _) as [e|raw]; [reflexivity|].
    destruct (cache_holder w); reflexivity.
  - left. unfold refresh_cache_func. by rewrite Hclient.
Qed.

(** X8. The requests one operation sends.  A call of [list_entities] or
    [get_entity] sends nothing or one request to the identity provider
    (the handler's second resolution of the credential is always served
    from the cache) and never asks the downstream; a resource read sends
    nothing; a scheduled cycle sends exactly one request, to the entities
    URL; [refresh_cache] sends at most one request to the identity provider
    followed by at most one to the downstream. *)
Theorem requests_per_operation op w :
  ∃ calls,
    network (after rt op w) = (network w ++ calls)%list
    ∧ match op with
      | CallListEntities _ _ | CallGetEntity _ _ =>
          calls = [] ∨ ∃ url token, calls = [GetUserinfo url token]
      | ReadCacheSummary _ | ReadCacheHealth _ => calls = []
      | ScheduledCycle _ base_url _ =>
          calls = [GetEntities (base_url ++ "/entities")]
      | CallRefreshCache _ =>
          ∃ asked fetched,
            calls = (asked ++ fetched)%list
            ∧ (asked = [] ∨ ∃ url token, asked = [GetUserinfo url token])
            ∧ (fetched = [] ∨ ∃ url, fetched = [GetEntities url])
      end.
Proof.
  destruct op; simpl.
  - destruct (reader_tool_network ["reader"; "admin"] (list_entities_func rt)
                category ctx w (list_entities_func_world category))
      as [Hn | (url & token & Hn)]; unfold list_entities; rewrite Hn.
    + exists []. split; [by rewrite app_nil_r | by left].
    + eexists. split; [done|]. right. by eexists _, _.
  - destruct (reader_tool_network ["reader"; "admin"] (get_entity_func rt)
                entity_id ctx w (get_entity_func_world entity_id))
      as [Hn | (url & token & Hn)]; unfold get_entity; rewrite Hn.
    + exists []. split; [by rewrite app_nil_r | by left].
    + eexists. split; [done|]. right. by eexists _, _.
  - unfold refresh_cache.
    destruct (requires_role_split ["admin"] (refresh_cache_func rt) tt ctx w)
      as [-> | (c & token & -> & Htok & [-> | (p & w1 & Hent & _ & ->)])].
    + exists []. split; [by rewrite app_nil_r|].
      exists [], []. split; [done|]. split; by left.
    + destruct (get_entitlements_network token w) as [->| ->].
      * exists []. split; [by rewrite app_nil_r|].
        exists [], []. split; [done|]. split; by left.
      * eexists. split; [done|]. eexists _, [].
        split; [by rewrite app_nil_r|].
        split; [right; by eexists _, _ | by left].
    + pose proof (get_entitlements_network token w) as Hn.
      rewrite Hent in Hn. cbn [snd] in Hn.
      destruct (refresh_cache_func_network c w1)
        as [-> | (client & url & _ & ->)]; destruct Hn as [->| ->].
      * exists []. split; [by rewrite app_nil_r|].
        exists [], []. split; [done|]. split; by left.
      * eexists. split; [done|]. eexists _, [].
        split; [by rewrite app_nil_r|].
        split; [right; by eexists _, _ | by left].
      * eexists. split; [done|]. eexists [], _. split; [done|].
        split; [by left | right; by eexists].
      * eexists. split; [by rewrite <- app_assoc|]. eexists _, _.
        split; [done|]. split; [right; by eexists _, _ | right; by eexists].
  - exists []. by rewrite cache_summary_world, app_nil_r.
  - exists []. by rewrite cache_health_world, app_nil_r.
  - eexists. split; [|done].
    rewrite (refresh_loop_iteration_spec rt). cbv zeta.
    destruct (outcome _) as [e|raw].
    + by destruct (is_Exception e).
    + by destruct (cache_holder w).
Qed.

(** X9. Only an administrator refreshes.  If a call of [refresh_cache]
    asks the downstream, creates a snapshot object or changes the holder,
    then the request carried a credential that resolved to a profile with
    the role [admin], and a downstream client was configured. *)
Theorem refresh_needs_admin ctx w :
  let w' := (refresh_cache rt tt ctx w).2 in
  downstream_fetches w' ≠ downstream_fetches w
  ∨ heap w' ≠ heap w ∨ cache_holder w' ≠ cache_holder w →
  ∃ c token p w1 client,
    ctx = Some c
    ∧ (extract_bearer_token c w).1 = Return token
    ∧ get_entitlements rt token w = (Return p, w1)
    ∧ "admin" ∈ UserEntitlements.global_roles p
    ∧ http_client (lifespan_context c) = Some client.
Proof.
  intros w' Hchanged. subst w'. unfold refresh_cache in Hchanged.
  assert (Hsame : ∀ token,
            downstream_fetches (get_entitlements rt token w).2
              = downstream_fetches w
            ∧ heap (get_entitlements rt token w).2 = heap w
            ∧ cache_holder (get_entitlements rt token w).2 = cache_holder w).
  { intros token. split.
    - unfold downstream_fetches.
      destruct (get_entitlements_network token w) as [->| ->]; [done|].
      rewrite List.filter_app. simpl. by rewrite app_nil_r.
    - apply (get_entitlements_untouched rt token w). }
  destruct (requires_role_split ["admin"] (refresh_cache_func rt) tt ctx w)
    as [Hw | (c & token & -> & Htok & [Hw | (p & w1 & Hent & Hroles & Hw)])].
  - rewrite Hw in Hchanged. by destruct Hchanged as [?|[?|?]].
  - rewrite Hw in Hchanged. destruct (Hsame token) as (? & ? & ?).
    by destruct Hchanged as [?|[?|?]].
  - rewrite Hw in Hchanged.
    destruct (http_client (lifespan_context c)) as [client|] eqn:Hclient.
    + exists c, token, p, w1, client. repeat split; try done.
      apply dec_stable. intros Hnot. apply Hroles.
      apply elem_of_equiv_empty_L.
      intros x [Hx Hadmin]%elem_of_intersection.
      apply elem_of_list_to_set, list_elem_of_singleton in Hadmin.
      by subst x.
    + exfalso. unfold refresh_cache_func in Hchanged.
      rewrite Hclient in Hchanged. cbn [snd ret] in Hchanged.
      destruct (Hsame token) as (Hf & Hh & Hc).
      rewrite Hent in Hf, Hh, Hc. cbn [snd] in Hf, Hh, Hc.
      by destruct Hchanged as [?|[?|?]].
Qed.
End Requests.

(** ** [cache.py]: the refresh loop over many turns *)

Section RefreshLoop.
Variable rt : Externals.

Lemma downstream_fetches_asked w base_url :
  downstream_fetches (asked_downstream rt w base_url)
  = S (downstream_fetches w).
Proof.
  unfold downstream_fetches, asked_downstream. simpl.
  rewrite List.filter_app, length_app. simpl. lia.
Qed.

Lemma refresh_loop_S ticks client base_url ttl w :
  refresh_loop rt (S ticks) client base_url ttl w
  = match refresh_loop_iteration rt client base_url ttl w with
    | (Return _, w1) => refresh_loop rt ticks client base_url ttl w1
    | (Raise e, w1) => (Raise e, w1)
    end.
Proof. reflexivity. Qed.

(** X10. The background task survives every failure that is an
    [Exception].  If the downstream never fails with anything else, then
    any number of turns of [refresh_loop] completes without raising, also
    when the holder is empty; every snapshot object that existed is kept,
    and the downstream was asked exactly once per turn. *)
Theorem refresh_loop_survives client base_url ttl :
  (∀ history url e,
     outcome (entities_endpoint rt history url) = inl e →
     is_Exception e = true) →
  ∀ ticks w,
    let w' := (refresh_loop rt ticks client base_url ttl w).2 in
    (refresh_loop rt ticks client base_url ttl w).1 = Return tt
    ∧ objects_kept w w'
    ∧ downstream_fetches w' = (downstream_fetches w + ticks)%nat.
Proof.
  intros Hexc ticks. induction ticks as [|ticks IH]; intros w; cbn zeta.
  { simpl. split; [done|]. split; [reflexivity | lia]. }
  rewrite !refresh_loop_S.
  pose proof (refresh_loop_iteration_step rt client base_url ttl w) as [Hk _].
  assert (Hturn : ∃ w1,
            refresh_loop_iteration rt client base_url ttl w = (Return tt, w1)
            ∧ downstream_fetches w1 = S (downstream_fetches w)).
  { rewrite (refresh_loop_iteration_spec rt). cbv zeta.
    destruct (outcome (downstream_reply rt (slept ttl w) base_url))
      as [e|raw] eqn:Hreply.
    - rewrite (Hexc _ _ _ Hreply). eexists. split; [done|].
      apply (downstream_fetches_asked (slept ttl w)).
    - destruct (cache_holder w); (eexists; split; [done|]);
        apply (downstream_fetches_asked (slept ttl w)). }
  destruct Hturn as (w1 & Hturn & Hfetch). rewrite Hturn in *.
  cbn [snd] in Hk. destruct (IH w1) as (Hret & Hkept & Hcount).
  split; [exact Hret|]. split; [by etrans|].
  rewrite Hcount, Hfetch. lia.
Qed.

(** X11. Cancellation is not swallowed.  When the fetch of a turn fails
    with an exception that is no [Exception], the turn raises it, nothing
    is logged, holder and snapshots are as before, and the loop ends
    there, however many turns were still to come. *)
Theorem refresh_loop_cancelled client base_url ttl w e ticks :
  outcome (downstream_reply rt (slept ttl w) base_url) = inl e →
  is_Exception e = false →
  refresh_loop rt (S ticks) client base_url ttl w
  = (Raise e, asked_downstream rt (slept ttl w) base_url)
  ∧ log (asked_downstream rt (slept ttl w) base_url) = log w
  ∧ snapshot_untouched w (asked_downstream rt (slept ttl w) base_url).
Proof.
  intros Hreply Hexc. rewrite refresh_loop_S.
  rewrite (refresh_loop_iteration_spec rt). cbv zeta.
  by rewrite Hreply, Hexc.
Qed.

(** X12. An outage of any length.  While every fetch fails with an
    [Exception], any number of turns leaves holder and snapshot objects
    exactly as they were and returns normally, with one log record per
    turn. *)
Theorem refresh_loop_during_outage client base_url ttl :
  (∀ history,
     ∃ e, outcome (entities_endpoint rt history (base_url ++ "/entities"))
          = inl e ∧ is_Exception e = true) →
  ∀ ticks w,
    let w' := (refresh_loop rt ticks client base_url ttl w).2 in
    (refresh_loop rt ticks client base_url ttl w).1 = Return tt
    ∧ snapshot_untouched w w'
    ∧ current w' = current w
    ∧ List.length (log w') = (List.length (log w) + ticks)%nat.
Proof.
  intros Hdown ticks. induction ticks as [|ticks IH]; intros w; cbn zeta.
  { simpl. repeat split. lia. }
  rewrite !refresh_loop_S.
  destruct (Hdown (network (slept ttl w))) as (e & Hreply & Hexc).
  rewrite (refresh_loop_iteration_failure rt client base_url ttl w e Hreply Hexc).
  set (w1 := set_log _ _).
  destruct (IH w1) as (Hret & [Hh Hc] & Hcur & Hlog).
  split; [exact Hret|]. split; [by split|]. split.
  - rewrite Hcur. apply current_untouched. by split.
  - rewrite Hlog. subst w1. simpl. rewrite length_app. simpl. lia.
Qed.
End RefreshLoop.

(** ** [models.py]: staleness over time *)


(** ** [tools.py]: [refresh_cache] without a usable configuration *)

Section RefreshEdges.
Variable rt : Externals.

Lemma refresh_cache_admin ctx w token p w1 :
  (extract_bearer_token ctx w).1 = Return token →
  get_entitlements rt token w = (Return p, w1) →
  "admin" ∈ UserEntitlements.global_roles p →
  refresh_cache rt tt (Some ctx) w = refresh_cache_func rt tt ctx w1.
Proof.
  intros Htok Hent Hadmin. unfold refresh_cache.
  rewrite (requires_role_resolved rt _ _ _ _ _ _ _ _ Htok Hent).
  destruct (decide _) as [Hempty|]; [|done].
  exfalso. apply (not_elem_of_empty (C := gset string) "admin").
  rewrite <- Hempty. apply elem_of_intersection. split; [done|].
  apply elem_of_list_to_set, list_elem_of_here.
Qed.

(** X14. For a caller with the role [admin]: when the server runs without
    a downstream client, [refresh_cache] answers that the refresh is
    unavailable; when the client is there but [CACHE_TTL_SECONDS] is not an
    integer, it raises [ValueError].  In both cases the world is the one
    left by resolving the credential: nothing was fetched, built or
    swapped. *)
Theorem refresh_cache_unconfigured ctx w token p w1 :
  (extract_bearer_token ctx w).1 = Return token →
  get_entitlements rt token w = (Return p, w1) →
  "admin" ∈ UserEntitlements.global_roles p →
  (http_client (lifespan_context ctx) = None →
   refresh_cache rt tt (Some ctx) w
   = (Return "No downstream API configured â€” cache refresh unavailable.",
      w1))
  ∧ (is_Some (http_client (lifespan_context ctx)) →
     int_of_str rt (default "300" (environ w !! "CACHE_TTL_SECONDS")) = None →
     refresh_cache rt tt (Some ctx) w = (Raise ValueError, w1))
  ∧ downstream_fetches w1 = downstream_fetches w
  ∧ snapshot_untouched w w1.
Proof.
  intros Htok Hent Hadmin.
  pose proof (refresh_cache_admin _ _ _ _ _ Htok Hent Hadmin) as Hrun.
  pose proof (get_entitlements_untouched rt token w) as Hu.
  pose proof (get_entitlements_environ rt token w) as Henv.
  pose proof (get_entitlements_network rt token w) as Hnet.
  rewrite Hent in Hu, Henv, Hnet. cbn [snd] in Hu, Henv, Hnet.
  split; [|split; [|split]].
  - intros Hnone. rewrite Hrun. unfold refresh_cache_func. by rewrite Hnone.
  - intros [client Hclient] Hint. rewrite Hrun.
    rewrite (refresh_cache_func_spec rt _ _ _ Hclient). cbv zeta.
    by rewrite Henv, Hint.
  - unfold downstream_fetches. destruct Hnet as [->| ->]; [done|].
    rewrite List.filter_app. simpl. by rewrite app_nil_r.
  - exact Hu.
Qed.
End RefreshEdges.

(** ** [lifespan.py]: starting up *)

Section Lifespan.
Variable rt : Externals.

Lemma app_lifespan_spec client w :
  app_lifespan rt client w =
    match int_of_str rt (default "300" (environ w !! "CACHE_TTL_SECONDS")) with
    | None => (Raise ValueError, w)
    | Some ttl =>
        let base_url :=
          default EmptyString (environ w !! "DOWNSTREAM_API_URL") in
        if decide (base_url = EmptyString)
        then
          (Return {| http_client := None |},
           set_cache_holder [List.length (heap w)]
             (set_heap (heap w ++ [CachedData.mk [] (clock w) ttl]) w))
        else
          let w1 := asked_downstream rt w base_url in
          match outcome (downstream_reply rt w base_url) with
          | inl e => (Raise e, w1)
          | inr raw =>
              (Return {| http_client := Some client |},
               set_cache_holder [List.length (heap w)]
                 (set_heap
                    (heap w ++ [CachedData.mk (dict_comprehension raw)
                                  (clock w1) ttl]) w1))
          end
    end.
Proof.
  unfold app_lifespan.
  unfold bind at 1. unfold environ_get at 1, get at 1.
  unfold bind at 1, environ_ttl, bind at 1, environ_get at 1, get at 1.
  destruct (int_of_str rt _) as [ttl|]; [|reflexivity].
  cbn [ret]. cbv zeta.
  destruct (decide _) as [Hbase|Hbase]; [reflexivity|].
  unfold bind at 1. rewrite (build_cache_spec rt). cbv zeta.
  destruct (outcome _); reflexivity.
Qed.

(** X15. Start-up is fail-fast.  With a downstream configured, a failing
    initial fetch makes [app_lifespan] raise the fetch error itself,
    whatever kind it is, and no holder is set up; a malformed
    [CACHE_TTL_SECONDS] makes it raise [ValueError] before anything else,
    also in the mode without downstream; and a successful initial fetch
    hands out the client and a holder whose snapshot is built from the
    response and stamped with the time the response arrived.  For a ttl
    from 0 up to 2^34 seconds, that snapshot read any time [dt] after the
    stamp is stale exactly when [dt] is more than the ttl. *)
Theorem startup_fail_fast client w :
  let base_url := default EmptyString (environ w !! "DOWNSTREAM_API_URL") in
  let ttl_text := default "300" (environ w !! "CACHE_TTL_SECONDS") in
  (int_of_str rt ttl_text = None → app_lifespan rt client w = (Raise ValueError, w))
  ∧ (∀ ttl e,
       int_of_str rt ttl_text = Some ttl →
       base_url ≠ EmptyString →
       outcome (downstream_reply rt w base_url) = inl e →
       (app_lifespan rt client w).1 = Raise e
       ∧ snapshot_untouched w (app_lifespan rt client w).2)
  ∧ (∀ ttl raw,
       int_of_str rt ttl_text = Some ttl →
       base_url ≠ EmptyString →
       outcome (downstream_reply rt w base_url) = inr raw →
       let w' := (app_lifespan rt client w).2 in
       (app_lifespan rt client w).1 = Return {| http_client := Some client |}
       ∧ objects_kept w w'
       ∧ current w'
         = Some (CachedData.mk (dict_comprehension raw)
                   (clock (asked_downstream rt w base_url)) ttl)
       ∧ ∃ r, cache_holder w' = [r]
              ∧ ((0 ≤ ttl < 2 ^ 34)%Z →
                 ∀ dt, (0 ≤ dt)%Z →
                   is_stale r (time_passes dt w')
                   = (Return (bool_decide (ttl * 1000000 < dt)%Z),
                      time_passes dt w'))).
Proof.
  intros base_url ttl_text. rewrite app_lifespan_spec.
  fold ttl_text base_url. split; [|split].
  - by intros ->.
  - intros ttl e -> Hbase Hreply. cbv zeta.
    destruct (decide _); [done|]. by rewrite Hreply.
  - intros ttl raw -> Hbase Hreply. cbv zeta.
    destruct (decide _); [done|]. rewrite Hreply. cbn [fst snd].
    split; [done|]. split; [by eexists|]. split.
    + unfold current. simpl. by rewrite lookup_app_r, Nat.sub_diag.
    + eexists. split; [reflexivity|]. intros Httl dt Hdt.
      erewrite is_stale_later;
        [|simpl; by rewrite lookup_app_r, Nat.sub_diag].
      simpl. do 2 f_equal. apply bool_decide_ext. lia.
Qed.

(** X16. The mode without downstream.  When [DOWNSTREAM_API_URL] is unset
    or empty, [app_lifespan] sends no request and hands out no client and
    a holder with an empty snapshot stamped with the current time.  On the
    server so started, for a caller resolved from any request with that
    lifespan context: [list_entities] finds nothing under every filter,
    and [refresh_cache], for an administrator, answers that the refresh is
    unavailable. *)
Theorem startup_without_downstream client w ttl :
  default EmptyString (environ w !! "DOWNSTREAM_API_URL") = EmptyString →
  int_of_str rt (default "300" (environ w !! "CACHE_TTL_SECONDS")) = Some ttl →
  let w0 := (app_lifespan rt client w).2 in
  (app_lifespan rt client w).1 = Return {| http_client := None |}
  ∧ network w0 = network w
  ∧ current w0 = Some (CachedData.mk [] (clock w) ttl)
  ∧ (∀ ctx token p w1,
       lifespan_context ctx = {| http_client := None |} →
       (extract_bearer_token ctx w0).1 = Return token →
       get_entitlements rt token w0 = (Return p, w1) →
       (UserEntitlements.global_roles p
          ∩ list_to_set ["reader"; "admin"] ≠ ∅ →
        ∀ category,
          list_entities rt category (Some ctx) w0
          = (Return "No entities found matching your entitlements and filter.",
             w1))
       ∧ ("admin" ∈ UserEntitlements.global_roles p →
          refresh_cache rt tt (Some ctx) w0
          = (Return
               "No downstream API configured â€” cache refresh unavailable.",
             w1))).
Proof.
  intros Hbase Httl w0. subst w0. rewrite app_lifespan_spec, Httl. cbv zeta.
  rewrite Hbase. destruct (decide _); [|done]. cbn [fst snd].
  set (w0 := set_cache_holder _ _).
  assert (Hcur : current w0 = Some (CachedData.mk [] (clock w) ttl)).
  { unfold current. simpl. by rewrite lookup_app_r, Nat.sub_diag. }
  split; [done|]. split; [done|]. split; [exact Hcur|].
  intros ctx token p w1 Hctx Htok Hent. split.
  - intros Hroles category.
    by rewrite (list_entities_resolved rt _ _ _ _ _ _ _ Htok Hent Hroles Hcur).
  - intros Hadmin.
    rewrite (refresh_cache_admin rt _ _ _ _ _ Htok Hent Hadmin).
    unfold refresh_cache_func. by rewrite Hctx.
Qed.
End Lifespan.

(** ** Serving stale data, end to end *)

Section ServeStale.
Variable rt : Externals.

End ServeStale.

(** ** [resources.py]: the summary *)

#[global] Instance str_le_total : Total str_le.
Proof. intros a b. apply String.leb_total. Qed.

Section Resources.
Variable rt : Externals.

Lemma sorted_set_spec l :
  NoDup (sorted_set l)
  ∧ Sorted str_le (sorted_set l)
  ∧ ∀ x, x ∈ sorted_set l ↔ x ∈ l.
Proof.
  unfold sorted_set.
  pose proof (merge_sort_Permutation str_le (remove_dups l)) as Hperm.
  split; [|split].
  - rewrite Hperm. apply NoDup_remove_dups.
  - apply (Sorted_merge_sort str_le).
  - intros x. by rewrite Hperm, elem_of_remove_dups.
Qed.

(** X18. [cache_summary] needs no credential: for every request context,
    also one without any token, it returns the number of entries of the
    current snapshot and the categories of all its entities, each category
    once, in ascending code-point order, whatever the caller would be
    entitled to. *)
Theorem cache_summary_lists_all_categories ctx w cache :
  current w = Some cache →
  ∃ categories,
    cache_summary rt ctx w
    = (Return ("Total entities: "
               ++ pretty (dict_len (CachedData.entities cache)) ++ nl
               ++ "Categories: "
               ++ match categories with
                  | [] => "(none)"
                  | _ => join ", " categories
                  end ++ nl
               ++ "Last refreshed: "
               ++ isoformat rt (CachedData.last_refreshed_at cache) ++ nl
               ++ "TTL: " ++ pretty (CachedData.ttl_seconds cache) ++ "s" ++ nl
               ++ "Stale: "
               ++ str_of_bool (CachedData.is_stale_at (clock w) cache)), w)
    ∧ NoDup categories
    ∧ Sorted str_le categories
    ∧ ∀ x, x ∈ categories
           ↔ ∃ e, e ∈ dict_values (CachedData.entities cache)
                  ∧ EntityData.category e = x.
Proof.
  intros (r & rest & Hholder & Hr)%current_Some.
  exists (sorted_set (EntityData.category
                        <$> dict_values (CachedData.entities cache))).
  destruct (sorted_set_spec
              (EntityData.category <$> dict_values (CachedData.entities cache)))
    as (Hnodup & Hsorted & Helem).
  split; [|split; [done|split; [done|]]].
  - unfold cache_summary, bind, cache_holder_getitem0, deref, is_stale, bind,
      deref, datetime_now, get.
    by rewrite Hholder, Hr, Hr.
  - intros x. rewrite Helem, list_elem_of_fmap. split.
    + intros (e & -> & He). by exists e.
    + intros (e & He & <-). by exists e.
Qed.
End Resources.

(** * Telemetry configuration *)

Lemma _env_bool_again env key dflt :
  _env_bool env key (_env_bool env key dflt) = _env_bool env key dflt.
Proof. unfold _env_bool. by destruct (getenv env key). Qed.

Lemma default_again {A} (x : A) (o : option A) :
  default (default x o) o = default x o.
Proof. by destruct o. Qed.

Lemma str_or_again x y : str_or (str_or x y) y = str_or x y.
Proof.
  unfold str_or. destruct x as [s|]; [destruct (decide (s = EmptyString))|];
    try done.
  - destruct y as [t|]; [|done]. by destruct (decide (t = EmptyString)).
  - by rewrite decide_False.
  - destruct y as [t|]; [|done]. by destruct (decide (t = EmptyString)).
Qed.

(** X19. [TelemetryConfig.resolve] is idempotent: under one environment,
    resolving an already resolved configuration changes nothing. *)
Theorem resolve_idempotent env config :
  TelemetryConfig.resolve env (TelemetryConfig.resolve env config)
  = TelemetryConfig.resolve env config.
Proof.
  unfold TelemetryConfig.resolve. cbn.
  by rewrite !default_again, !_env_bool_again, !str_or_again.
Qed.

(** X20. Who decides whether tool input and output are recorded.
    [_should_capture_io] with an explicit flag returns the flag, whatever
    the environment; without one it follows [MCP_OTEL_CAPTURE_IO] alone: it
    agrees with the resolved [capture_tool_io] of every configuration when
    the variable is set, and of every configuration that leaves the field
    at [False] when it is not; and when the variable is unset it is
    [False], also for a configuration that asked for capture. *)
Theorem capture_io_follows_environment env config :
  (∀ flag, _should_capture_io env (Some flag) = flag)
  ∧ (is_Some (getenv env "MCP_OTEL_CAPTURE_IO") →
     _should_capture_io env None
     = TelemetryConfig.capture_tool_io (TelemetryConfig.resolve env config))
  ∧ (TelemetryConfig.capture_tool_io config = false →
     _should_capture_io env None
     = TelemetryConfig.capture_tool_io (TelemetryConfig.resolve env config))
  ∧ (getenv env "MCP_OTEL_CAPTURE_IO" = None →
     _should_capture_io env None = false).
Proof.
  unfold _should_capture_io, TelemetryConfig.resolve, _env_bool. cbn.
  split; [done|]. split; [|split].
  - by intros [v ->].
  - intros ->. by destruct (getenv env "MCP_OTEL_CAPTURE_IO").
  - by intros ->.
Qed.

(** * The chat client *)

Section ClientProperties.
Variable ext : ClientExternals.

Lemma insert_at_end {A} (l : list A) (x y : A) :
  <[List.length l := y]> (l ++ [x])%list = (l ++ [y])%list.
Proof.
  rewrite insert_app_r_alt by done. by rewrite Nat.sub_diag.
Qed.

Lemma truthy_Some o : truthy o = true → ∃ s, o = Some s ∧ s ≠ EmptyString.
Proof.
  destruct o as [s|]; [|done]. simpl. intros H. exists s. split; [done|].
  intros ->. by rewrite bool_decide_true in H.
Qed.

Lemma truthy_true s : s ≠ EmptyString → truthy (Some s) = true.
Proof. intros Hs. simpl. by rewrite bool_decide_false. Qed.

Lemma bearer_header_round_trip token :
  startswith (lower ("Bearer " ++ token)) "bearer " = true
  ∧ slice_from 7 ("Bearer " ++ token) = token.
Proof.
  split.
  - apply startswith_lower_bearer.
    change 7%nat with (String.length "Bearer ").
    rewrite slice_to_app. by vm_compute.
  - change 7%nat with (String.length "Bearer "). apply slice_from_app.
Qed.

Lemma request_of_authorization transport url token :
  dict_get
    (headers (request_of
                {| transport := transport; url := url;
                   connection_headers :=
                     [("Authorization", "Bearer " ++ token)] |}))
    "authorization"
  = Some ("Bearer " ++ token).
Proof.
  unfold request_of. cbn [headers connection_headers fmap list_fmap fst snd].
  replace (lower "Authorization") with "authorization" by (by vm_compute).
  cbn [dict_get]. by rewrite decide_True.
Qed.

(** The token [on_chat_start] relays: the user's, or else the session's. *)
Lemma on_chat_start_connects w token :
  token ≠ EmptyString →
  (∃ user, session_user w = Some user
           ∧ metadata user !! "oauth_token" = Some token)
  ∨ ((∀ user, session_user w = Some user →
              truthy (metadata user !! "oauth_token") = false)
     ∧ session_oauth_token w = Some token) →
  connections (on_chat_start ext w).2
  = (connections w
     ++ [{| transport := "streamable_http";
            url := default "http://localhost:8001/mcp"
                           (client_environ w !! "MCP_SERVER_URL");
            connection_headers :=
              [("Authorization", ("Bearer " ++ token)%string)] |}])
    %list.
Proof.
  intros Htoken Hwhere. unfold on_chat_start.
  set (chosen := if truthy _ then _ else _).
  assert (chosen = Some token) as ->.
  { subst chosen. destruct Hwhere as [(user & -> & ->) | [Hnone Hsess]].
    - by rewrite truthy_true.
    - destruct (session_user w) as [user|].
      + by rewrite (Hnone user eq_refl).
      + done. }
  rewrite truthy_true by done. cbn [negb default].
  unfold cbind, ctry_except, create_mcp_agent.
  destruct (build_agent ext _ _) as [e|agent]; cbn.
  - by destruct (is_Exception e).
  - done.
Qed.

(** X21. The token travels unchanged from the OAuth callback to the
    server.  After [oauth_callback] has stored a non-empty token on the
    user of the session, [on_chat_start] attempts exactly one connection,
    to [MCP_SERVER_URL] or its default; and from a request carrying the
    headers of that connection the server's [extract_bearer_token] returns
    that very token. *)
Theorem oauth_token_reaches_server provider_id token raw_user_data
    default_user w lifespan server_world :
  token ≠ EmptyString →
  session_user w = oauth_callback provider_id token raw_user_data default_user →
  ∃ connection,
    connections (on_chat_start ext w).2 = (connections w ++ [connection])%list
    ∧ url connection
      = default "http://localhost:8001/mcp"
                (client_environ w !! "MCP_SERVER_URL")
    ∧ extract_bearer_token
        {| get_http_request := Return (Some (request_of connection));
           lifespan_context := lifespan |} server_world
      = (Return token, server_world).
Proof.
  intros Htoken Huser. eexists. split; [|split].
  - apply (on_chat_start_connects w token Htoken). left.
    eexists. split; [exact Huser|]. cbn. apply lookup_insert_eq.
  - reflexivity.
  - rewrite (extract_bearer_token_pure _ server_world server_world).
    rewrite extract_bearer_token_cases.
    cbn [get_http_request]. cbv zeta.
    rewrite request_of_authorization. cbn [default from_option id].
    destruct (bearer_header_round_trip token) as [-> ->]. reflexivity.
Qed.

(** X22. No token, no connection.  When neither the user of the session
    nor the session itself holds a non-empty token, [on_chat_start] shows
    the request to log in and nothing else: no connection is attempted and
    no agent is stored; and every later [on_message] answers that the
    session is not initialised, again without storing an agent. *)
Theorem chat_without_token w content :
  (∀ user, session_user w = Some user →
           truthy (metadata user !! "oauth_token") = false) →
  truthy (session_oauth_token w) = false →
  let w1 := (on_chat_start ext w).2 in
  on_chat_start ext w
  = (Return tt,
     mkClientWorld (client_environ w) (session_user w) (session_oauth_token w)
       (session_agent w) (session_mcp_client w)
       (chat w
        ++ ["Authentication required. Please log in via the OAuth provider."])
       (connections w))
  ∧ (session_agent w = None →
     on_message ext content w1
     = (Return tt,
        mkClientWorld (client_environ w) (session_user w)
          (session_oauth_token w) None (session_mcp_client w)
          (chat w1
           ++ ["Session not initialized. Please refresh the page and log in."])
          (connections w))).
Proof.
  intros Huser Hsess w1.
  assert (Hstart : on_chat_start ext w
            = (Return tt,
               mkClientWorld (client_environ w) (session_user w)
                 (session_oauth_token w) (session_agent w)
                 (session_mcp_client w)
                 (chat w ++ ["Authentication required. Please log in via the OAuth provider."])
                 (connections w))).
  { unfold on_chat_start.
    set (chosen := if truthy _ then _ else _).
    assert (truthy chosen = false) as ->; [|done].
    subst chosen. destruct (session_user w) as [user|].
    - by rewrite (Huser user eq_refl).
    - done. }
  split; [exact Hstart|]. intros Hagent.
  subst w1. rewrite Hstart. unfold on_message. cbn. by rewrite Hagent.
Qed.

(** X23. A failed connection is reported, not raised.  Wherever the token
    of the session comes from, the user the OAuth callback returned or the
    session itself: when building the agent fails with an [Exception],
    [on_chat_start] returns normally, shows the failure with the text of
    the exception, and stores no agent: the session is as it was. *)
Theorem connection_failure_is_reported w token e :
  token ≠ EmptyString →
  (∃ user, session_user w = Some user
           ∧ metadata user !! "oauth_token" = Some token)
  ∨ ((∀ user, session_user w = Some user →
              truthy (metadata user !! "oauth_token") = false)
     ∧ session_oauth_token w = Some token) →
  build_agent ext
    {| transport := "streamable_http";
       url := default "http://localhost:8001/mcp"
                      (client_environ w !! "MCP_SERVER_URL");
       connection_headers := [("Authorization", "Bearer " ++ token)] |}
    "gpt-4o" = inl e →
  is_Exception e = true →
  let w1 := (on_chat_start ext w).2 in
  (on_chat_start ext w).1 = Return tt
  ∧ chat w1
    = (chat w ++ [("Failed to connect to MCP server: "
                   ++ str_of_exception ext e)%string])%list
  ∧ session_agent w1 = session_agent w
  ∧ session_mcp_client w1 = session_mcp_client w.
Proof.
  intros Htoken Hwhere Hbuild Hexc w1. subst w1.
  unfold on_chat_start.
  set (chosen := if truthy _ then _ else _).
  assert (chosen = Some token) as ->.
  { subst chosen. destruct Hwhere as [(user & -> & ->) | [Hnone Hsess]].
    - by rewrite truthy_true.
    - destruct (session_user w) as [user|].
      + by rewrite (Hnone user eq_refl).
      + done. }
  rewrite truthy_true by done. cbn [negb default from_option id].
  unfold cbind, ctry_except, create_mcp_agent.
  rewrite Hbuild, Hexc. done.
Qed.

(** X24. [on_message] contains the agent's failures.  With an agent in
    the session whose [ainvoke] raises nothing but [Exception]s,
    [on_message] returns normally and adds exactly one message to the chat:
    the content of the last message of the response, or, when the agent
    raised or answered with no message at all, the text "Error: " followed
    by the text of the exception.  Nothing else of the session changes. *)
Theorem on_message_contains_failures w agent content :
  session_agent w = Some agent →
  (∀ e, ainvoke agent content = inl e → is_Exception e = true) →
  on_message ext content w
  = (Return tt,
     mkClientWorld (client_environ w) (session_user w) (session_oauth_token w)
       (session_agent w) (session_mcp_client w)
       (chat w
        ++ [match ainvoke agent content with
            | inl e => "Error: " ++ str_of_exception ext e
            | inr messages =>
                match last messages with
                | Some final_content => final_content
                | None => "Error: " ++ str_of_exception ext IndexError
                end
            end])
       (connections w)).
Proof.
  intros Hagent Hexc. unfold on_message. rewrite Hagent.
  unfold cbind, ctry_except, send_message, update_message, last_content.
  cbn. destruct (ainvoke agent content) as [e|messages] eqn:Hinvoke.
  - rewrite (Hexc e eq_refl). cbn. by rewrite insert_at_end, Hagent.
  - destruct (last messages); cbn; by rewrite insert_at_end, Hagent.
Qed.
End ClientProperties.

(** * The further properties on the concrete deployments *)

Lemma bearer_token_refused_witness :
  (extract_bearer_token Demo2.broken_request Demo.w0).1
    = Raise (PermissionError "No bearer token found in request")
  ∧ (extract_bearer_token Demo2.broken_request Demo.w0).2 = Demo.w0.
Proof.
  assert (H : (extract_bearer_token Demo2.broken_request Demo.w0).1
              = Raise (PermissionError "No bearer token found in request"))
    by (vm_compute; reflexivity).
  split; [exact H|].
  exact (proj1 (bearer_token_refused Demo2.broken_request Demo.w0 _ H)).
Defined.

Lemma fetch_all_entities_last_wins_witness :
  outcome (downstream_reply Demo2.rt Demo.w0 "http://api")
    = inr [("e1", Demo.e1); ("e2", Demo.e2); ("e1", Demo2.e1_revised)]
  ∧ ∃ d,
      fetch_all_entities Demo2.rt HttpxAsyncClient "http://api" Demo.w0
        = (Return d, asked_downstream Demo2.rt Demo.w0 "http://api")
      ∧ dict_get d "e1" = Some Demo2.e1_revised
      ∧ dict_len d = 2%nat.
Proof.
  assert (H : outcome (downstream_reply Demo2.rt Demo.w0 "http://api")
              = inr [("e1", Demo.e1); ("e2", Demo.e2);
                     ("e1", Demo2.e1_revised)])
    by (vm_compute; reflexivity).
  split; [exact H|].
  destruct (fetch_all_entities_last_wins Demo2.rt HttpxAsyncClient
              "http://api" Demo.w0 _ H)
    as (d & Hfetch & _ & Hlast & _ & Hlen & _).
  exists d. split; [exact Hfetch|]. split.
  - apply (Hlast [("e1", Demo.e1); ("e2", Demo.e2)] "e1" Demo2.e1_revised []).
    + reflexivity.
    + apply not_elem_of_nil.
  - rewrite Hlen. vm_compute. reflexivity.
Defined.

Lemma listed_entities_are_fetchable_witness :
  (extract_bearer_token (Demo.bearer "admin-token") Demo.w0).1
    = Return "admin-token"
  ∧ get_entitlements Demo.rt "admin-token" Demo.w0
    = (Return Demo.admin, (get_entitlements Demo.rt "admin-token" Demo.w0).2)
  ∧ UserEntitlements.global_roles Demo.admin
      ∩ list_to_set ["reader"; "admin"] ≠ ∅
  ∧ current Demo.w0 = Some Demo.snapshot0
  ∧ unique_keys (CachedData.entities Demo.snapshot0)
  ∧ dict_get (CachedData.entities Demo.snapshot0) "e2" = Some Demo.e2
  ∧ EntityData.category Demo.e2
      ∈ UserEntitlements.permitted_categories Demo.admin
  ∧ Demo.e2 ∈ visible_entities Demo.snapshot0 Demo.admin None.
Proof.
  assert (H1 : (extract_bearer_token (Demo.bearer "admin-token") Demo.w0).1
               = Return "admin-token") by (vm_compute; reflexivity).
  assert (H2 : get_entitlements Demo.rt "admin-token" Demo.w0
               = (Return Demo.admin,
                  (get_entitlements Demo.rt "admin-token" Demo.w0).2))
    by (vm_compute; reflexivity).
  assert (H3 : UserEntitlements.global_roles Demo.admin
                 ∩ list_to_set ["reader"; "admin"] ≠ ∅) by (by vm_compute).
  assert (H4 : current Demo.w0 = Some Demo.snapshot0) by reflexivity.
  assert (H5 : unique_keys (CachedData.entities Demo.snapshot0)).
  { apply (bool_decide_unpack _). vm_compute. exact I. }
  assert (H6 : dict_get (CachedData.entities Demo.snapshot0) "e2"
               = Some Demo.e2) by (vm_compute; reflexivity).
  assert (H7 : EntityData.category Demo.e2
                 ∈ UserEntitlements.permitted_categories Demo.admin)
    by (vm_compute; reflexivity).
  repeat (split; [assumption|]).
  exact (proj1 (proj2 (proj2
           (listed_entities_are_fetchable Demo.rt (Demo.bearer "admin-token")
              Demo.w0 "admin-token" Demo.admin _ Demo.snapshot0
              H1 H2 H3 H4 H5) "e2" Demo.e2 H6 H7))).
Defined.

Lemma filter_on_hidden_category_witness :
  (extract_bearer_token (Demo.bearer "reader-token") Demo.w0).1
    = Return "reader-token"
  ∧ get_entitlements Demo.rt "reader-token" Demo.w0
    = (Return Demo.reader, Demo.w_reader)
  ∧ UserEntitlements.global_roles Demo.reader
      ∩ list_to_set ["reader"; "admin"] ≠ ∅
  ∧ current Demo.w0 = Some Demo.snapshot0
  ∧ ("finance" ∉ UserEntitlements.permitted_categories Demo.reader)
  ∧ list_entities Demo.rt (Some "finance") (Some (Demo.bearer "reader-token"))
      Demo.w0
    = (Return "No entities found matching your entitlements and filter.",
       Demo.w_reader).
Proof.
  assert (H1 : (extract_bearer_token (Demo.bearer "reader-token") Demo.w0).1
               = Return "reader-token") by (vm_compute; reflexivity).
  assert (H2 : get_entitlements Demo.rt "reader-token" Demo.w0
               = (Return Demo.reader, Demo.w_reader))
    by (vm_compute; reflexivity).
  assert (H3 : UserEntitlements.global_roles Demo.reader
                 ∩ list_to_set ["reader"; "admin"] ≠ ∅) by (by vm_compute).
  assert (H4 : current Demo.w0 = Some Demo.snapshot0) by reflexivity.
  assert (H5 : "finance" ∉ UserEntitlements.permitted_categories Demo.reader)
    by (by vm_compute).
  repeat (split; [assumption|]).
  exact (filter_on_hidden_category Demo.rt (Demo.bearer "reader-token")
           Demo.w0 "reader-token" Demo.reader Demo.w_reader Demo.snapshot0
           "finance" H1 H2 H3 H4 (or_introl H5)).
Defined.

Lemma missing_categories_deny_all_witness :
  (extract_bearer_token (Demo.bearer "intern-token") Demo.w0).1
    = Return "intern-token"
  ∧ _entitlement_cache Demo.w0 !! sha256_hexdigest Demo2.rt "intern-token"
    = None
  ∧ outcome (verifier_reply Demo2.rt Demo.w0 "intern-token")
    = inr (UserInfo.mk "u4" "Ian" "ian@example.org" ["reader"] ∅)
  ∧ current Demo.w0 = Some Demo.snapshot0
  ∧ list_entities Demo2.rt None (Some (Demo.bearer "intern-token")) Demo.w0
    = (Return "No entities found matching your entitlements and filter.",
       (get_entitlements Demo2.rt "intern-token" Demo.w0).2).
Proof.
  assert (H1 : (extract_bearer_token (Demo.bearer "intern-token") Demo.w0).1
               = Return "intern-token") by (vm_compute; reflexivity).
  assert (H2 : _entitlement_cache Demo.w0
                 !! sha256_hexdigest Demo2.rt "intern-token" = None)
    by (vm_compute; reflexivity).
  assert (H3 : outcome (verifier_reply Demo2.rt Demo.w0 "intern-token")
               = inr (UserInfo.mk "u4" "Ian" "ian@example.org" ["reader"] ∅))
    by (vm_compute; reflexivity).
  assert (H4 : UserInfo.entitlements
                 (UserInfo.mk "u4" "Ian" "ian@example.org" ["reader"] ∅)
                 !! "categories" = None) by (vm_compute; reflexivity).
  assert (H5 : list_to_set
                 (UserInfo.roles
                    (UserInfo.mk "u4" "Ian" "ian@example.org" ["reader"] ∅))
                 ∩ list_to_set ["reader"; "admin"] ≠ (∅ : gset string))
    by (by vm_compute).
  assert (H6 : current Demo.w0 = Some Demo.snapshot0) by reflexivity.
  split; [exact H1|]. split; [exact H2|]. split; [exact H3|].
  split; [exact H6|].
  exact (proj1 (missing_categories_deny_all Demo2.rt
                  (Demo.bearer "intern-token") Demo.w0 "intern-token" _
                  Demo.snapshot0 H1 H2 H3 H4 H5 H6) None).
Defined.

Lemma entitlements_never_refreshed_witness :
  get_entitlements Demo.rt "reader-token" Demo.w0
    = (Return Demo.reader, Demo.w_reader)
  ∧ let w2 :=
      after_all Demo.rt
        [CallRefreshCache (Some (Demo.bearer "admin-token"));
         ScheduledCycle HttpxAsyncClient "http://api" 300;
         CallGetEntity "e1" (Some (Demo.bearer "guest-token"))]
        Demo.w_reader in
    get_entitlements Demo.rt "reader-token" w2 = (Return Demo.reader, w2).
Proof.
  assert (H : get_entitlements Demo.rt "reader-token" Demo.w0
              = (Return Demo.reader, Demo.w_reader))
    by (vm_compute; reflexivity).
  split; [exact H|].
  exact (proj2 (entitlements_never_refreshed Demo.rt "reader-token" Demo.w0
                  Demo.reader Demo.w_reader _ H)).
Defined.

Lemma refresh_needs_admin_witness :
  downstream_fetches
    (refresh_cache Demo.rt tt (Some (Demo.bearer "admin-token")) Demo.w0).2
    ≠ downstream_fetches Demo.w0
  ∧ ∃ c token p w1 client,
      Some (Demo.bearer "admin-token") = Some c
      ∧ (extract_bearer_token c Demo.w0).1 = Return token
      ∧ get_entitlements Demo.rt token Demo.w0 = (Return p, w1)
      ∧ "admin" ∈ UserEntitlements.global_roles p
      ∧ http_client (lifespan_context c) = Some client.
Proof.
  assert (H : downstream_fetches
                (refresh_cache Demo.rt tt (Some (Demo.bearer "admin-token"))
                   Demo.w0).2 ≠ downstream_fetches Demo.w0)
    by (by vm_compute).
  split; [exact H|].
  exact (refresh_needs_admin Demo.rt (Some (Demo.bearer "admin-token"))
           Demo.w0 (or_introl H)).
Defined.

Lemma refresh_loop_survives_witness :
  (∀ history url e,
     outcome (entities_endpoint Demo.rt history url) = inl e →
     is_Exception e = true)
  ∧ (refresh_loop Demo.rt 3 HttpxAsyncClient "http://down" 300 Demo.w_down).1
    = Return tt
  ∧ downstream_fetches
      (refresh_loop Demo.rt 3 HttpxAsyncClient "http://down" 300 Demo.w_down).2
    = (downstream_fetches Demo.w_down + 3)%nat.
Proof.
  assert (H : ∀ history url e,
            outcome (entities_endpoint Demo.rt history url) = inl e →
            is_Exception e = true).
  { intros history url e. simpl.
    destruct (decide (url = "http://api/entities")); simpl; [discriminate|].
    intros [= <-]. reflexivity. }
  split; [exact H|].
  destruct (refresh_loop_survives Demo.rt HttpxAsyncClient "http://down" 300
              H 3 Demo.w_down) as (Hret & _ & Hcount).
  split; [exact Hret | exact Hcount].
Defined.

Lemma refresh_loop_cancelled_witness :
  outcome (downstream_reply Demo2.rt (slept 300 Demo.w0) "http://cancelled")
    = inl CancelledError
  ∧ is_Exception CancelledError = false
  ∧ refresh_loop Demo2.rt 5 HttpxAsyncClient "http://cancelled" 300 Demo.w0
    = (Raise CancelledError,
       asked_downstream Demo2.rt (slept 300 Demo.w0) "http://cancelled").
Proof.
  assert (H1 : outcome (downstream_reply Demo2.rt (slept 300 Demo.w0)
                          "http://cancelled") = inl CancelledError)
    by (vm_compute; reflexivity).
  assert (H2 : is_Exception CancelledError = false) by reflexivity.
  split; [exact H1|]. split; [exact H2|].
  exact (proj1 (refresh_loop_cancelled Demo2.rt HttpxAsyncClient
                  "http://cancelled" 300 Demo.w0 CancelledError 4 H1 H2)).
Defined.

Lemma refresh_loop_during_outage_witness :
  (∀ history,
     ∃ e, outcome (entities_endpoint Demo.rt history
                     ("http://down" ++ "/entities")) = inl e
          ∧ is_Exception e = true)
  ∧ current
      (refresh_loop Demo.rt 4 HttpxAsyncClient "http://down" 300 Demo.w_down).2
    = current Demo.w_down.
Proof.
  assert (H : ∀ history,
            ∃ e, outcome (entities_endpoint Demo.rt history
                            ("http://down" ++ "/entities")) = inl e
                 ∧ is_Exception e = true).
  { intros history. exists TransportError. split; reflexivity. }
  split; [exact H|].
  destruct (refresh_loop_during_outage Demo.rt HttpxAsyncClient "http://down"
              300 H 4 Demo.w_down) as (_ & _ & Hcurrent & _).
  exact Hcurrent.
Defined.


Lemma refresh_cache_unconfigured_witness :
  (extract_bearer_token (Demo2.bearer_without_client "admin-token") Demo.w0).1
    = Return "admin-token"
  ∧ get_entitlements Demo.rt "admin-token" Demo.w0
    = (Return Demo.admin, (get_entitlements Demo.rt "admin-token" Demo.w0).2)
  ∧ "admin" ∈ UserEntitlements.global_roles Demo.admin
  ∧ http_client (lifespan_context (Demo2.bearer_without_client "admin-token"))
    = None
  ∧ refresh_cache Demo.rt tt
      (Some (Demo2.bearer_without_client "admin-token")) Demo.w0
    = (Return "No downstream API configured â€” cache refresh unavailable.",
       (get_entitlements Demo.rt "admin-token" Demo.w0).2).
Proof.
  assert (H1 : (extract_bearer_token
                  (Demo2.bearer_without_client "admin-token") Demo.w0).1
               = Return "admin-token") by (vm_compute; reflexivity).
  assert (H2 : get_entitlements Demo.rt "admin-token" Demo.w0
               = (Return Demo.admin,
                  (get_entitlements Demo.rt "admin-token" Demo.w0).2))
    by (vm_compute; reflexivity).
  assert (H3 : "admin" ∈ UserEntitlements.global_roles Demo.admin)
    by (vm_compute; reflexivity).
  assert (H4 : http_client
                 (lifespan_context (Demo2.bearer_without_client "admin-token"))
               = None) by reflexivity.
  repeat (split; [assumption|]).
  exact (proj1 (refresh_cache_unconfigured Demo.rt
                  (Demo2.bearer_without_client "admin-token") Demo.w0
                  "admin-token" Demo.admin _ H1 H2 H3) H4).
Defined.

Lemma startup_fail_fast_witness :
  let down := Demo2.w_unstarted_at "http://down" in
  let up := Demo2.w_unstarted_at "http://api" in
  let started := (app_lifespan Demo2.rt HttpxAsyncClient up).2 in
  (int_of_str Demo.rt (default "300" (environ down !! "CACHE_TTL_SECONDS"))
     = Some 300
   ∧ default EmptyString (environ down !! "DOWNSTREAM_API_URL") ≠ EmptyString
   ∧ outcome (downstream_reply Demo.rt down
                (default EmptyString (environ down !! "DOWNSTREAM_API_URL")))
     = inl TransportError
   ∧ (app_lifespan Demo.rt HttpxAsyncClient down).1 = Raise TransportError)
  ∧ (int_of_str Demo2.rt (default "300" (environ up !! "CACHE_TTL_SECONDS"))
       = Some 300
     ∧ default EmptyString (environ up !! "DOWNSTREAM_API_URL") ≠ EmptyString
     ∧ outcome (downstream_reply Demo2.rt up
                  (default EmptyString (environ up !! "DOWNSTREAM_API_URL")))
       = inr [("e1", Demo.e1); ("e2", Demo.e2); ("e1", Demo2.e1_revised)]
     ∧ (0 ≤ 300 < 2 ^ 34)%Z
     ∧ ∃ r, cache_holder started = [r]
            ∧ is_stale r (time_passes 300000000 started)
              = (Return false, time_passes 300000000 started)
            ∧ is_stale r (time_passes 300000001 started)
              = (Return true, time_passes 300000001 started)).
Proof.
  intros down up started.
  assert (H1 : int_of_str Demo.rt
                 (default "300" (environ down !! "CACHE_TTL_SECONDS"))
               = Some 300) by (vm_compute; reflexivity).
  assert (H2 : default EmptyString (environ down !! "DOWNSTREAM_API_URL")
               ≠ EmptyString) by (by vm_compute).
  assert (H3 : outcome
                 (downstream_reply Demo.rt down
                    (default EmptyString
                       (environ down !! "DOWNSTREAM_API_URL")))
               = inl TransportError) by (vm_compute; reflexivity).
  assert (H4 : int_of_str Demo2.rt
                 (default "300" (environ up !! "CACHE_TTL_SECONDS"))
               = Some 300) by (vm_compute; reflexivity).
  assert (H5 : default EmptyString (environ up !! "DOWNSTREAM_API_URL")
               ≠ EmptyString) by (by vm_compute).
  assert (H6 : outcome
                 (downstream_reply Demo2.rt up
                    (default EmptyString (environ up !! "DOWNSTREAM_API_URL")))
               = inr [("e1", Demo.e1); ("e2", Demo.e2);
                      ("e1", Demo2.e1_revised)]) by (vm_compute; reflexivity).
  assert (H7 : (0 ≤ 300 < 2 ^ 34)%Z) by lia.
  split.
  - repeat (split; [assumption|]).
    exact (proj1 (proj1 (proj2 (startup_fail_fast Demo.rt HttpxAsyncClient
                                  down))
                    300 TransportError H1 H2 H3)).
  - repeat (split; [assumption|]).
    destruct (proj2 (proj2 (startup_fail_fast Demo2.rt HttpxAsyncClient up))
                300 _ H4 H5 H6) as (_ & _ & _ & r & Hholder & Hstale).
    exists r. split; [exact Hholder|]. split.
    + exact (Hstale H7 300000000%Z ltac:(lia)).
    + exact (Hstale H7 300000001%Z ltac:(lia)).
Defined.

Lemma startup_without_downstream_witness :
  default EmptyString (environ Demo2.w_unstarted !! "DOWNSTREAM_API_URL")
    = EmptyString
  ∧ int_of_str Demo.rt
      (default "300" (environ Demo2.w_unstarted !! "CACHE_TTL_SECONDS"))
    = Some 300
  ∧ (app_lifespan Demo.rt HttpxAsyncClient Demo2.w_unstarted).1
    = Return {| http_client := None |}
  ∧ current (app_lifespan Demo.rt HttpxAsyncClient Demo2.w_unstarted).2
    = Some (CachedData.mk [] (clock Demo2.w_unstarted) 300).
Proof.
  assert (H1 : default EmptyString
                 (environ Demo2.w_unstarted !! "DOWNSTREAM_API_URL")
               = EmptyString) by (vm_compute; reflexivity).
  assert (H2 : int_of_str Demo.rt
                 (default "300"
                    (environ Demo2.w_unstarted !! "CACHE_TTL_SECONDS"))
               = Some 300) by (vm_compute; reflexivity).
  split; [exact H1|]. split; [exact H2|].
  destruct (startup_without_downstream Demo.rt HttpxAsyncClient
              Demo2.w_unstarted 300 H1 H2) as (Hret & _ & Hcurrent & _).
  split; [exact Hret | exact Hcurrent].
Defined.


Lemma cache_summary_lists_all_categories_witness :
  current Demo.w0 = Some Demo.snapshot0
  ∧ ∃ categories,
      (cache_summary Demo.rt Demo.anonymous Demo.w0).2 = Demo.w0
      ∧ NoDup categories
      ∧ ("finance" ∈ categories).
Proof.
  assert (H : current Demo.w0 = Some Demo.snapshot0) by reflexivity.
  split; [exact H|].
  destruct (cache_summary_lists_all_categories Demo.rt Demo.anonymous Demo.w0
              Demo.snapshot0 H) as (categories & Hrun & Hnodup & _ & Hall).
  exists categories. split; [by rewrite Hrun|]. split; [exact Hnodup|].
  apply Hall. exists Demo.e2. split; [|reflexivity].
  apply (list_elem_of_lookup_2 _ 1). reflexivity.
Defined.

Lemma capture_io_follows_environment_witness :
  getenv ({["MCP_OTEL_LOG" := "1"]} : gmap string string)
         "MCP_OTEL_CAPTURE_IO" = None
  ∧ _should_capture_io ({["MCP_OTEL_LOG" := "1"]} : gmap string string) None
    = false.
Proof.
  assert (H : getenv ({["MCP_OTEL_LOG" := "1"]} : gmap string string)
                     "MCP_OTEL_CAPTURE_IO" = None)
    by (vm_compute; reflexivity).
  split; [exact H|].
  exact (proj2 (proj2 (proj2
           (capture_io_follows_environment _ TelemetryConfig.defaults))) H).
Defined.

Lemma oauth_token_reaches_server_witness :
  "reader-token" ≠ EmptyString
  ∧ session_user DemoChat.w_logged_in
    = oauth_callback "generic" "reader-token" ∅ DemoChat.rae
  ∧ ∃ connection,
      connections (on_chat_start DemoChat.ext DemoChat.w_logged_in).2
        = [connection]
      ∧ extract_bearer_token
          {| get_http_request := Return (Some (request_of connection));
             lifespan_context := {| http_client := Some HttpxAsyncClient |} |}
          Demo.w0
        = (Return "reader-token", Demo.w0).
Proof.
  assert (H1 : "reader-token" ≠ EmptyString) by discriminate.
  assert (H2 : session_user DemoChat.w_logged_in
               = oauth_callback "generic" "reader-token" ∅ DemoChat.rae)
    by reflexivity.
  split; [exact H1|]. split; [exact H2|].
  destruct (oauth_token_reaches_server DemoChat.ext "generic" "reader-token"
              ∅ DemoChat.rae DemoChat.w_logged_in
              {| http_client := Some HttpxAsyncClient |} Demo.w0 H1 H2)
    as (connection & Hconn & _ & Hextract).
  exists connection. split; [exact Hconn | exact Hextract].
Defined.

Lemma chat_without_token_witness :
  (∀ user, session_user DemoChat.w_anonymous = Some user →
           truthy (metadata user !! "oauth_token") = false)
  ∧ truthy (session_oauth_token DemoChat.w_anonymous) = false
  ∧ chat (on_chat_start DemoChat.ext DemoChat.w_anonymous).2
    = ["Authentication required. Please log in via the OAuth provider."]
  ∧ connections (on_chat_start DemoChat.ext DemoChat.w_anonymous).2 = [].
Proof.
  assert (H1 : ∀ user, session_user DemoChat.w_anonymous = Some user →
                       truthy (metadata user !! "oauth_token") = false)
    by (intros user; discriminate).
  assert (H2 : truthy (session_oauth_token DemoChat.w_anonymous) = false)
    by reflexivity.
  split; [exact H1|]. split; [exact H2|].
  rewrite (proj1 (chat_without_token DemoChat.ext DemoChat.w_anonymous
                    "hello" H1 H2)).
  split; reflexivity.
Defined.

Lemma connection_failure_is_reported_witness :
  let nowhere : gmap string string :=
    {["MCP_SERVER_URL" := "http://nowhere/mcp"]} in
  let w_oauth :=
    mkClientWorld nowhere (oauth_callback "generic" "reader-token" ∅ DemoChat.rae)
      None None None [] [] in
  ("reader-token" ≠ EmptyString
   ∧ (∃ user, session_user w_oauth = Some user
              ∧ metadata user !! "oauth_token" = Some "reader-token")
   ∧ is_Exception TransportError = true
   ∧ (on_chat_start DemoChat.ext w_oauth).1 = Return tt
   ∧ chat (on_chat_start DemoChat.ext w_oauth).2
     = ["Failed to connect to MCP server: All connection attempts failed"]
   ∧ session_agent (on_chat_start DemoChat.ext w_oauth).2 = None)
  ∧ ("dev-token" ≠ EmptyString
     ∧ session_oauth_token DemoChat.w_dev = Some "dev-token"
     ∧ (on_chat_start DemoChat.ext DemoChat.w_dev).1 = Return tt
     ∧ chat (on_chat_start DemoChat.ext DemoChat.w_dev).2
       = ["Failed to connect to MCP server: All connection attempts failed"]
     ∧ session_agent (on_chat_start DemoChat.ext DemoChat.w_dev).2 = None).
Proof.
  intros nowhere w_oauth.
  assert (H1 : "reader-token" ≠ EmptyString) by discriminate.
  assert (H2 : ∃ user, session_user w_oauth = Some user
                       ∧ metadata user !! "oauth_token" = Some "reader-token")
    by (eexists; split; reflexivity).
  assert (H3 : build_agent DemoChat.ext
                 {| transport := "streamable_http";
                    url := default "http://localhost:8001/mcp"
                             (client_environ w_oauth !! "MCP_SERVER_URL");
                    connection_headers :=
                      [("Authorization", "Bearer " ++ "reader-token")] |}
                 "gpt-4o" = inl TransportError) by (vm_compute; reflexivity).
  assert (H4 : is_Exception TransportError = true) by reflexivity.
  assert (H5 : "dev-token" ≠ EmptyString) by discriminate.
  assert (H6 : session_oauth_token DemoChat.w_dev = Some "dev-token")
    by reflexivity.
  assert (H7 : ∀ user, session_user DemoChat.w_dev = Some user →
                       truthy (metadata user !! "oauth_token") = false)
    by (intros user; discriminate).
  assert (H8 : build_agent DemoChat.ext
                 {| transport := "streamable_http";
                    url := default "http://localhost:8001/mcp"
                             (client_environ DemoChat.w_dev !! "MCP_SERVER_URL");
                    connection_headers :=
                      [("Authorization", "Bearer " ++ "dev-token")] |}
                 "gpt-4o" = inl TransportError) by (vm_compute; reflexivity).
  split.
  - split; [exact H1|]. split; [exact H2|]. split; [exact H4|].
    destruct (connection_failure_is_reported DemoChat.ext w_oauth
                "reader-token" TransportError H1 (or_introl H2) H3 H4)
      as (Hret & Hchat & Hagent & _).
    split; [exact Hret|]. split; [exact Hchat | exact Hagent].
  - split; [exact H5|]. split; [exact H6|].
    destruct (connection_failure_is_reported DemoChat.ext DemoChat.w_dev
                "dev-token" TransportError H5 (or_intror (conj H7 H6)) H8 H4)
      as (Hret & Hchat & Hagent & _).
    split; [exact Hret|]. split; [exact Hchat | exact Hagent].
Defined.

Lemma on_message_contains_failures_witness :
  session_agent DemoChat.w_chatting = Some DemoChat.agent
  ∧ (∀ e, ainvoke DemoChat.agent "silence" = inl e → is_Exception e = true)
  ∧ (on_message DemoChat.ext "silence" DemoChat.w_chatting).1 = Return tt
  ∧ chat (on_message DemoChat.ext "silence" DemoChat.w_chatting).2
    = ["Welcome"; "Error: list index out of range"].
Proof.
  assert (H1 : session_agent DemoChat.w_chatting = Some DemoChat.agent)
    by reflexivity.
  assert (H2 : ∀ e, ainvoke DemoChat.agent "silence" = inl e →
                    is_Exception e = true) by (intros e; discriminate).
  split; [exact H1|]. split; [exact H2|].
  rewrite (on_message_contains_failures DemoChat.ext DemoChat.w_chatting
             DemoChat.agent "silence" H1 H2).
  split; reflexivity.
Defined.
